(** * Kernel dispatch of the FBGEMM gen_ai GEMM extensions

    A shallow embedding of the host-side dispatch code of
    [gemm/ck_extensions.hip] (bf16 GEMM, FP8 rowwise GEMM, bf16 grouped
    GEMM), of the FP8 rowwise preshuffle dispatcher and of
    [fp8_rowwise_grouped_gemm.hip], followed by the properties of the
    shape-keyed tables, the heuristic selectors, the grouped argument
    builder and the input validation of the entry points. *)

From stdpp Require Import gmap strings list pretty sorting.

Local Open Scope Z_scope.

(** ** The tensor framework, as far as the dispatch code observes it *)

Module Torch.

Inductive ScalarType :=
| kBFloat16 | kHalf | kFloat | kFloat8_e4m3fnuz | kFloat8_e4m3fn
| kLong | kInt | kByte.

#[global] Instance ScalarType_eq_dec : EqDecision ScalarType.
Proof. solve_decision. Defined.

(** What a tensor holds: caller data, the zeros of [at::zeros], the
    uninitialised memory of [at::empty], or what a kernel wrote. *)
Inductive Fill :=
| Data
| Zeros
| Uninit
| Output (kernel : string).

Record Tensor := mkTensor {
  dtype : ScalarType;
  is_cuda : bool;
  is_contiguous : bool;
  device : Z;
  sizes : list Z;
  fill : Fill
}.

(** Observable steps of a call: a kernel selection and a device launch. *)
Inductive Event :=
| Select (selector : string) (shape : list Z)
| Launch (kernel : string).

(** A call returns, throws the [c10::Error] of a failed [TORCH_CHECK],
    or faults (an integer division by zero on the host). *)
Inductive Outcome (A : Type) :=
| Ok (a : A)
| Throw (msg : string)
| Fault.
Arguments Ok {A} a.
Arguments Throw {A} msg.
Arguments Fault {A}.

Record Eff (A : Type) := mkEff { log : list Event; outcome : Outcome A }.
Arguments mkEff {A} log outcome.
Arguments log {A} e.
Arguments outcome {A} e.

#[global] Instance Eff_ret : MRet Eff := fun A a => mkEff [] (Ok a).

#[global] Instance Eff_bind : MBind Eff := fun A B f m =>
  match outcome m with
  | Ok a => mkEff (log m ++ log (f a)) (outcome (f a))
  | Throw msg => mkEff (log m) (Throw msg)
  | Fault => mkEff (log m) Fault
  end.

Definition throw {A} (msg : string) : Eff A := mkEff [] (Throw msg).
Definition fault {A} : Eff A := mkEff [] Fault.
Definition emit (ev : Event) : Eff unit := mkEff [ev] (Ok tt).

Definition TORCH_CHECK (cond : bool) (msg : string) : Eff unit :=
  if cond then mret tt else throw msg.

#[global] Instance Eff_fmap : FMap Eff := fun A B f m =>
  x ← m; mret (f x).

(** [a && b] on operands that may throw: [b] is evaluated only when
    [a] holds. *)
Definition and_then (a b : Eff bool) : Eff bool :=
  a ≫= λ x : bool, if x then b else mret false.

Definition TORCH_CHECK_ (cond : Eff bool) (msg : string) : Eff unit :=
  cond ≫= λ c : bool, TORCH_CHECK c msg.

(** [for (at::Tensor x : xs) { body }] *)
Fixpoint for_each {A} (body : A → Eff unit) (xs : list A) : Eff unit :=
  match xs with
  | [] => mret tt
  | x :: rest => body x ;; for_each body rest
  end.

(** Conversion of an [int64_t] to [int]: wrap-around at 32 bits. *)
Definition to_int (z : Z) : Z := (z + 2 ^ 31) `mod` 2 ^ 32 - 2 ^ 31.

(** C++ [/] and [%] on signed integers truncate towards zero; a zero
    divisor is undefined behaviour, modelled as [Fault]. *)
Definition cdiv (a b : Z) : Eff Z :=
  if decide (b = 0) then fault else mret (a `quot` b).

Definition dim (t : Tensor) : Z := Z.of_nat (length (sizes t)).

Definition numel (t : Tensor) : Z := foldr Z.mul 1 (sizes t).

(** [t.size(d)]: negative [d] counts from the back; out of range throws. *)
Definition size (t : Tensor) (d : Z) : Eff Z :=
  if decide (- dim t ≤ d < dim t) then
    match sizes t !! Z.to_nat (d `mod` dim t) with
    | Some s => mret s
    | None => throw "Dimension out of range"
    end
  else throw "Dimension out of range".

(** [c10::size_to_dim_(k, dims)]: the product of the first [k] sizes. *)
Definition size_to_dim_ (k : Z) (dims : list Z) : Eff Z :=
  TORCH_CHECK (bool_decide (0 ≤ k ≤ Z.of_nat (length dims))) "size_to_dim_" ;;
  mret (foldr Z.mul 1 (take (Z.to_nat k) dims)).

(** [v.back() = x] on a non-empty vector. *)
Definition set_back (v : list Z) (x : Z) : list Z :=
  <[pred (length v) := x]> v.

Definition zeros (shape : list Z) (like : Tensor) (ty : ScalarType) : Tensor :=
  mkTensor ty (is_cuda like) true (device like) shape Zeros.

Definition empty (shape : list Z) (like : Tensor) (ty : ScalarType) : Tensor :=
  mkTensor ty (is_cuda like) true (device like) shape Uninit.

(** A kernel call [k(..., Y)] launches [k], which fills and returns [Y]. *)
Definition run_kernel (k : string) (Y : Tensor) : Eff Tensor :=
  emit (Launch k) ;;
  mret (mkTensor (dtype Y) (is_cuda Y) (is_contiguous Y) (device Y)
          (sizes Y) (Output k)).

Definition threw {A} (e : Eff A) : Prop := ∃ msg, outcome e = Throw msg.

End Torch.

Import Torch.

(** ** [bf16_gemm] (gemm/ck_extensions.hip, first unit) *)

Module Bf16Gemm.

(** The template arguments of [bf16_gemm_impl]. *)
Record Config := mkConfig {
  BLOCK_SIZE : Z; MBLOCK : Z; NBLOCK : Z; KBLOCK : Z;
  MPER_XDL : Z; NPER_XDL : Z; MPER_WAVE : Z; NPER_WAVE : Z;
  CNPER_WAVE : Z; PADDING : bool
}.

(** The instance [DeviceGemmV2Instance] of a configuration, named by
    the arguments of [DeviceGemm_Xdl_CShuffleV3] that vary with the
    template arguments: the specialization [GemmSpec] and the nine
    numbers. The cluster lengths are computed from [BLOCK_SIZE] and
    [NBLOCK]; all other arguments are constants. *)
Definition DeviceGemmV2Instance (c : Config) : string :=
  "DeviceGemm_Xdl_CShuffleV3_"
  +:+ (if PADDING c then "MNKPadding" else "Default")
  +:+ "_" +:+ pretty (BLOCK_SIZE c)
  +:+ "_" +:+ pretty (MBLOCK c)
  +:+ "_" +:+ pretty (NBLOCK c)
  +:+ "_" +:+ pretty (KBLOCK c)
  +:+ "_" +:+ pretty (MPER_XDL c)
  +:+ "_" +:+ pretty (NPER_XDL c)
  +:+ "_" +:+ pretty (MPER_WAVE c)
  +:+ "_" +:+ pretty (NPER_WAVE c)
  +:+ "_" +:+ pretty (CNPER_WAVE c).

Definition bf16_gemm_impl (c : Config) (A B : Tensor) : Eff Tensor :=
  m ← size A 0;
  n ← size B 0;
  k ← size A 1;
  let M := to_int m in
  let N := to_int n in
  let K := to_int k in
  TORCH_CHECK (bool_decide (128 ≤ M) && bool_decide (128 ≤ N)
               && bool_decide (256 ≤ K))
    "Minimum supported M,N,K is 128,128,256." ;;
  let C := empty [M; N] A kBFloat16 in
  run_kernel (DeviceGemmV2Instance c) C.

Definition bf16_gemm (A B : Tensor) : Eff Tensor :=
  TORCH_CHECK (bool_decide (dtype A = kBFloat16)
               && bool_decide (dtype B = kBFloat16))
    "Inputs must be bfloat16." ;;
  m ← size A 0;
  n ← size B 0;
  k ← size A 1;
  let M := to_int m in
  let N := to_int n in
  let K := to_int k in
  let use_padding :=
    negb (M `rem` 256 =? 0) || negb (N `rem` 256 =? 0)
    || negb (K `rem` 256 =? 0) in
  let large :=
    (bool_decide (8192 ≤ M) && bool_decide (4096 ≤ N))
    || (bool_decide (8192 ≤ N) && bool_decide (4096 ≤ M)) in
  if use_padding then
    if large then
      bf16_gemm_impl (mkConfig 256 256 128 64 16 16 8 4 2 true) A B
    else
      bf16_gemm_impl (mkConfig 256 128 128 64 16 16 4 4 2 true) A B
  else
    if large then
      bf16_gemm_impl (mkConfig 256 256 128 64 16 16 8 4 2 false) A B
    else
      bf16_gemm_impl (mkConfig 256 128 128 64 16 16 4 4 2 false) A B.

End Bf16Gemm.

(** ** The standard containers behind the lookup tables *)

Module Std.

Section map.
Context {V : Type}.

(** [std::map<int, V>]: the entries in increasing key order. An
    insertion of a key that is present leaves the map unchanged. *)
Fixpoint map_insert (e : Z * V) (m : list (Z * V)) : list (Z * V) :=
  match m with
  | [] => [e]
  | e' :: rest =>
      if e.1 <? e'.1 then e :: m
      else if e'.1 <? e.1 then e' :: map_insert e rest
      else m
  end.

(** Construction from an initializer list. *)
Definition map_of_list (init : list (Z * V)) : list (Z * V) :=
  foldl (λ m e, map_insert e m) [] init.

(** Iterators are positions; [end()] is the length. [lower_bound]
    is the position of the first entry whose key is not less than
    [key]. *)
Fixpoint lower_bound (key : Z) (m : list (Z * V)) : nat :=
  match m with
  | [] => 0%nat
  | e :: rest => if e.1 <? key then S (lower_bound key rest) else 0%nat
  end.
End map.

Section unordered_map.
Context {K V : Type}.
Variable hasher : K → Z.
Variable key_eq : K → K → bool.

(** [find]: the entries whose hash is the hash of [k] are compared
    with [k] by the key equality; the first match is returned. *)
Definition umap_find (m : list (K * V)) (k : K) : option (K * V) :=
  List.find (λ e, (hasher e.1 =? hasher k) && key_eq e.1 k) m.

Definition umap_insert (m : list (K * V)) (e : K * V) : list (K * V) :=
  match umap_find m e.1 with
  | Some _ => m
  | None => m ++ [e]
  end.

Definition umap_of_list (init : list (K * V)) : list (K * V) :=
  foldl umap_insert [] init.
End unordered_map.

(** [size_t] is 64 bits wide. *)
Definition size_t (z : Z) : Z := z `mod` 2 ^ 64.

(** [std::hash] of an integer type is the conversion to [size_t]
    (libstdc++ and libc++). *)
Definition hash (x : Z) : Z := size_t x.

(** [std::equal_to] on tuples compares component by component. *)
Definition tuple2_eq (s t : Z * Z) : bool :=
  (s.1 =? t.1) && (s.2 =? t.2).
Definition tuple3_eq (s t : Z * Z * Z) : bool :=
  (s.1.1 =? t.1.1) && (s.1.2 =? t.1.2) && (s.2 =? t.2).
Definition tuple4_eq (s t : Z * Z * Z * Z) : bool :=
  (s.1.1.1 =? t.1.1.1) && (s.1.1.2 =? t.1.1.2) && (s.1.2 =? t.1.2)
  && (s.2 =? t.2).

End Std.

(** ** FP8 rowwise GEMM (gemm/ck_extensions.hip, second unit) *)

Module Fp8Rowwise.

(** A kernel is identified by the name of its function. *)
Definition RowwiseKernel : Type := string.

Definition NKLookupTableType : Type := list (Z * RowwiseKernel).

Section IntTupleHash.
Variable std_hash : Z → Z.

Definition IntTupleHash2 (t : Z * Z) : Z :=
  let hash1 := std_hash t.1 in
  let hash2 := std_hash t.2 in
  Z.lxor hash1 hash2.

Definition IntTupleHash3 (t : Z * Z * Z) : Z :=
  let hash1 := std_hash t.1.1 in
  let hash2 := std_hash t.1.2 in
  let hash3 := std_hash t.2 in
  Z.lxor (Z.lxor hash1 hash2) hash3.
End IntTupleHash.

(** The kernels declared in [kernels/fp8fp8bf16_rowwise_kernel_manifest.h],
    in declaration order. *)
Definition kernel_manifest : list RowwiseKernel := [
  "fp8fp8bf16_rowwise_64x16x16x128_16x16_1x1_8x8x1_8x8x1_1x16x1x4_4x4x1_1x1_interwave_v2";
  "fp8fp8bf16_rowwise_64x16x16x128_16x16_1x1_8x8x1_8x8x1_1x16x1x4_4x4x1_1x1_interwave_v1";
  "fp8fp8bf16_rowwise_64x16x16x64_16x16_1x1_4x16x1_4x16x1_1x16x1x4_4x4x1_1x1_interwave_v2";
  "fp8fp8bf16_rowwise_64x16x16x512_16x16_1x1_8x8x1_8x8x1_1x16x1x4_4x4x1_1x1_interwave_v2";
  "fp8fp8bf16_rowwise_64x16x16x512_16x16_1x1_32x2x1_32x2x1_1x16x1x4_4x4x1_1x1_interwave_v2";
  "fp8fp8bf16_rowwise_128x16x32x128_16x16_1x1_8x16x1_8x16x1_1x16x1x8_4x4x1_1x1_intrawave_v2";
  "fp8fp8bf16_rowwise_128x16x32x128_16x16_1x1_8x16x1_8x16x1_1x16x1x8_4x4x1_1x1_intrawave_v1";
  "fp8fp8bf16_rowwise_64x16x16x256_16x16_1x1_16x4x1_16x4x1_1x4x1x16_4x4x1_1x1_intrawave_v1";
  "fp8fp8bf16_rowwise_128x128x16x128_16x16_4x1_8x16x1_8x16x1_1x16x1x8_8x8x1_1x1_interwave_v2";
  "fp8fp8bf16_rowwise_128x16x32x128_16x16_1x1_8x16x1_8x16x1_1x16x1x8_4x4x1_1x1_interwave_v2";
  "fp8fp8bf16_rowwise_128x16x32x512_16x16_1x1_8x16x1_8x16x1_1x16x1x8_4x4x1_1x1_interwave_v2";
  "fp8fp8bf16_rowwise_128x32x16x128_16x16_1x1_8x16x1_8x16x1_1x16x1x8_2x2x1_1x1_interwave_v2";
  "fp8fp8bf16_rowwise_128x32x16x128_16x16_1x1_8x16x1_8x16x1_1x16x1x8_2x2x1_1x1_interwave_v1";
  "fp8fp8bf16_rowwise_128x32x16x128_16x16_1x1_8x16x1_8x16x1_1x16x1x8_2x2x1_1x1_interwave_v2_16";
  "fp8fp8bf16_rowwise_128x32x64x128_32x32_1x1_8x16x1_8x16x1_1x16x1x8_8x8x1_1x1_intrawave_v2";
  "fp8fp8bf16_rowwise_128x32x64x128_32x32_1x1_8x16x1_8x16x1_1x16x1x8_8x8x1_1x1_interwave_v2";
  "fp8fp8bf16_rowwise_256x128x128x128_32x32_2x2_8x32x1_8x32x1_1x32x1x8_8x8x1_1x1_interwave_v1";
  "fp8fp8bf16_rowwise_256x128x128x64_32x32_2x2_4x64x1_4x64x1_1x32x1x8_8x8x1_1x1_intrawave_v4";
  "fp8fp8bf16_rowwise_256x256x256x64_32x32_4x4_4x64x1_4x64x1_1x32x1x8_8x8x1_1x1_intrawave_v4";
  "fp8fp8bf16_rowwise_256x128x128x128_32x32_2x2_8x32x1_8x32x1_1x32x1x8_8x8x1_1x1_intrawave_v3";
  "fp8fp8bf16_rowwise_256x128x128x128_32x32_2x2_8x32x1_8x32x1_1x32x1x8_8x8x1_1x1_intrawave_v5";
  "fp8fp8bf16_rowwise_256x224x256x128_16x16_7x8_8x32x1_8x32x1_1x32x1x8_8x8x1_1x2_intrawave_v3";
  "fp8fp8bf16_rowwise_256x256x224x128_16x16_8x7_8x32x1_8x32x1_1x64x1x4_8x8x1_2x1_intrawave_v3";
  "fp8fp8bf16_rowwise_256x64x64x128_32x32_1x1_8x32x1_8x32x1_1x32x1x8_8x8x1_1x1_intrawave_v3";
  "fp8fp8bf16_rowwise_256x128x64x128_32x32_2x1_8x32x1_8x32x1_1x32x1x8_8x8x1_1x1_intrawave_v3";
  "fp8fp8bf16_rowwise_128x64x32x128_32x32_1x1_8x16x1_8x16x1_1x16x1x8_4x4x1_1x1_intrawave_v2";
  "fp8fp8bf16_rowwise_128x32x128x128_32x32_1x2_8x16x1_8x16x1_1x16x1x8_8x8x1_1x1_interwave_v2";
  "fp8fp8bf16_rowwise_256x256x256x128_16x16_8x8_8x32x1_8x32x1_1x32x1x8_8x8x1_1x2_intrawave_v3";
  "fp8fp8bf16_rowwise_256x256x256x64_16x16_8x8_4x64x1_4x64x1_1x32x1x8_8x8x1_1x2_intrawave_v3";
  "fp8fp8bf16_rowwise_128x128x32x128_32x32_2x1_8x16x1_8x16x1_1x16x1x8_4x4x1_1x1_intrawave_v2";
  "fp8fp8bf16_rowwise_256x256x192x128_32x32_4x3_8x32x1_8x32x1_1x32x1x8_8x8x1_1x1_intrawave_v3";
  "fp8fp8bf16_rowwise_256x128x160x128_32x32_1x5_8x32x1_8x32x1_1x64x1x4_8x8x1_1x1_intrawave_v3";
  "fp8fp8bf16_rowwise_256x128x192x128_32x32_2x3_8x32x1_8x32x1_1x32x1x8_8x8x1_1x1_intrawave_v3";
  "fp8fp8bf16_rowwise_256x192x128x128_16x16_6x4_8x32x1_8x32x1_1x32x1x8_8x8x1_2x2_intrawave_v3";
  "fp8fp8bf16_rowwise_256x192x256x128_16x16_6x8_8x32x1_8x32x1_1x32x1x8_8x8x1_2x2_intrawave_v3";
  "fp8fp8bf16_rowwise_256x256x96x128_32x32_2x3_8x32x1_8x32x1_1x64x1x4_8x8x1_2x1_intrawave_v3";
  "fp8fp8bf16_rowwise_256x256x128x128_32x32_4x2_8x32x1_8x32x1_1x32x1x8_8x8x1_1x1_intrawave_v3";
  "fp8fp8bf16_rowwise_128x16x32x128_16x16_1x1_8x16x1_8x16x1_1x16x1x8_4x4x1_1x1_interwave_v2_8";
  "fp8fp8bf16_rowwise_128x16x32x512_16x16_1x1_32x4x1_32x4x1_1x16x1x8_4x4x1_1x1_intrawave_v2";
  "fp8fp8bf16_rowwise_256x64x128x256_32x32_1x2_16x16x1_16x16x1_1x32x1x8_8x8x1_1x1_intrawave_v3";
  "fp8fp8bf16_rowwise_256x128x96x256_32x32_1x3_16x16x1_16x16x1_1x64x1x4_8x8x1_1x1_intrawave_v3";
  "fp8fp8bf16_rowwise_256x128x128x256_32x32_2x2_16x16x1_16x16x1_1x32x1x8_8x8x1_1x1_intrawave_v3";
  "fp8fp8bf16_rowwise_256x64x192x256_32x32_1x3_16x16x1_16x16x1_1x32x1x8_8x8x1_1x1_intrawave_v3";
  "fp8fp8bf16_rowwise_256x256x96x128_16x16_8x3_8x32x1_8x32x1_1x64x1x4_8x8x1_2x1_intrawave_v3";
  "fp8fp8bf16_rowwise_256x256x128x128_16x16_8x4_8x32x1_8x32x1_1x32x1x8_8x8x1_1x2_intrawave_v3";
  "fp8fp8bf16_rowwise_256x256x160x128_16x16_8x5_8x32x1_8x32x1_1x64x1x4_8x8x1_2x1_intrawave_v3";
  "fp8fp8bf16_rowwise_256x128x256x128_32x32_2x4_8x32x1_8x32x1_1x32x1x8_8x8x1_1x1_intrawave_v3";
  "fp8fp8bf16_rowwise_256x256x192x128_16x16_8x6_8x32x1_8x32x1_1x32x1x8_8x8x1_1x2_intrawave_v3";
  "fp8fp8bf16_rowwise_128x16x32x512_16x16_1x1_32x4x1_32x4x1_1x16x1x8_4x4x1_1x1_intrawave_v2_2";
  "fp8fp8bf16_rowwise_256x32x64x512_16x16_1x2_32x8x1_32x8x1_1x32x1x8_8x8x1_1x2_intrawave_v3";
  "fp8fp8bf16_rowwise_64x16x16x256_16x16_1x1_16x4x1_16x4x1_1x16x1x4_4x4x1_1x1_intrawave_v1";
  "fp8fp8bf16_rowwise_256x32x128x256_32x32_1x1_16x16x1_16x16x1_1x32x1x8_8x8x1_1x1_intrawave_v3";
  "fp8fp8bf16_rowwise_128x16x32x256_16x16_1x1_16x8x1_16x8x1_1x16x1x8_4x4x1_1x1_intrawave_v1";
  "fp8fp8bf16_rowwise_256x64x64x512_32x32_1x1_32x8x1_32x8x1_1x32x1x8_8x8x1_1x1_intrawave_v3";
  "fp8fp8bf16_rowwise_128x32x16x256_16x16_1x1_16x8x1_16x8x1_1x32x1x4_4x4x1_1x1_interwave_v1";
  "fp8fp8bf16_rowwise_256x64x96x256_16x16_2x3_16x16x1_16x16x1_1x64x1x4_8x8x1_2x1_intrawave_v3";
  "fp8fp8bf16_rowwise_128x16x32x512_16x16_1x1_32x4x1_32x4x1_1x16x1x8_4x4x1_1x1_interwave_v2";
  "fp8fp8bf16_rowwise_128x32x16x512_16x16_1x1_32x4x1_32x4x1_1x32x1x4_4x4x1_1x1_interwave_v2";
  "fp8fp8bf16_rowwise_128x32x16x512_16x16_1x1_32x4x1_32x4x1_1x32x1x4_4x4x1_1x1_intrawave_v2";
  "fp8fp8bf16_rowwise_256x16x64x512_16x16_1x1_32x8x1_32x8x1_1x16x1x16_4x4x1_1x1_intrawave_v3";
  "fp8fp8bf16_rowwise_128x16x32x512_16x16_1x1_32x4x1_32x4x1_1x16x1x8_4x4x1_1x1_interwave_v2_2";
  "fp8fp8bf16_rowwise_128x16x32x128_16x16_1x1_8x16x1_8x16x1_1x16x1x8_4x4x1_1x1_intrawave_v1";
  "fp8fp8bf16_rowwise_256x64x256x128_32x32_1x4_8x32x1_8x32x1_1x32x1x8_8x8x1_1x1_intrawave_v3";
  "fp8fp8bf16_rowwise_256x64x192x128_32x32_1x3_8x32x1_8x32x1_1x32x1x8_8x8x1_1x1_intrawave_v3";
  "fp8fp8bf16_rowwise_256x16x64x128_16x16_1x1_16x16x1_8x32x1_1x16x1x16_4x4x1_1x1_intrawave_v2_8";
  "fp8fp8bf16_rowwise_128x16x32x128_16x16_1x1_8x16x1_8x16x1_1x16x1x8_4x4x1_1x1_interwave_v2_4";
  "fp8fp8bf16_rowwise_256x64x128x128_32x32_1x2_8x32x1_8x32x1_1x32x1x8_8x8x1_1x1_intrawave_v3";
  "fp8fp8bf16_rowwise_128x64x32x128_32x32_1x1_8x16x1_8x16x1_1x16x1x8_4x4x1_1x1_interwave_v2";
  "fp8fp8bf16_rowwise_128x16x32x128_16x16_1x1_8x16x1_8x16x1_1x16x1x8_4x4x1_1x1_intrawave_v2_8";
  "fp8fp8bf16_rowwise_256x64x16x512_16x16_1x1_32x8x1_32x8x1_1x64x1x4_4x4x1_1x1_intrawave_v2";
  "fp8fp8bf16_rowwise_256x192x224x128_16x16_6x7_8x32x1_8x32x1_1x64x1x4_8x8x1_2x1_intrawave_v3";
  "fp8fp8bf16_rowwise_256x160x256x128_16x16_5x8_8x32x1_8x32x1_1x32x1x8_8x8x1_1x2_intrawave_v3";
  "fp8fp8bf16_rowwise_256x160x96x128_16x16_5x3_8x32x1_8x32x1_1x32x1x8_4x4x1_1x1_intrawave_v3";
  "fp8fp8bf16_rowwise_256x192x192x128_16x16_6x6_8x32x1_8x32x1_1x32x1x8_8x8x1_1x2_intrawave_v3";
  "fp8fp8bf16_rowwise_256x96x128x128_16x16_3x4_8x32x1_8x32x1_1x32x1x8_8x8x1_1x2_intrawave_v3";
  "fp8fp8bf16_rowwise_256x128x96x128_16x16_4x3_8x32x1_8x32x1_1x64x1x4_8x8x1_2x1_intrawave_v3";
  "fp8fp8bf16_rowwise_256x192x256x128_16x16_6x8_8x32x1_8x32x1_1x32x1x8_8x8x1_1x2_intrawave_v3";
  "fp8fp8bf16_rowwise_256x128x128x128_16x16_4x4_8x32x1_8x32x1_1x32x1x8_8x8x1_1x2_intrawave_v3";
  "fp8fp8bf16_rowwise_256x224x160x128_16x16_7x5_8x32x1_8x32x1_1x32x1x8_4x4x1_1x1_intrawave_v3";
  "fp8fp8bf16_rowwise_256x128x64x256_32x32_2x1_16x16x1_16x16x1_1x32x1x8_8x8x1_1x1_intrawave_v3";
  "fp8fp8bf16_rowwise_256x80x128x256_16x16_5x2_16x16x1_16x16x1_1x16x1x16_8x8x1_1x2_intrawave_v3";
  "fp8fp8bf16_rowwise_256x16x64x512_16x16_1x1_32x8x1_32x8x1_1x16x1x16_4x4x1_1x1_intrawave_v2";
  "fp8fp8bf16_rowwise_256x160x128x128_16x16_5x4_8x32x1_8x32x1_1x32x1x8_8x8x1_1x2_intrawave_v3";
  "fp8fp8bf16_rowwise_256x224x192x128_16x16_7x6_8x32x1_8x32x1_1x32x1x8_8x8x1_1x2_intrawave_v3";
  "fp8fp8bf16_rowwise_256x128x160x128_16x16_4x5_8x32x1_8x32x1_1x64x1x4_8x8x1_2x1_intrawave_v3"
].

Definition rowwise_lookup_dispatch_init : list (Z * Z * Z * RowwiseKernel) := [
  ((16, 1280, 8192),
   "fp8fp8bf16_rowwise_128x16x32x128_16x16_1x1_8x16x1_8x16x1_1x16x1x8_4x4x1_1x1_interwave_v2");
  ((32, 1280, 8192),
   "fp8fp8bf16_rowwise_128x32x16x128_16x16_1x1_8x16x1_8x16x1_1x16x1x8_2x2x1_1x1_interwave_v2");
  ((64, 1280, 8192),
   "fp8fp8bf16_rowwise_128x32x16x128_16x16_1x1_8x16x1_8x16x1_1x16x1x8_2x2x1_1x1_interwave_v2");
  ((128, 1280, 8192),
   "fp8fp8bf16_rowwise_128x16x32x128_16x16_1x1_8x16x1_8x16x1_1x16x1x8_4x4x1_1x1_interwave_v2");
  ((16, 8192, 1024),
   "fp8fp8bf16_rowwise_128x16x32x128_16x16_1x1_8x16x1_8x16x1_1x16x1x8_4x4x1_1x1_intrawave_v2");
  ((32, 8192, 1024),
   "fp8fp8bf16_rowwise_128x32x16x128_16x16_1x1_8x16x1_8x16x1_1x16x1x8_2x2x1_1x1_interwave_v2");
  ((64, 8192, 1024),
   "fp8fp8bf16_rowwise_128x32x16x128_16x16_1x1_8x16x1_8x16x1_1x16x1x8_2x2x1_1x1_interwave_v2");
  ((128, 8192, 1024),
   "fp8fp8bf16_rowwise_256x64x64x128_32x32_1x1_8x32x1_8x32x1_1x32x1x8_8x8x1_1x1_intrawave_v3");
  ((16, 13312, 6656),
   "fp8fp8bf16_rowwise_64x16x16x256_16x16_1x1_16x4x1_16x4x1_1x4x1x16_4x4x1_1x1_intrawave_v1");
  ((32, 13312, 6656),
   "fp8fp8bf16_rowwise_128x32x64x128_32x32_1x1_8x16x1_8x16x1_1x16x1x8_8x8x1_1x1_intrawave_v2");
  ((64, 13312, 6656),
   "fp8fp8bf16_rowwise_256x64x64x128_32x32_1x1_8x32x1_8x32x1_1x32x1x8_8x8x1_1x1_intrawave_v3");
  ((128, 13312, 6656),
   "fp8fp8bf16_rowwise_256x128x64x128_32x32_2x1_8x32x1_8x32x1_1x32x1x8_8x8x1_1x1_intrawave_v3");
  ((16, 13312, 16384),
   "fp8fp8bf16_rowwise_64x16x16x512_16x16_1x1_32x2x1_32x2x1_1x16x1x4_4x4x1_1x1_interwave_v2");
  ((32, 13312, 16384),
   "fp8fp8bf16_rowwise_128x32x64x128_32x32_1x1_8x16x1_8x16x1_1x16x1x8_8x8x1_1x1_interwave_v2");
  ((64, 13312, 16384),
   "fp8fp8bf16_rowwise_256x64x64x128_32x32_1x1_8x32x1_8x32x1_1x32x1x8_8x8x1_1x1_intrawave_v3");
  ((128, 13312, 16384),
   "fp8fp8bf16_rowwise_256x128x64x128_32x32_2x1_8x32x1_8x32x1_1x32x1x8_8x8x1_1x1_intrawave_v3");
  ((1024, 13312, 16384),
   "fp8fp8bf16_rowwise_256x256x224x128_16x16_8x7_8x32x1_8x32x1_1x64x1x4_8x8x1_2x1_intrawave_v3");
  ((2048, 13312, 16384),
   "fp8fp8bf16_rowwise_256x224x256x128_16x16_7x8_8x32x1_8x32x1_1x32x1x8_8x8x1_1x2_intrawave_v3");
  ((4096, 13312, 16384),
   "fp8fp8bf16_rowwise_256x256x256x128_16x16_8x8_8x32x1_8x32x1_1x32x1x8_8x8x1_1x2_intrawave_v3");
  ((8192, 13312, 16384),
   "fp8fp8bf16_rowwise_256x256x256x128_16x16_8x8_8x32x1_8x32x1_1x32x1x8_8x8x1_1x2_intrawave_v3");
  ((16, 16384, 6656),
   "fp8fp8bf16_rowwise_64x16x16x256_16x16_1x1_16x4x1_16x4x1_1x4x1x16_4x4x1_1x1_intrawave_v1");
  ((32, 16384, 6656),
   "fp8fp8bf16_rowwise_128x32x64x128_32x32_1x1_8x16x1_8x16x1_1x16x1x8_8x8x1_1x1_intrawave_v2");
  ((64, 16384, 6656),
   "fp8fp8bf16_rowwise_256x64x64x128_32x32_1x1_8x32x1_8x32x1_1x32x1x8_8x8x1_1x1_intrawave_v3");
  ((128, 16384, 6656),
   "fp8fp8bf16_rowwise_256x128x64x128_32x32_2x1_8x32x1_8x32x1_1x32x1x8_8x8x1_1x1_intrawave_v3");
  ((1024, 16384, 6656),
   "fp8fp8bf16_rowwise_256x256x224x128_16x16_8x7_8x32x1_8x32x1_1x64x1x4_8x8x1_2x1_intrawave_v3");
  ((2048, 16384, 6656),
   "fp8fp8bf16_rowwise_256x256x224x128_16x16_8x7_8x32x1_8x32x1_1x64x1x4_8x8x1_2x1_intrawave_v3");
  ((4096, 16384, 6656),
   "fp8fp8bf16_rowwise_256x224x256x128_16x16_7x8_8x32x1_8x32x1_1x32x1x8_8x8x1_1x2_intrawave_v3");
  ((8192, 16384, 6656),
   "fp8fp8bf16_rowwise_256x256x256x128_16x16_8x8_8x32x1_8x32x1_1x32x1x8_8x8x1_1x2_intrawave_v3");
  ((16, 16384, 16384),
   "fp8fp8bf16_rowwise_64x16x16x512_16x16_1x1_32x2x1_32x2x1_1x16x1x4_4x4x1_1x1_interwave_v2");
  ((32, 16384, 16384),
   "fp8fp8bf16_rowwise_128x32x64x128_32x32_1x1_8x16x1_8x16x1_1x16x1x8_8x8x1_1x1_interwave_v2");
  ((64, 16384, 16384),
   "fp8fp8bf16_rowwise_256x64x64x128_32x32_1x1_8x32x1_8x32x1_1x32x1x8_8x8x1_1x1_intrawave_v3");
  ((128, 16384, 16384),
   "fp8fp8bf16_rowwise_256x128x64x128_32x32_2x1_8x32x1_8x32x1_1x32x1x8_8x8x1_1x1_intrawave_v3");
  ((1536, 3584, 3584),
   "fp8fp8bf16_rowwise_256x128x160x128_32x32_1x5_8x32x1_8x32x1_1x64x1x4_8x8x1_1x1_intrawave_v3");
  ((8192, 9728, 3584),
   "fp8fp8bf16_rowwise_256x256x256x128_16x16_8x8_8x32x1_8x32x1_1x32x1x8_8x8x1_1x2_intrawave_v3");
  ((8192, 3584, 9728),
   "fp8fp8bf16_rowwise_256x256x224x128_16x16_8x7_8x32x1_8x32x1_1x64x1x4_8x8x1_2x1_intrawave_v3");
  ((8192, 3584, 3584),
   "fp8fp8bf16_rowwise_256x256x192x128_32x32_4x3_8x32x1_8x32x1_1x32x1x8_8x8x1_1x1_intrawave_v3");
  ((4096, 3584, 3584),
   "fp8fp8bf16_rowwise_256x256x224x128_16x16_8x7_8x32x1_8x32x1_1x64x1x4_8x8x1_2x1_intrawave_v3");
  ((768, 3584, 3584),
   "fp8fp8bf16_rowwise_256x128x128x128_32x32_2x2_8x32x1_8x32x1_1x32x1x8_8x8x1_1x1_intrawave_v3");
  ((4096, 9728, 3584),
   "fp8fp8bf16_rowwise_256x256x256x128_16x16_8x8_8x32x1_8x32x1_1x32x1x8_8x8x1_1x2_intrawave_v3");
  ((4096, 3584, 9728),
   "fp8fp8bf16_rowwise_256x224x256x128_16x16_7x8_8x32x1_8x32x1_1x32x1x8_8x8x1_1x2_intrawave_v3");
  ((7200, 3584, 3584),
   "fp8fp8bf16_rowwise_256x256x192x128_32x32_4x3_8x32x1_8x32x1_1x32x1x8_8x8x1_1x1_intrawave_v3");
  ((7200, 9728, 3584),
   "fp8fp8bf16_rowwise_256x256x256x128_16x16_8x8_8x32x1_8x32x1_1x32x1x8_8x8x1_1x2_intrawave_v3");
  ((7200, 3584, 9728),
   "fp8fp8bf16_rowwise_256x256x192x128_32x32_4x3_8x32x1_8x32x1_1x32x1x8_8x8x1_1x1_intrawave_v3");
  ((3600, 3584, 3584),
   "fp8fp8bf16_rowwise_256x256x224x128_16x16_8x7_8x32x1_8x32x1_1x64x1x4_8x8x1_2x1_intrawave_v3");
  ((3600, 9728, 3584),
   "fp8fp8bf16_rowwise_256x256x256x128_16x16_8x8_8x32x1_8x32x1_1x32x1x8_8x8x1_1x2_intrawave_v3");
  ((3600, 3584, 9728),
   "fp8fp8bf16_rowwise_256x256x224x128_16x16_8x7_8x32x1_8x32x1_1x64x1x4_8x8x1_2x1_intrawave_v3");
  ((1536, 4096, 4096),
   "fp8fp8bf16_rowwise_256x192x128x128_16x16_6x4_8x32x1_8x32x1_1x32x1x8_8x8x1_2x2_intrawave_v3");
  ((3600, 4096, 4096),
   "fp8fp8bf16_rowwise_256x192x256x128_16x16_6x8_8x32x1_8x32x1_1x32x1x8_8x8x1_2x2_intrawave_v3");
  ((3600, 11008, 4096),
   "fp8fp8bf16_rowwise_256x192x256x128_16x16_6x8_8x32x1_8x32x1_1x32x1x8_8x8x1_2x2_intrawave_v3");
  ((3600, 4096, 11008),
   "fp8fp8bf16_rowwise_256x192x256x128_16x16_6x8_8x32x1_8x32x1_1x32x1x8_8x8x1_2x2_intrawave_v3");
  ((4096, 4096, 4096),
   "fp8fp8bf16_rowwise_256x224x256x128_16x16_7x8_8x32x1_8x32x1_1x32x1x8_8x8x1_1x2_intrawave_v3");
  ((4096, 11008, 4096),
   "fp8fp8bf16_rowwise_256x224x256x128_16x16_7x8_8x32x1_8x32x1_1x32x1x8_8x8x1_1x2_intrawave_v3");
  ((4096, 4096, 11008),
   "fp8fp8bf16_rowwise_256x256x224x128_16x16_8x7_8x32x1_8x32x1_1x64x1x4_8x8x1_2x1_intrawave_v3");
  ((32768, 128, 8192),
   "fp8fp8bf16_rowwise_256x128x128x128_32x32_2x2_8x32x1_8x32x1_1x32x1x8_8x8x1_1x1_intrawave_v3");
  ((32768, 8192, 1024),
   "fp8fp8bf16_rowwise_256x128x128x128_32x32_2x2_8x32x1_8x32x1_1x32x1x8_8x8x1_1x1_intrawave_v3");
  ((32768, 8192, 3072),
   "fp8fp8bf16_rowwise_256x224x256x128_16x16_7x8_8x32x1_8x32x1_1x32x1x8_8x8x1_1x2_intrawave_v3");
  ((32768, 3072, 8192),
   "fp8fp8bf16_rowwise_256x224x256x128_16x16_7x8_8x32x1_8x32x1_1x32x1x8_8x8x1_1x2_intrawave_v3");
  ((32768, 1024, 8192),
   "fp8fp8bf16_rowwise_256x224x256x128_16x16_7x8_8x32x1_8x32x1_1x32x1x8_8x8x1_1x2_intrawave_v3")
].

Definition N_7168_K_8192_dispatch_table_init : list (Z * RowwiseKernel) := [
  (8, "fp8fp8bf16_rowwise_128x32x16x512_16x16_1x1_32x4x1_32x4x1_1x32x1x4_4x4x1_1x1_interwave_v2");
  (32, "fp8fp8bf16_rowwise_128x32x16x512_16x16_1x1_32x4x1_32x4x1_1x32x1x4_4x4x1_1x1_intrawave_v2");
  (64, "fp8fp8bf16_rowwise_256x32x64x512_16x16_1x2_32x8x1_32x8x1_1x32x1x8_8x8x1_1x2_intrawave_v3");
  (128, "fp8fp8bf16_rowwise_256x64x64x512_32x32_1x1_32x8x1_32x8x1_1x32x1x8_8x8x1_1x1_intrawave_v3");
  (320, "fp8fp8bf16_rowwise_256x64x128x256_32x32_1x2_16x16x1_16x16x1_1x32x1x8_8x8x1_1x1_intrawave_v3");
  (512, "fp8fp8bf16_rowwise_256x128x96x256_32x32_1x3_16x16x1_16x16x1_1x64x1x4_8x8x1_1x1_intrawave_v3");
  (576, "fp8fp8bf16_rowwise_256x128x128x128_32x32_2x2_8x32x1_8x32x1_1x32x1x8_8x8x1_1x1_intrawave_v3");
  (640, "fp8fp8bf16_rowwise_256x128x128x256_32x32_2x2_16x16x1_16x16x1_1x32x1x8_8x8x1_1x1_intrawave_v3");
  (768, "fp8fp8bf16_rowwise_256x128x160x128_32x32_1x5_8x32x1_8x32x1_1x64x1x4_8x8x1_1x1_intrawave_v3");
  (1024, "fp8fp8bf16_rowwise_256x256x96x128_16x16_8x3_8x32x1_8x32x1_1x64x1x4_8x8x1_2x1_intrawave_v3");
  (1280, "fp8fp8bf16_rowwise_256x256x128x128_16x16_8x4_8x32x1_8x32x1_1x32x1x8_8x8x1_1x2_intrawave_v3");
  (1536, "fp8fp8bf16_rowwise_256x256x160x128_16x16_8x5_8x32x1_8x32x1_1x64x1x4_8x8x1_2x1_intrawave_v3");
  (2048, "fp8fp8bf16_rowwise_256x256x192x128_16x16_8x6_8x32x1_8x32x1_1x32x1x8_8x8x1_1x2_intrawave_v3");
  (2304, "fp8fp8bf16_rowwise_256x256x224x128_16x16_8x7_8x32x1_8x32x1_1x64x1x4_8x8x1_2x1_intrawave_v3");
  (2560, "fp8fp8bf16_rowwise_256x256x256x128_16x16_8x8_8x32x1_8x32x1_1x32x1x8_8x8x1_1x2_intrawave_v3");
  (3328, "fp8fp8bf16_rowwise_256x256x160x128_16x16_8x5_8x32x1_8x32x1_1x64x1x4_8x8x1_2x1_intrawave_v3");
  (4096, "fp8fp8bf16_rowwise_256x256x192x128_16x16_8x6_8x32x1_8x32x1_1x32x1x8_8x8x1_1x2_intrawave_v3");
  (4672, "fp8fp8bf16_rowwise_256x224x256x128_16x16_7x8_8x32x1_8x32x1_1x32x1x8_8x8x1_1x2_intrawave_v3");
  (4864, "fp8fp8bf16_rowwise_256x256x224x128_16x16_8x7_8x32x1_8x32x1_1x64x1x4_8x8x1_2x1_intrawave_v3");
  (5376, "fp8fp8bf16_rowwise_256x256x256x128_16x16_8x8_8x32x1_8x32x1_1x32x1x8_8x8x1_1x2_intrawave_v3");
  (6144, "fp8fp8bf16_rowwise_256x256x192x128_16x16_8x6_8x32x1_8x32x1_1x32x1x8_8x8x1_1x2_intrawave_v3");
  (7168, "fp8fp8bf16_rowwise_256x256x224x128_16x16_8x7_8x32x1_8x32x1_1x64x1x4_8x8x1_2x1_intrawave_v3");
  (8192, "fp8fp8bf16_rowwise_256x256x256x128_16x16_8x8_8x32x1_8x32x1_1x32x1x8_8x8x1_1x2_intrawave_v3")
].

Definition N_8192_K_3584_dispatch_table_init : list (Z * RowwiseKernel) := [
  (8, "fp8fp8bf16_rowwise_128x16x32x512_16x16_1x1_32x4x1_32x4x1_1x16x1x8_4x4x1_1x1_interwave_v2");
  (16, "fp8fp8bf16_rowwise_128x16x32x512_16x16_1x1_32x4x1_32x4x1_1x16x1x8_4x4x1_1x1_intrawave_v2");
  (32, "fp8fp8bf16_rowwise_256x16x64x512_16x16_1x1_32x8x1_32x8x1_1x16x1x16_4x4x1_1x1_intrawave_v3");
  (64, "fp8fp8bf16_rowwise_256x32x64x512_16x16_1x2_32x8x1_32x8x1_1x32x1x8_8x8x1_1x2_intrawave_v3");
  (128, "fp8fp8bf16_rowwise_256x64x64x512_32x32_1x1_32x8x1_32x8x1_1x32x1x8_8x8x1_1x1_intrawave_v3");
  (192, "fp8fp8bf16_rowwise_256x64x96x256_16x16_2x3_16x16x1_16x16x1_1x64x1x4_8x8x1_2x1_intrawave_v3");
  (256, "fp8fp8bf16_rowwise_256x64x128x256_32x32_1x2_16x16x1_16x16x1_1x32x1x8_8x8x1_1x1_intrawave_v3");
  (384, "fp8fp8bf16_rowwise_256x128x96x256_32x32_1x3_16x16x1_16x16x1_1x64x1x4_8x8x1_1x1_intrawave_v3");
  (512, "fp8fp8bf16_rowwise_256x128x128x256_32x32_2x2_16x16x1_16x16x1_1x32x1x8_8x8x1_1x1_intrawave_v3");
  (640, "fp8fp8bf16_rowwise_256x128x160x128_32x32_1x5_8x32x1_8x32x1_1x64x1x4_8x8x1_1x1_intrawave_v3");
  (896, "fp8fp8bf16_rowwise_256x128x192x128_32x32_2x3_8x32x1_8x32x1_1x32x1x8_8x8x1_1x1_intrawave_v3");
  (1024, "fp8fp8bf16_rowwise_256x256x128x128_16x16_8x4_8x32x1_8x32x1_1x32x1x8_8x8x1_1x2_intrawave_v3");
  (1280, "fp8fp8bf16_rowwise_256x256x160x128_16x16_8x5_8x32x1_8x32x1_1x64x1x4_8x8x1_2x1_intrawave_v3");
  (1792, "fp8fp8bf16_rowwise_256x256x192x128_16x16_8x6_8x32x1_8x32x1_1x32x1x8_8x8x1_1x2_intrawave_v3");
  (2048, "fp8fp8bf16_rowwise_256x256x224x128_16x16_8x7_8x32x1_8x32x1_1x64x1x4_8x8x1_2x1_intrawave_v3");
  (2304, "fp8fp8bf16_rowwise_256x256x256x128_16x16_8x8_8x32x1_8x32x1_1x32x1x8_8x8x1_1x2_intrawave_v3");
  (2368, "fp8fp8bf16_rowwise_256x128x256x128_32x32_2x4_8x32x1_8x32x1_1x32x1x8_8x8x1_1x1_intrawave_v3");
  (2816, "fp8fp8bf16_rowwise_256x256x160x128_16x16_8x5_8x32x1_8x32x1_1x64x1x4_8x8x1_2x1_intrawave_v3");
  (3584, "fp8fp8bf16_rowwise_256x256x192x128_16x16_8x6_8x32x1_8x32x1_1x32x1x8_8x8x1_1x2_intrawave_v3");
  (4256, "fp8fp8bf16_rowwise_256x224x256x128_16x16_7x8_8x32x1_8x32x1_1x32x1x8_8x8x1_1x2_intrawave_v3");
  (4864, "fp8fp8bf16_rowwise_256x256x256x128_16x16_8x8_8x32x1_8x32x1_1x32x1x8_8x8x1_1x2_intrawave_v3");
  (5376, "fp8fp8bf16_rowwise_256x256x192x128_16x16_8x6_8x32x1_8x32x1_1x32x1x8_8x8x1_1x2_intrawave_v3");
  (6272, "fp8fp8bf16_rowwise_256x224x256x128_16x16_7x8_8x32x1_8x32x1_1x32x1x8_8x8x1_1x2_intrawave_v3");
  (7168, "fp8fp8bf16_rowwise_256x256x256x128_16x16_8x8_8x32x1_8x32x1_1x32x1x8_8x8x1_1x2_intrawave_v3");
  (7424, "fp8fp8bf16_rowwise_256x256x160x128_16x16_8x5_8x32x1_8x32x1_1x64x1x4_8x8x1_2x1_intrawave_v3");
  (8192, "fp8fp8bf16_rowwise_256x224x256x128_16x16_7x8_8x32x1_8x32x1_1x32x1x8_8x8x1_1x2_intrawave_v3")
].

Definition N_1024_K_5120_dispatch_table_init : list (Z * RowwiseKernel) := [
  (32, "fp8fp8bf16_rowwise_128x16x32x128_16x16_1x1_8x16x1_8x16x1_1x16x1x8_4x4x1_1x1_interwave_v2_8");
  (64, "fp8fp8bf16_rowwise_128x16x32x512_16x16_1x1_32x4x1_32x4x1_1x16x1x8_4x4x1_1x1_intrawave_v2_2");
  (128, "fp8fp8bf16_rowwise_128x16x32x512_16x16_1x1_32x4x1_32x4x1_1x16x1x8_4x4x1_1x1_intrawave_v2");
  (192, "fp8fp8bf16_rowwise_256x16x64x512_16x16_1x1_32x8x1_32x8x1_1x16x1x16_4x4x1_1x1_intrawave_v3");
  (608, "fp8fp8bf16_rowwise_256x32x64x512_16x16_1x2_32x8x1_32x8x1_1x32x1x8_8x8x1_1x2_intrawave_v3");
  (1216, "fp8fp8bf16_rowwise_256x64x64x512_32x32_1x1_32x8x1_32x8x1_1x32x1x8_8x8x1_1x1_intrawave_v3");
  (2432, "fp8fp8bf16_rowwise_256x64x128x256_32x32_1x2_16x16x1_16x16x1_1x32x1x8_8x8x1_1x1_intrawave_v3");
  (3456, "fp8fp8bf16_rowwise_256x128x96x256_32x32_1x3_16x16x1_16x16x1_1x64x1x4_8x8x1_1x1_intrawave_v3");
  (4864, "fp8fp8bf16_rowwise_256x128x128x256_32x32_2x2_16x16x1_16x16x1_1x32x1x8_8x8x1_1x1_intrawave_v3");
  (5472, "fp8fp8bf16_rowwise_256x128x160x128_32x32_1x5_8x32x1_8x32x1_1x64x1x4_8x8x1_1x1_intrawave_v3");
  (6368, "fp8fp8bf16_rowwise_256x128x192x128_32x32_2x3_8x32x1_8x32x1_1x32x1x8_8x8x1_1x1_intrawave_v3");
  (6912, "fp8fp8bf16_rowwise_256x256x96x128_16x16_8x3_8x32x1_8x32x1_1x64x1x4_8x8x1_2x1_intrawave_v3");
  (8192, "fp8fp8bf16_rowwise_256x256x128x128_16x16_8x4_8x32x1_8x32x1_1x32x1x8_8x8x1_1x2_intrawave_v3")
].

Definition N_5120_K_1024_dispatch_table_init : list (Z * RowwiseKernel) := [
  (16, "fp8fp8bf16_rowwise_128x16x32x128_16x16_1x1_8x16x1_8x16x1_1x16x1x8_4x4x1_1x1_interwave_v2");
  (32, "fp8fp8bf16_rowwise_64x16x16x256_16x16_1x1_16x4x1_16x4x1_1x16x1x4_4x4x1_1x1_intrawave_v1");
  (64, "fp8fp8bf16_rowwise_128x32x16x256_16x16_1x1_16x8x1_16x8x1_1x32x1x4_4x4x1_1x1_interwave_v1");
  (96, "fp8fp8bf16_rowwise_128x16x32x256_16x16_1x1_16x8x1_16x8x1_1x16x1x8_4x4x1_1x1_intrawave_v1");
  (192, "fp8fp8bf16_rowwise_256x32x128x256_32x32_1x1_16x16x1_16x16x1_1x32x1x8_8x8x1_1x1_intrawave_v3");
  (256, "fp8fp8bf16_rowwise_256x64x64x128_32x32_1x1_8x32x1_8x32x1_1x32x1x8_8x8x1_1x1_intrawave_v3");
  (320, "fp8fp8bf16_rowwise_256x64x96x256_16x16_2x3_16x16x1_16x16x1_1x64x1x4_8x8x1_2x1_intrawave_v3");
  (448, "fp8fp8bf16_rowwise_256x64x128x256_32x32_1x2_16x16x1_16x16x1_1x32x1x8_8x8x1_1x1_intrawave_v3");
  (640, "fp8fp8bf16_rowwise_256x128x96x256_32x32_1x3_16x16x1_16x16x1_1x64x1x4_8x8x1_1x1_intrawave_v3");
  (896, "fp8fp8bf16_rowwise_256x128x128x256_32x32_2x2_16x16x1_16x16x1_1x32x1x8_8x8x1_1x1_intrawave_v3");
  (1152, "fp8fp8bf16_rowwise_256x128x160x128_32x32_1x5_8x32x1_8x32x1_1x64x1x4_8x8x1_1x1_intrawave_v3");
  (1408, "fp8fp8bf16_rowwise_256x128x192x128_32x32_2x3_8x32x1_8x32x1_1x32x1x8_8x8x1_1x1_intrawave_v3");
  (1920, "fp8fp8bf16_rowwise_256x128x128x128_32x32_2x2_8x32x1_8x32x1_1x32x1x8_8x8x1_1x1_intrawave_v3");
  (2304, "fp8fp8bf16_rowwise_256x256x160x128_16x16_8x5_8x32x1_8x32x1_1x64x1x4_8x8x1_2x1_intrawave_v3");
  (2816, "fp8fp8bf16_rowwise_256x256x192x128_16x16_8x6_8x32x1_8x32x1_1x32x1x8_8x8x1_1x2_intrawave_v3");
  (3360, "fp8fp8bf16_rowwise_256x224x256x128_16x16_7x8_8x32x1_8x32x1_1x32x1x8_8x8x1_1x2_intrawave_v3");
  (3840, "fp8fp8bf16_rowwise_256x256x256x128_16x16_8x8_8x32x1_8x32x1_1x32x1x8_8x8x1_1x2_intrawave_v3");
  (4864, "fp8fp8bf16_rowwise_256x256x160x128_16x16_8x5_8x32x1_8x32x1_1x64x1x4_8x8x1_2x1_intrawave_v3");
  (5632, "fp8fp8bf16_rowwise_256x256x192x128_16x16_8x6_8x32x1_8x32x1_1x32x1x8_8x8x1_1x2_intrawave_v3");
  (6720, "fp8fp8bf16_rowwise_256x256x224x128_16x16_8x7_8x32x1_8x32x1_1x64x1x4_8x8x1_2x1_intrawave_v3");
  (7680, "fp8fp8bf16_rowwise_256x256x256x128_16x16_8x8_8x32x1_8x32x1_1x32x1x8_8x8x1_1x2_intrawave_v3");
  (8192, "fp8fp8bf16_rowwise_256x256x192x128_16x16_8x6_8x32x1_8x32x1_1x32x1x8_8x8x1_1x2_intrawave_v3")
].

Definition N_2048_K_5120_dispatch_table_init : list (Z * RowwiseKernel) := [
  (4, "fp8fp8bf16_rowwise_256x16x64x128_16x16_1x1_16x16x1_8x32x1_1x16x1x16_4x4x1_1x1_intrawave_v2_8");
  (8, "fp8fp8bf16_rowwise_128x16x32x128_16x16_1x1_8x16x1_8x16x1_1x16x1x8_4x4x1_1x1_interwave_v2_4");
  (64, "fp8fp8bf16_rowwise_128x32x16x512_16x16_1x1_32x4x1_32x4x1_1x32x1x4_4x4x1_1x1_intrawave_v2");
  (288, "fp8fp8bf16_rowwise_256x32x64x512_16x16_1x2_32x8x1_32x8x1_1x32x1x8_8x8x1_1x2_intrawave_v3");
  (576, "fp8fp8bf16_rowwise_256x64x64x512_32x32_1x1_32x8x1_32x8x1_1x32x1x8_8x8x1_1x1_intrawave_v3");
  (1216, "fp8fp8bf16_rowwise_256x64x128x256_32x32_1x2_16x16x1_16x16x1_1x32x1x8_8x8x1_1x1_intrawave_v3");
  (1664, "fp8fp8bf16_rowwise_256x128x96x256_32x32_1x3_16x16x1_16x16x1_1x64x1x4_8x8x1_1x1_intrawave_v3");
  (2432, "fp8fp8bf16_rowwise_256x128x128x256_32x32_2x2_16x16x1_16x16x1_1x32x1x8_8x8x1_1x1_intrawave_v3");
  (2944, "fp8fp8bf16_rowwise_256x128x160x128_32x32_1x5_8x32x1_8x32x1_1x64x1x4_8x8x1_1x1_intrawave_v3");
  (3456, "fp8fp8bf16_rowwise_256x128x192x128_32x32_2x3_8x32x1_8x32x1_1x32x1x8_8x8x1_1x1_intrawave_v3");
  (4864, "fp8fp8bf16_rowwise_256x256x128x128_16x16_8x4_8x32x1_8x32x1_1x32x1x8_8x8x1_1x2_intrawave_v3");
  (5888, "fp8fp8bf16_rowwise_256x256x160x128_16x16_8x5_8x32x1_8x32x1_1x64x1x4_8x8x1_2x1_intrawave_v3");
  (5984, "fp8fp8bf16_rowwise_256x256x192x128_16x16_8x6_8x32x1_8x32x1_1x32x1x8_8x8x1_1x2_intrawave_v3")
].

Definition N_896_K_5120_dispatch_table_init : list (Z * RowwiseKernel) := [
  (64, "fp8fp8bf16_rowwise_128x16x32x128_16x16_1x1_8x16x1_8x16x1_1x16x1x8_4x4x1_1x1_interwave_v2_8");
  (72, "fp8fp8bf16_rowwise_128x16x32x128_16x16_1x1_8x16x1_8x16x1_1x16x1x8_4x4x1_1x1_intrawave_v2_8");
  (80, "fp8fp8bf16_rowwise_128x16x32x512_16x16_1x1_32x4x1_32x4x1_1x16x1x8_4x4x1_1x1_interwave_v2_2");
  (160, "fp8fp8bf16_rowwise_128x32x16x512_16x16_1x1_32x4x1_32x4x1_1x32x1x4_4x4x1_1x1_intrawave_v2");
  (200, "fp8fp8bf16_rowwise_256x16x64x512_16x16_1x1_32x8x1_32x8x1_1x16x1x16_4x4x1_1x1_intrawave_v3");
  (256, "fp8fp8bf16_rowwise_256x64x16x512_16x16_1x1_32x8x1_32x8x1_1x64x1x4_4x4x1_1x1_intrawave_v2");
  (672, "fp8fp8bf16_rowwise_256x32x64x512_16x16_1x2_32x8x1_32x8x1_1x32x1x8_8x8x1_1x2_intrawave_v3");
  (1344, "fp8fp8bf16_rowwise_256x64x64x512_32x32_1x1_32x8x1_32x8x1_1x32x1x8_8x8x1_1x1_intrawave_v3");
  (2752, "fp8fp8bf16_rowwise_256x64x128x256_32x32_1x2_16x16x1_16x16x1_1x32x1x8_8x8x1_1x1_intrawave_v3");
  (3840, "fp8fp8bf16_rowwise_256x128x96x256_32x32_1x3_16x16x1_16x16x1_1x64x1x4_8x8x1_1x1_intrawave_v3");
  (5504, "fp8fp8bf16_rowwise_256x128x128x256_32x32_2x2_16x16x1_16x16x1_1x32x1x8_8x8x1_1x1_intrawave_v3");
  (5984, "fp8fp8bf16_rowwise_256x128x160x128_32x32_1x5_8x32x1_8x32x1_1x64x1x4_8x8x1_1x1_intrawave_v3")
].

Definition N_5120_K_640_dispatch_table_init : list (Z * RowwiseKernel) := [
  (64, "fp8fp8bf16_rowwise_128x16x32x128_16x16_1x1_8x16x1_8x16x1_1x16x1x8_4x4x1_1x1_interwave_v2");
  (80, "fp8fp8bf16_rowwise_128x32x16x128_16x16_1x1_8x16x1_8x16x1_1x16x1x8_2x2x1_1x1_interwave_v2");
  (112, "fp8fp8bf16_rowwise_128x16x32x128_16x16_1x1_8x16x1_8x16x1_1x16x1x8_4x4x1_1x1_intrawave_v1");
  (192, "fp8fp8bf16_rowwise_256x64x64x128_32x32_1x1_8x32x1_8x32x1_1x32x1x8_8x8x1_1x1_intrawave_v3");
  (224, "fp8fp8bf16_rowwise_128x32x64x128_32x32_1x1_8x16x1_8x16x1_1x16x1x8_8x8x1_1x1_interwave_v2");
  (256, "fp8fp8bf16_rowwise_128x64x32x128_32x32_1x1_8x16x1_8x16x1_1x16x1x8_4x4x1_1x1_interwave_v2");
  (384, "fp8fp8bf16_rowwise_256x128x64x128_32x32_2x1_8x32x1_8x32x1_1x32x1x8_8x8x1_1x1_intrawave_v3");
  (448, "fp8fp8bf16_rowwise_256x64x128x128_32x32_1x2_8x32x1_8x32x1_1x32x1x8_8x8x1_1x1_intrawave_v3");
  (512, "fp8fp8bf16_rowwise_256x128x128x128_32x32_2x2_8x32x1_8x32x1_1x32x1x8_8x8x1_1x1_intrawave_v3");
  (704, "fp8fp8bf16_rowwise_256x64x192x128_32x32_1x3_8x32x1_8x32x1_1x32x1x8_8x8x1_1x1_intrawave_v3");
  (896, "fp8fp8bf16_rowwise_256x128x128x128_32x32_2x2_8x32x1_8x32x1_1x32x1x8_8x8x1_1x1_intrawave_v3");
  (960, "fp8fp8bf16_rowwise_256x64x256x128_32x32_1x4_8x32x1_8x32x1_1x32x1x8_8x8x1_1x1_intrawave_v3");
  (1152, "fp8fp8bf16_rowwise_256x128x160x128_32x32_1x5_8x32x1_8x32x1_1x64x1x4_8x8x1_1x1_intrawave_v3");
  (1280, "fp8fp8bf16_rowwise_256x256x96x128_32x32_2x3_8x32x1_8x32x1_1x64x1x4_8x8x1_2x1_intrawave_v3");
  (1408, "fp8fp8bf16_rowwise_256x128x192x128_32x32_2x3_8x32x1_8x32x1_1x32x1x8_8x8x1_1x1_intrawave_v3");
  (1920, "fp8fp8bf16_rowwise_256x128x128x128_32x32_2x2_8x32x1_8x32x1_1x32x1x8_8x8x1_1x1_intrawave_v3");
  (2304, "fp8fp8bf16_rowwise_256x256x160x128_16x16_8x5_8x32x1_8x32x1_1x64x1x4_8x8x1_2x1_intrawave_v3");
  (2816, "fp8fp8bf16_rowwise_256x256x192x128_16x16_8x6_8x32x1_8x32x1_1x32x1x8_8x8x1_1x2_intrawave_v3");
  (3360, "fp8fp8bf16_rowwise_256x224x256x128_16x16_7x8_8x32x1_8x32x1_1x32x1x8_8x8x1_1x2_intrawave_v3");
  (3840, "fp8fp8bf16_rowwise_256x256x256x128_16x16_8x8_8x32x1_8x32x1_1x32x1x8_8x8x1_1x2_intrawave_v3");
  (4864, "fp8fp8bf16_rowwise_256x256x160x128_16x16_8x5_8x32x1_8x32x1_1x64x1x4_8x8x1_2x1_intrawave_v3");
  (5520, "fp8fp8bf16_rowwise_256x256x192x128_16x16_8x6_8x32x1_8x32x1_1x32x1x8_8x8x1_1x2_intrawave_v3");
  (5760, "fp8fp8bf16_rowwise_256x128x128x128_32x32_2x2_8x32x1_8x32x1_1x32x1x8_8x8x1_1x1_intrawave_v3");
  (5984, "fp8fp8bf16_rowwise_256x224x256x128_16x16_7x8_8x32x1_8x32x1_1x32x1x8_8x8x1_1x2_intrawave_v3")
].

Definition N_4096_K_5120_dispatch_table_init : list (Z * RowwiseKernel) := [
  (16, "fp8fp8bf16_rowwise_128x16x32x512_16x16_1x1_32x4x1_32x4x1_1x16x1x8_4x4x1_1x1_interwave_v2");
  (32, "fp8fp8bf16_rowwise_128x32x16x512_16x16_1x1_32x4x1_32x4x1_1x32x1x4_4x4x1_1x1_interwave_v2");
  (48, "fp8fp8bf16_rowwise_256x16x64x512_16x16_1x1_32x8x1_32x8x1_1x16x1x16_4x4x1_1x1_intrawave_v3");
  (128, "fp8fp8bf16_rowwise_256x32x64x512_16x16_1x2_32x8x1_32x8x1_1x32x1x8_8x8x1_1x2_intrawave_v3");
  (256, "fp8fp8bf16_rowwise_256x64x64x512_32x32_1x1_32x8x1_32x8x1_1x32x1x8_8x8x1_1x1_intrawave_v3");
  (288, "fp8fp8bf16_rowwise_256x32x128x256_32x32_1x1_16x16x1_16x16x1_1x32x1x8_8x8x1_1x1_intrawave_v3");
  (576, "fp8fp8bf16_rowwise_256x64x128x256_32x32_1x2_16x16x1_16x16x1_1x32x1x8_8x8x1_1x1_intrawave_v3");
  (896, "fp8fp8bf16_rowwise_256x128x96x128_16x16_4x3_8x32x1_8x32x1_1x64x1x4_8x8x1_2x1_intrawave_v3");
  (1152, "fp8fp8bf16_rowwise_256x128x128x128_16x16_4x4_8x32x1_8x32x1_1x32x1x8_8x8x1_1x2_intrawave_v3");
  (1392, "fp8fp8bf16_rowwise_256x128x160x128_16x16_4x5_8x32x1_8x32x1_1x64x1x4_8x8x1_2x1_intrawave_v3");
  (1440, "fp8fp8bf16_rowwise_256x160x128x128_16x16_5x4_8x32x1_8x32x1_1x32x1x8_8x8x1_1x2_intrawave_v3");
  (1776, "fp8fp8bf16_rowwise_256x128x96x128_16x16_4x3_8x32x1_8x32x1_1x64x1x4_8x8x1_2x1_intrawave_v3");
  (1824, "fp8fp8bf16_rowwise_256x96x128x128_16x16_3x4_8x32x1_8x32x1_1x32x1x8_8x8x1_1x2_intrawave_v3");
  (2240, "fp8fp8bf16_rowwise_256x160x96x128_16x16_5x3_8x32x1_8x32x1_1x32x1x8_4x4x1_1x1_intrawave_v3");
  (2496, "fp8fp8bf16_rowwise_256x192x192x128_16x16_6x6_8x32x1_8x32x1_1x32x1x8_8x8x1_1x2_intrawave_v3");
  (2816, "fp8fp8bf16_rowwise_256x256x160x128_16x16_8x5_8x32x1_8x32x1_1x64x1x4_8x8x1_2x1_intrawave_v3");
  (2896, "fp8fp8bf16_rowwise_256x224x192x128_16x16_7x6_8x32x1_8x32x1_1x32x1x8_8x8x1_1x2_intrawave_v3");
  (3040, "fp8fp8bf16_rowwise_256x160x256x128_16x16_5x8_8x32x1_8x32x1_1x32x1x8_8x8x1_1x2_intrawave_v3");
  (3072, "fp8fp8bf16_rowwise_256x192x224x128_16x16_6x7_8x32x1_8x32x1_1x64x1x4_8x8x1_2x1_intrawave_v3");
  (3328, "fp8fp8bf16_rowwise_256x256x192x128_16x16_8x6_8x32x1_8x32x1_1x32x1x8_8x8x1_1x2_intrawave_v3");
  (3648, "fp8fp8bf16_rowwise_256x192x256x128_16x16_6x8_8x32x1_8x32x1_1x32x1x8_8x8x1_1x2_intrawave_v3");
  (4096, "fp8fp8bf16_rowwise_256x256x224x128_16x16_8x7_8x32x1_8x32x1_1x64x1x4_8x8x1_2x1_intrawave_v3");
  (4256, "fp8fp8bf16_rowwise_256x224x256x128_16x16_7x8_8x32x1_8x32x1_1x32x1x8_8x8x1_1x2_intrawave_v3");
  (4832, "fp8fp8bf16_rowwise_256x256x256x64_32x32_4x4_4x64x1_4x64x1_1x32x1x8_8x8x1_1x1_intrawave_v4");
  (4864, "fp8fp8bf16_rowwise_256x256x256x128_16x16_8x8_8x32x1_8x32x1_1x32x1x8_8x8x1_1x2_intrawave_v3");
  (5152, "fp8fp8bf16_rowwise_256x224x160x128_16x16_7x5_8x32x1_8x32x1_1x32x1x8_4x4x1_1x1_intrawave_v3");
  (5184, "fp8fp8bf16_rowwise_256x192x192x128_16x16_6x6_8x32x1_8x32x1_1x32x1x8_8x8x1_1x2_intrawave_v3");
  (5888, "fp8fp8bf16_rowwise_256x256x160x128_16x16_8x5_8x32x1_8x32x1_1x64x1x4_8x8x1_2x1_intrawave_v3");
  (5920, "fp8fp8bf16_rowwise_256x160x256x128_16x16_5x8_8x32x1_8x32x1_1x32x1x8_8x8x1_1x2_intrawave_v3");
  (5984, "fp8fp8bf16_rowwise_256x224x192x128_16x16_7x6_8x32x1_8x32x1_1x32x1x8_8x8x1_1x2_intrawave_v3")
].

Definition N_5120_K_2048_dispatch_table_init : list (Z * RowwiseKernel) := [
  (48, "fp8fp8bf16_rowwise_256x16x64x512_16x16_1x1_32x8x1_32x8x1_1x16x1x16_4x4x1_1x1_intrawave_v2");
  (96, "fp8fp8bf16_rowwise_256x32x64x512_16x16_1x2_32x8x1_32x8x1_1x32x1x8_8x8x1_1x2_intrawave_v3");
  (192, "fp8fp8bf16_rowwise_256x64x64x512_32x32_1x1_32x8x1_32x8x1_1x32x1x8_8x8x1_1x1_intrawave_v3");
  (224, "fp8fp8bf16_rowwise_256x32x128x256_32x32_1x1_16x16x1_16x16x1_1x32x1x8_8x8x1_1x1_intrawave_v3");
  (384, "fp8fp8bf16_rowwise_256x128x64x256_32x32_2x1_16x16x1_16x16x1_1x32x1x8_8x8x1_1x1_intrawave_v3");
  (448, "fp8fp8bf16_rowwise_256x64x128x256_32x32_1x2_16x16x1_16x16x1_1x32x1x8_8x8x1_1x1_intrawave_v3");
  (560, "fp8fp8bf16_rowwise_256x80x128x256_16x16_5x2_16x16x1_16x16x1_1x16x1x16_8x8x1_1x2_intrawave_v3");
  (608, "fp8fp8bf16_rowwise_256x128x96x128_16x16_4x3_8x32x1_8x32x1_1x64x1x4_8x8x1_2x1_intrawave_v3");
  (672, "fp8fp8bf16_rowwise_256x96x128x128_16x16_3x4_8x32x1_8x32x1_1x32x1x8_8x8x1_1x2_intrawave_v3");
  (896, "fp8fp8bf16_rowwise_256x128x128x128_16x16_4x4_8x32x1_8x32x1_1x32x1x8_8x8x1_1x2_intrawave_v3");
  (1008, "fp8fp8bf16_rowwise_256x128x160x128_16x16_4x5_8x32x1_8x32x1_1x64x1x4_8x8x1_2x1_intrawave_v3");
  (1120, "fp8fp8bf16_rowwise_256x160x128x128_16x16_5x4_8x32x1_8x32x1_1x32x1x8_8x8x1_1x2_intrawave_v3");
  (1408, "fp8fp8bf16_rowwise_256x128x96x128_16x16_4x3_8x32x1_8x32x1_1x64x1x4_8x8x1_2x1_intrawave_v3");
  (1440, "fp8fp8bf16_rowwise_256x96x128x128_16x16_3x4_8x32x1_8x32x1_1x32x1x8_8x8x1_1x2_intrawave_v3");
  (1536, "fp8fp8bf16_rowwise_256x128x128x128_16x16_4x4_8x32x1_8x32x1_1x32x1x8_8x8x1_1x2_intrawave_v3");
  (1600, "fp8fp8bf16_rowwise_256x160x96x128_16x16_5x3_8x32x1_8x32x1_1x32x1x8_4x4x1_1x1_intrawave_v3");
  (1920, "fp8fp8bf16_rowwise_256x128x128x128_16x16_4x4_8x32x1_8x32x1_1x32x1x8_8x8x1_1x2_intrawave_v3");
  (2112, "fp8fp8bf16_rowwise_256x192x192x128_16x16_6x6_8x32x1_8x32x1_1x32x1x8_8x8x1_1x2_intrawave_v3");
  (2400, "fp8fp8bf16_rowwise_256x160x256x128_16x16_5x8_8x32x1_8x32x1_1x32x1x8_8x8x1_1x2_intrawave_v3");
  (2464, "fp8fp8bf16_rowwise_256x224x192x128_16x16_7x6_8x32x1_8x32x1_1x32x1x8_8x8x1_1x2_intrawave_v3");
  (2496, "fp8fp8bf16_rowwise_256x192x224x128_16x16_6x7_8x32x1_8x32x1_1x64x1x4_8x8x1_2x1_intrawave_v3");
  (2816, "fp8fp8bf16_rowwise_256x256x192x128_16x16_8x6_8x32x1_8x32x1_1x32x1x8_8x8x1_1x2_intrawave_v3");
  (2880, "fp8fp8bf16_rowwise_256x192x256x128_16x16_6x8_8x32x1_8x32x1_1x32x1x8_8x8x1_1x2_intrawave_v3");
  (3328, "fp8fp8bf16_rowwise_256x256x224x128_16x16_8x7_8x32x1_8x32x1_1x64x1x4_8x8x1_2x1_intrawave_v3");
  (3360, "fp8fp8bf16_rowwise_256x224x256x128_16x16_7x8_8x32x1_8x32x1_1x32x1x8_8x8x1_1x2_intrawave_v3");
  (3840, "fp8fp8bf16_rowwise_256x256x256x128_16x16_8x8_8x32x1_8x32x1_1x32x1x8_8x8x1_1x2_intrawave_v3");
  (4224, "fp8fp8bf16_rowwise_256x192x192x128_16x16_6x6_8x32x1_8x32x1_1x32x1x8_8x8x1_1x2_intrawave_v3");
  (4736, "fp8fp8bf16_rowwise_256x128x128x128_16x16_4x4_8x32x1_8x32x1_1x32x1x8_8x8x1_1x2_intrawave_v3");
  (4864, "fp8fp8bf16_rowwise_256x256x160x128_16x16_8x5_8x32x1_8x32x1_1x64x1x4_8x8x1_2x1_intrawave_v3");
  (4928, "fp8fp8bf16_rowwise_256x224x192x128_16x16_7x6_8x32x1_8x32x1_1x32x1x8_8x8x1_1x2_intrawave_v3");
  (4992, "fp8fp8bf16_rowwise_256x192x224x128_16x16_6x7_8x32x1_8x32x1_1x64x1x4_8x8x1_2x1_intrawave_v3");
  (5632, "fp8fp8bf16_rowwise_256x256x192x128_16x16_8x6_8x32x1_8x32x1_1x32x1x8_8x8x1_1x2_intrawave_v3");
  (5760, "fp8fp8bf16_rowwise_256x192x256x128_16x16_6x8_8x32x1_8x32x1_1x32x1x8_8x8x1_1x2_intrawave_v3");
  (5984, "fp8fp8bf16_rowwise_256x256x224x128_16x16_8x7_8x32x1_8x32x1_1x64x1x4_8x8x1_2x1_intrawave_v3")
].
Definition rowwise_lookup_dispatch : list (Z * Z * Z * RowwiseKernel) :=
  Std.umap_of_list (IntTupleHash3 Std.hash) Std.tuple3_eq
    rowwise_lookup_dispatch_init.

Definition N_7168_K_8192_dispatch_table : NKLookupTableType :=
  Std.map_of_list N_7168_K_8192_dispatch_table_init.
Definition N_8192_K_3584_dispatch_table : NKLookupTableType :=
  Std.map_of_list N_8192_K_3584_dispatch_table_init.
Definition N_1024_K_5120_dispatch_table : NKLookupTableType :=
  Std.map_of_list N_1024_K_5120_dispatch_table_init.
Definition N_5120_K_1024_dispatch_table : NKLookupTableType :=
  Std.map_of_list N_5120_K_1024_dispatch_table_init.
Definition N_2048_K_5120_dispatch_table : NKLookupTableType :=
  Std.map_of_list N_2048_K_5120_dispatch_table_init.
Definition N_896_K_5120_dispatch_table : NKLookupTableType :=
  Std.map_of_list N_896_K_5120_dispatch_table_init.
Definition N_5120_K_640_dispatch_table : NKLookupTableType :=
  Std.map_of_list N_5120_K_640_dispatch_table_init.
Definition N_4096_K_5120_dispatch_table : NKLookupTableType :=
  Std.map_of_list N_4096_K_5120_dispatch_table_init.
Definition N_5120_K_2048_dispatch_table : NKLookupTableType :=
  Std.map_of_list N_5120_K_2048_dispatch_table_init.

Definition NK_lookup_table : list (Z * Z * NKLookupTableType) :=
  Std.umap_of_list (IntTupleHash2 Std.hash) Std.tuple2_eq [
    ((7168, 8192), N_7168_K_8192_dispatch_table);
    ((8192, 3584), N_8192_K_3584_dispatch_table);
    ((1024, 5120), N_1024_K_5120_dispatch_table);
    ((5120, 1024), N_5120_K_1024_dispatch_table);
    ((2048, 5120), N_2048_K_5120_dispatch_table);
    ((896, 5120), N_896_K_5120_dispatch_table);
    ((5120, 640), N_5120_K_640_dispatch_table);
    ((4096, 5120), N_4096_K_5120_dispatch_table);
    ((5120, 2048), N_5120_K_2048_dispatch_table)
  ].

(** The iterator that [rowwise_nk_lookup] dereferences. Decrementing
    [begin()] (an empty table) is undefined: [None]. *)
Definition rowwise_nk_lookup_it (M : Z) (table : NKLookupTableType)
  : option nat :=
  let it := Std.lower_bound M table in
  if decide (it ≠ length table) then Some it
  else match it with
       | O => None
       | S it' => Some it'
       end.

Definition rowwise_nk_lookup (M : Z) (table : NKLookupTableType)
  : option RowwiseKernel :=
  it ← rowwise_nk_lookup_it M table;
  snd <$> table !! it.

Definition rowwise_heuristic_dispatch (M N K : Z) : RowwiseKernel :=
  if negb ((N `rem` 8 =? 0) && (K `rem` 16 =? 0)) then
    "fp8fp8bf16_rowwise_64x16x16x256_16x16_1x1_16x4x1_16x4x1_1x4x1x16_4x4x1_1x1_intrawave_v1"
  else if (M <? 64) && (N <? 2048) && (K <? 2048) then
    "fp8fp8bf16_rowwise_64x16x16x128_16x16_1x1_8x8x1_8x8x1_1x16x1x4_4x4x1_1x1_interwave_v1"
  else if (M <? 64) && (K <? 2048) then
    "fp8fp8bf16_rowwise_128x16x32x128_16x16_1x1_8x16x1_8x16x1_1x16x1x8_4x4x1_1x1_intrawave_v1"
  else if (M <? 64) && (N <? 2048) then
    "fp8fp8bf16_rowwise_128x32x16x128_16x16_1x1_8x16x1_8x16x1_1x16x1x8_2x2x1_1x1_interwave_v1"
  else if (M <? 64) && (N >? 2048) && (K >? 2048) then
    "fp8fp8bf16_rowwise_64x16x16x256_16x16_1x1_16x4x1_16x4x1_1x4x1x16_4x4x1_1x1_intrawave_v1"
  else if M <? 64 then
    "fp8fp8bf16_rowwise_64x16x16x128_16x16_1x1_8x8x1_8x8x1_1x16x1x4_4x4x1_1x1_interwave_v1"
  else if (((M <? 512) && (K <? 8192)) || ((N <=? 2048) && (K <=? 8192))
           || ((K <=? 2048) && (N <=? 8192)))
          && (K >=? 1024) then
    "fp8fp8bf16_rowwise_256x128x128x128_32x32_2x2_8x32x1_8x32x1_1x32x1x8_8x8x1_1x1_intrawave_v5"
  else if K <? 1024 then
    "fp8fp8bf16_rowwise_256x128x128x128_32x32_2x2_8x32x1_8x32x1_1x32x1x8_8x8x1_1x1_interwave_v1"
  else if M <? 1024 then
    "fp8fp8bf16_rowwise_256x128x128x128_32x32_2x2_8x32x1_8x32x1_1x32x1x8_8x8x1_1x1_intrawave_v3"
  else if (M >=? 1024) && (N >=? 1024) && (K >=? 1024) then
    "fp8fp8bf16_rowwise_256x256x256x128_16x16_8x8_8x32x1_8x32x1_1x32x1x8_8x8x1_1x2_intrawave_v3"
  else
    "fp8fp8bf16_rowwise_256x224x256x128_16x16_7x8_8x32x1_8x32x1_1x32x1x8_8x8x1_1x2_intrawave_v3".

Definition padded_m (M : Z) : Z :=
  if M <=? 16 then 16
  else if M <=? 32 then 32
  else if M <=? 64 then 64
  else if M <=? 128 then 128
  else M.

Section dispatch.
(** The tables and the heuristic that [rowwise_dispatch] consults. *)
Variable lookup_dispatch : list (Z * Z * Z * RowwiseKernel).
Variable NK_table : list (Z * Z * NKLookupTableType).
Variable heuristic_dispatch : Z → Z → Z → RowwiseKernel.

(** [None]: the undefined behaviour of [rowwise_nk_lookup]. *)
Definition rowwise_dispatch_with (M N K : Z) : option RowwiseKernel :=
  let it :=
    Std.umap_find (IntTupleHash3 Std.hash) Std.tuple3_eq
      lookup_dispatch (padded_m M, N, K) in
  match it with
  | Some e => Some e.2
  | None =>
      let nk_lookup_it :=
        Std.umap_find (IntTupleHash2 Std.hash) Std.tuple2_eq
          NK_table (N, K) in
      match nk_lookup_it with
      | Some e => rowwise_nk_lookup M e.2
      | None => Some (heuristic_dispatch M N K)
      end
  end.
End dispatch.

Definition rowwise_dispatch (M N K : Z) : option RowwiseKernel :=
  rowwise_dispatch_with rowwise_lookup_dispatch NK_lookup_table
    rowwise_heuristic_dispatch M N K.

Definition f8f8_rowwise_wrapper
    (XQ WQ x_scale w_scale : Tensor) (bias : option Tensor)
    (use_fast_accum : bool) (output : option Tensor) : Eff Tensor :=
  TORCH_CHECK (bool_decide (dtype XQ = kFloat8_e4m3fnuz)
               && bool_decide (dtype WQ = kFloat8_e4m3fnuz))
    "Inputs must be type float8_e4m3fnuz." ;;
  TORCH_CHECK (bool_decide (dtype x_scale = kFloat)
               && bool_decide (dtype w_scale = kFloat))
    "Scales must be float32." ;;
  TORCH_CHECK use_fast_accum
    "AMD does not support disabling use_fast_accum." ;;
  TORCH_CHECK (negb (bool_decide (is_Some bias)))
    "AMD does not support fused bias." ;;
  TORCH_CHECK (is_cuda XQ && is_contiguous XQ) "" ;;
  TORCH_CHECK (is_cuda WQ && is_contiguous WQ) "" ;;
  m ← size_to_dim_ (dim XQ - 1) (sizes XQ);
  n ← size WQ 0;
  k ← size WQ 1;
  let M := to_int m in
  let N := to_int n in
  let K := to_int k in
  let out_sizes := set_back (sizes XQ) N in
  if (M =? 0) || (N =? 0) || (K =? 0) then
    mret (zeros out_sizes XQ kBFloat16)
  else
    Y ← match output with
        | Some Y =>
            y_m ← size_to_dim_ (dim Y - 1) (sizes Y);
            TORCH_CHECK ((to_int y_m =? M) && (List.last (sizes Y) 0 =? N)) "" ;;
            TORCH_CHECK (bool_decide (dtype Y = kBFloat16)) "" ;;
            mret Y
        | None => mret (empty out_sizes XQ kBFloat16)
        end;
    emit (Select "rowwise_dispatch" [M; N; K]) ;;
    match rowwise_dispatch M N K with
    | Some rowwise_impl => run_kernel rowwise_impl Y
    | None => fault
    end.

End Fp8Rowwise.

(** ** FP8 rowwise GEMM with preshuffled weights *)

Module Fp8RowwisePreshuffle.

Definition RowwiseKernel : Type := string.

Definition rowwise_preshuffle_heuristic_dispatch (M N K : Z)
  : RowwiseKernel :=
  if M <=? 16 then
    if K <=? 1024 then
      "fp8_rowwise_preshuffle_256x16x64x256_16x16_1x1_16x16x1_16x16x1_1x16x1x16_4x4x1_1x1_intrawave_v1"
    else if N <=? 1024 then
      "fp8_rowwise_preshuffle_128x16x32x512_16x16_1x1_32x4x1_32x4x1_1x16x1x8_4x4x1_1x1_intrawave_v2"
    else
      "fp8_rowwise_preshuffle_128x16x32x512_16x16_1x1_32x4x1_32x4x1_1x16x1x8_4x4x1_1x1_intrawave_v1"
  else if M <=? 32 then
    if K <=? 1024 then
      "fp8_rowwise_preshuffle_256x16x64x256_16x16_1x1_16x16x1_16x16x1_1x16x1x16_4x4x1_1x1_intrawave_v1"
    else if N <=? 1024 then
      "fp8_rowwise_preshuffle_128x16x32x512_16x16_1x1_32x4x1_32x4x1_1x16x1x8_4x4x1_1x1_intrawave_v1"
    else
      "fp8_rowwise_preshuffle_256x16x64x512_16x16_1x1_32x8x1_32x8x1_1x16x1x16_4x4x1_1x1_intrawave_v2"
  else if M <=? 64 then
    if K <=? 1024 then
      "fp8_rowwise_preshuffle_256x16x64x256_16x16_1x1_16x16x1_16x16x1_1x16x1x16_4x4x1_1x1_intrawave_v1"
    else if N <=? 1024 then
      "fp8_rowwise_preshuffle_256x16x64x512_16x16_1x1_32x8x1_32x8x1_1x16x1x16_4x4x1_1x1_intrawave_v2"
    else if N <=? 5120 then
      "fp8_rowwise_preshuffle_256x16x128x256_16x16_1x2_16x16x1_16x16x1_1x16x1x16_8x8x1_1x2_intrawave_v1"
    else
      "fp8_rowwise_preshuffle_256x32x64x512_16x16_1x2_32x8x1_32x8x1_1x32x1x8_8x8x1_1x2_intrawave_v1"
  else if M <=? 128 then
    if K <=? 1024 then
      "fp8_rowwise_preshuffle_256x16x64x256_16x16_1x1_16x16x1_16x16x1_1x16x1x16_4x4x1_1x1_intrawave_v1"
    else if N <=? 1024 then
      "fp8_rowwise_preshuffle_256x32x64x512_16x16_1x2_32x8x1_32x8x1_1x32x1x8_8x8x1_1x2_intrawave_v1"
    else
      "fp8_rowwise_preshuffle_256x64x64x512_32x32_1x1_32x8x1_32x8x1_1x32x1x8_8x8x1_1x1_intrawave_v1"
  else if M <=? 512 then
    if K <=? 1024 then
      "fp8_rowwise_preshuffle_256x16x64x256_16x16_1x1_16x16x1_16x16x1_1x16x1x16_4x4x1_1x1_intrawave_v1"
    else if N <=? 1024 then
      "fp8_rowwise_preshuffle_256x64x64x512_32x32_1x1_32x8x1_32x8x1_1x32x1x8_8x8x1_1x1_intrawave_v1"
    else
      "fp8_rowwise_preshuffle_256x128x128x256_16x16_8x2_16x16x1_16x16x1_1x32x1x8_8x8x1_2x1_intrawave_v3"
  else if M <=? 1024 then
    if N <=? 5120 then
      "fp8_rowwise_preshuffle_256x128x128x256_16x16_8x2_16x16x1_16x16x1_1x32x1x8_8x8x1_2x1_intrawave_v3"
    else
      "fp8_rowwise_preshuffle_256x128x256x128_16x16_8x4_8x32x1_8x32x1_1x32x1x8_8x8x1_2x1_intrawave_v3"
  else if M <=? 2048 then
    if (N <=? 4096) || (K <=? 1024) then
      "fp8_rowwise_preshuffle_256x128x256x128_16x16_8x4_8x32x1_8x32x1_1x32x1x8_8x8x1_2x1_intrawave_v3"
    else
      "fp8_rowwise_preshuffle_256x160x256x128_16x16_10x4_8x32x1_8x32x1_1x32x1x8_8x8x1_2x1_intrawave_v3"
  else if M <=? 4096 then
    if (N <=? 4096) || (K <=? 1024) then
      "fp8_rowwise_preshuffle_256x160x256x128_16x16_10x4_8x32x1_8x32x1_1x32x1x8_8x8x1_2x1_intrawave_v3"
    else
      "fp8_rowwise_preshuffle_256x224x256x128_16x16_14x4_8x32x1_8x32x1_1x32x1x8_8x8x1_2x1_intrawave_v3"
  else
    "fp8_rowwise_preshuffle_256x224x256x128_16x16_14x4_8x32x1_8x32x1_1x32x1x8_8x8x1_2x1_intrawave_v3".

(** [OUTPUT_DTYPE] is the template argument. *)
Definition f8f8_rowwise_preshuffle_wrapper (OUTPUT_DTYPE : ScalarType)
    (XQ WQ x_scale w_scale : Tensor) (bias : option Tensor)
    (use_fast_accum : bool) (output : option Tensor) : Eff Tensor :=
  TORCH_CHECK (bool_decide (dtype XQ = kFloat8_e4m3fnuz)
               && bool_decide (dtype WQ = kFloat8_e4m3fnuz))
    "Inputs must be type float8_e4m3fnuz." ;;
  TORCH_CHECK (bool_decide (dtype x_scale = kFloat)
               && bool_decide (dtype w_scale = kFloat))
    "Scales must be float32." ;;
  TORCH_CHECK use_fast_accum
    "AMD does not support disabling use_fast_accum." ;;
  TORCH_CHECK (negb (bool_decide (is_Some bias)))
    "AMD does not support fused bias." ;;
  TORCH_CHECK (is_cuda XQ && is_contiguous XQ) "" ;;
  TORCH_CHECK (is_cuda WQ && is_contiguous WQ) "" ;;
  m ← size_to_dim_ (dim XQ - 1) (sizes XQ);
  n ← size WQ 0;
  k ← size WQ 1;
  let M := to_int m in
  let N := to_int n in
  let K := to_int k in
  let out_sizes := set_back (sizes XQ) N in
  if (M =? 0) || (N =? 0) || (K =? 0) then
    mret (zeros out_sizes XQ OUTPUT_DTYPE)
  else
    Y ← match output with
        | Some Y =>
            y_m ← size_to_dim_ (dim Y - 1) (sizes Y);
            TORCH_CHECK ((to_int y_m =? M) && (List.last (sizes Y) 0 =? N)) "" ;;
            TORCH_CHECK (bool_decide (dtype Y = OUTPUT_DTYPE)) "" ;;
            mret Y
        | None => mret (empty out_sizes XQ OUTPUT_DTYPE)
        end;
    emit (Select "rowwise_preshuffle_heuristic_dispatch" [M; N; K]) ;;
    let heuristic_kernel := rowwise_preshuffle_heuristic_dispatch M N K in
    run_kernel heuristic_kernel Y.

End Fp8RowwisePreshuffle.

(** ** bf16 grouped GEMM (gemm/ck_extensions.hip, third unit) *)

Module Bf16Grouped.

Section IntTupleHash.
Variable std_hash : Z → Z.

Definition IntTupleHash2 (t : Z * Z) : Z :=
  let hash1 := std_hash t.1 in
  let hash2 := std_hash t.2 in
  Z.lxor hash1 hash2.

Definition IntTupleHash3 (t : Z * Z * Z) : Z :=
  let hash1 := std_hash t.1.1 in
  let hash2 := std_hash t.1.2 in
  let hash3 := std_hash t.2 in
  Z.lxor (Z.lxor hash1 hash2) hash3.

Definition IntTupleHash4 (t : Z * Z * Z * Z) : Z :=
  let hash1 := std_hash t.1.1.1 in
  let hash2 := std_hash t.1.1.2 in
  let hash3 := std_hash t.1.2 in
  let hash4 := std_hash t.2 in
  Z.lxor (Z.lxor (Z.lxor hash1 hash2) hash3) hash4.
End IntTupleHash.

Section entry_points.
(** The selector [grouped_heuristic_dispatch (G, total_M, N, K)]; the
    entry point below only passes its choice on to the launch. *)
Variable grouped_heuristic_dispatch : Z → Z → Z → Z → string.

Definition get_stacked_kernel_args (A B Y M_sizes : Tensor) : Eff unit :=
  group_count ← to_int <$> size M_sizes 0;
  M ← size A (dim A - 2);
  K ← size B 2;
  N ← size B 1;
  emit (Launch "set_kernel_args_m_sizes_kernel").

Definition bf16bf16bf16_grouped_stacked (X W M_sizes : Tensor)
  : Eff Tensor :=
  group_count ← size M_sizes 0;
  total_M ← size X 0;
  N ← size W 1;
  K ← size X 1;
  TORCH_CHECK_ ((λ g, g =? group_count) <$> size W 0)
    "All inputs must have the same number of groups." ;;
  TORCH_CHECK (is_cuda X && is_contiguous X) "" ;;
  TORCH_CHECK (dim X =? 2) "Input X must be 2D (total_M,K)." ;;
  TORCH_CHECK (bool_decide (dtype X = kBFloat16))
    "Input XQ must be type bfloat16." ;;
  TORCH_CHECK (is_cuda W && is_contiguous W) "" ;;
  TORCH_CHECK (dim W =? 3) "Input W must be 3D (G,N,K)." ;;
  TORCH_CHECK (bool_decide (dtype W = kBFloat16))
    "Input W must be type bfloat16" ;;
  TORCH_CHECK_
    (and_then ((λ n, 512 <=? n) <$> size W 1)
              ((λ k, 512 <=? k) <$> size W 2))
    "N and K must be at least 512 for grouped gemm. For smaller inputs, consider unrolling." ;;
  TORCH_CHECK (device X =? device M_sizes)
    "M_sizes and inputs must be on the same device." ;;
  TORCH_CHECK (bool_decide (dtype M_sizes = kLong))
    "M_sizes must be int64." ;;
  let Y := empty [total_M; N] X kBFloat16 in
  if total_M =? 0 then mret Y
  else
    get_stacked_kernel_args X W Y M_sizes ;;
    emit (Select "grouped_heuristic_dispatch" [group_count; total_M; N; K]) ;;
    let selected_kernel :=
      grouped_heuristic_dispatch group_count total_M N K in
    run_kernel selected_kernel Y.
End entry_points.

End Bf16Grouped.

(** ** FP8 rowwise grouped GEMM (fp8_rowwise_grouped_gemm.hip) *)

Module Fp8RowwiseGrouped.

Inductive GroupedGemmInputType :=
| _3D3D   (* MNK fixed (batched gemm) *)
| _2D2D   (* K dynamic *)
| _3D2D   (* N dynamic *)
| _2D3D.  (* M dynamic (MoE style) *)

#[global] Instance GroupedGemmInputType_eq_dec :
  EqDecision GroupedGemmInputType.
Proof. solve_decision. Defined.

(** *** The device kernel [set_kernel_args] *)

(** [ck::tensor_operation::device::GroupedGemmKernelArgument<2>].
    Pointers are addresses counted in elements. The 64-bit offset
    arithmetic is done on [Z] (signed overflow is undefined); the
    narrowing conversions [int(...)] are written out with [to_int]. *)
Record KernelArguments := mkKernelArguments {
  p_a_grid : Z;
  p_b_grid : Z;
  p_ds_grid : Z * Z;
  p_e_grid : Z;
  karg_M : Z;
  karg_N : Z;
  karg_K : Z;
  StrideA : Z;
  StrideB : Z;
  StrideDs : Z * Z;
  StrideE : Z
}.

#[global] Instance KernelArguments_eq_dec : EqDecision KernelArguments.
Proof. solve_decision. Defined.

(** The offsets of one group; a thread leaves them unset on the
    [M_sizes] path when its group is empty. *)
Record Offsets := mkOffsets {
  XQ_offset : Z;
  WQ_offset : Z;
  x_scale_offset : Z;
  w_scale_offset : Z;
  output_offset : Z
}.

Record Group := mkGroup {
  offs : option Offsets;
  M_group : Z;
  N_group : Z;
  K_group : Z
}.

Section set_kernel_args.
Variables XQ WQ w_scale x_scale output : Z.
Variable M_sizes : option (list Z).
Variable offsets : option (list Z).
Variables M N K group_count : Z.
Variable input_type : option GroupedGemmInputType.

(** The two [CUDA_KERNEL_ASSERT_MSG] at the head of the kernel. *)
Definition asserts : bool :=
  let m_null := negb (bool_decide (is_Some M_sizes)) in
  let o_null := negb (bool_decide (is_Some offsets)) in
  ((m_null && o_null) || xorb m_null o_null)
  && (bool_decide (is_Some input_type) || negb m_null).

Definition default_group_args : KernelArguments :=
  mkKernelArguments XQ WQ (w_scale, x_scale) output 0 0 0 0 0 (0, 0) 0.

(** [thread_idx == 0 ? 0 : offsets[thread_idx - 1]] *)
Definition previous_offset (os : list Z) (thread_idx : nat) : option Z :=
  match thread_idx with
  | O => Some 0
  | S p => os !! p
  end.

(** The offsets and the problem size a thread computes for its
    group. A read outside [M_sizes] or [offsets] is undefined
    ([None]). *)
Definition resolve_group (thread_idx : nat) : option Group :=
  let t := Z.of_nat thread_idx in
  match M_sizes with
  | Some ms =>
      M_group ← ms !! thread_idx;
      if 0 <? M_group then
        let offset_M := foldr Z.add 0 (take thread_idx ms) in
        Some (mkGroup
                (Some (mkOffsets (offset_M * K) (t * N * K) offset_M
                         (t * N) (offset_M * N)))
                M_group N K)
      else Some (mkGroup None M_group N K)
  | None =>
      match input_type with
      | Some _2D3D =>
          os ← offsets;
          offset_M ← previous_offset os thread_idx;
          cur ← os !! thread_idx;
          Some (mkGroup
                  (Some (mkOffsets (offset_M * K) (t * N * K) offset_M
                           (t * N) (offset_M * N)))
                  (cur - offset_M) N K)
      | Some _3D2D =>
          os ← offsets;
          offset_N ← previous_offset os thread_idx;
          cur ← os !! thread_idx;
          Some (mkGroup
                  (Some (mkOffsets (t * M * K) (offset_N * K) (t * M)
                           offset_N offset_N))
                  M (cur - offset_N) K)
      | Some _2D2D =>
          os ← offsets;
          offset_K ← previous_offset os thread_idx;
          cur ← os !! thread_idx;
          Some (mkGroup
                  (Some (mkOffsets offset_K offset_K (t * M) (t * N)
                           (t * M * N)))
                  M N (cur - offset_K))
      | _ =>
          Some (mkGroup
                  (Some (mkOffsets (t * M * K) (t * N * K) (t * M)
                           (t * N) (t * M * N)))
                  M N K)
      end
  end.

(** The record written for a group; strides are those of the
    whole problem. Reading unset offsets is undefined. *)
Definition kernel_group_args (g : Group) : option KernelArguments :=
  o ← offs g;
  let A_stride := K in
  let B_stride := K in
  let output_stride := N in
  Some (mkKernelArguments
          (XQ + XQ_offset o)
          (WQ + WQ_offset o)
          (w_scale + w_scale_offset o, x_scale + x_scale_offset o)
          (output + output_offset o)
          (to_int (M_group g)) (to_int (N_group g)) (to_int (K_group g))
          (to_int A_stride) (to_int B_stride) (0, 0)
          (to_int output_stride)).

Definition writes (g : Group) : bool :=
  (0 <? M_group g) && (0 <? N_group g) && (0 <? K_group g).

(** The memory the block works on: the argument array and the
    shared counter. *)
Record Memory := mkMemory {
  kernel_args : list KernelArguments;
  non_zero_counter : Z
}.

(** Before [__syncthreads]: every thread stores the default record
    in its own slot; thread 0 clears the counter. *)
Definition before_sync (mem : Memory) (thread_idx : nat) : Memory :=
  mkMemory (<[thread_idx := default_group_args]> (kernel_args mem))
    (if decide (thread_idx = 0%nat) then 0 else non_zero_counter mem).

(** After [__syncthreads]: the thread resolves its group and, when
    the group is nonzero, takes the next slot with [atomicAdd] and
    stores its record there. A store outside the array is
    undefined. *)
Definition after_sync (mem : Memory) (thread_idx : nat) : option Memory :=
  g ← resolve_group thread_idx;
  if writes g then
    let non_zero_idx := non_zero_counter mem in
    args ← kernel_group_args g;
    if decide (0 ≤ non_zero_idx < Z.of_nat (length (kernel_args mem))) then
      Some (mkMemory
              (<[Z.to_nat non_zero_idx := args]> (kernel_args mem))
              (to_int (non_zero_idx + 1)))
    else None
  else Some mem.

Fixpoint after_sync_all (mem : Memory) (schedule : list nat)
  : option Memory :=
  match schedule with
  | [] => Some mem
  | thread_idx :: rest =>
      mem' ← after_sync mem thread_idx;
      after_sync_all mem' rest
  end.

(** The launch [<<<1, group_count>>>]: one thread per group. *)
Definition threads : list nat := seq 0 (Z.to_nat group_count).

(** One execution of the kernel. The stores before the barrier touch
    disjoint slots; after the barrier the threads are serialised by
    their [atomicAdd], in the order [schedule], and store to the
    disjoint slots it hands out. *)
Definition set_kernel_args (schedule : list nat) (mem : Memory)
  : option Memory :=
  if asserts then
    after_sync_all (foldl before_sync mem threads) schedule
  else None.

(** A schedule runs every thread of the block once. *)
Definition is_schedule (schedule : list nat) : Prop :=
  schedule ≡ₚ threads.
End set_kernel_args.

(** *** The tuning cache *)

(** [std::to_string] of an [int64_t]: the decimal digits, with a
    leading minus sign for negative numbers. *)
Definition to_string (z : Z) : string := pretty z.

(** Modelled from the spec: the helper [nextPowerOf2] of
    [fbgemm_gpu/quantize/utils.h] is not part of src. It rounds its
    argument up to the next power of two. *)
Definition nextPowerOf2 (n : Z) : Z := 2 ^ Z.log2_up n.

(** The tuning cache of [fbgemm_gpu/quantize/tuning_cache.hpp] maps a
    shape key to a kernel. The header is not part of src. *)
Section TuningCache.
(** The latency a measurement of a kernel on the live operands gives. *)
Variable latency : string → Z.

(** Modelled from the spec: the measurement loop of the tuning cache,
    which is not part of src. It keeps the candidate with the lowest
    latency; the first fastest wins. *)
Fixpoint fastest (best : string) (candidates : list string) : string :=
  match candidates with
  | [] => best
  | k :: rest =>
      if latency k <? latency best then fastest k rest
      else fastest best rest
  end.

(** Modelled from the spec: [TuningCache::findBestKernelMaybeAutotune]
    of [fbgemm_gpu/quantize/tuning_cache.hpp] is not part of src. A
    hit returns the stored kernel. A miss measures every candidate,
    keeps the fastest and stores it under the key. *)
Definition findBestKernelMaybeAutotune
    (cache : gmap string string) (shape_key : string)
    (kernels : list string) : option string * gmap string string :=
  match cache !! shape_key with
  | Some kernel => (Some kernel, cache)
  | None =>
      match kernels with
      | [] => (None, cache)
      | k :: rest =>
          let best := fastest k rest in
          (Some best, <[shape_key := best]> cache)
      end
  end.

(** The catalog [get_fp8_rowwise_grouped_kernels()]. *)
Variable get_fp8_rowwise_grouped_kernels : list string.

Definition shape_key (M N K : Z) : string :=
  to_string M +:+ "_" +:+ to_string N +:+ "_" +:+ to_string K.

(** The cache is the process-wide [getTuningCache()]; it is passed
    in and handed back. *)
Definition get_kernel_via_tuning (cache : gmap string string)
    (M N K : Z) : option string * gmap string string :=
  let M := nextPowerOf2 M in
  let N := nextPowerOf2 N in
  let K := nextPowerOf2 K in
  let shape_key := shape_key M N K in
  let kernels := get_fp8_rowwise_grouped_kernels in
  findBestKernelMaybeAutotune cache shape_key kernels.
End TuningCache.

(** *** The host entry points *)

Inductive GPUArch := gfx942 | gfx950 | other_arch (gcnArchName : string).

(** The two instances of the template parameter [OutputType]. *)
Inductive OutputType := OutTensor | OutTensorList.

Inductive GroupedOutput :=
| AsTensor (t : Tensor)
| AsList (ts : list Tensor).

(** [t.view(shape)] keeps the elements; their number must agree. *)
Definition view (t : Tensor) (shape : list Z) : Eff Tensor :=
  TORCH_CHECK (numel t =? foldr Z.mul 1 shape) "shape is invalid for input" ;;
  mret (mkTensor (dtype t) (is_cuda t) (is_contiguous t) (device t)
          shape (fill t)).

(** [t.split(sizes)] of a one-dimensional tensor. *)
Definition split (t : Tensor) (split_sizes : list Z) : list Tensor :=
  (λ n, mkTensor (dtype t) (is_cuda t) (is_contiguous t) (device t)
          [n] (fill t)) <$> split_sizes.

Definition size_is (t : Tensor) (d : Z) (v : Z) : Eff bool :=
  (λ s, s =? v) <$> size t d.

Definition size_ge (t : Tensor) (d : Z) (v : Z) : Eff bool :=
  (λ s, v <=? s) <$> size t d.

Section entry_points.
(** The device the process runs on. *)
Variable arch : GPUArch.
(** The selectors of [kernels/fp8_rowwise_grouped_heuristic.hpp],
    which is not part of src; the entry points only pass their
    choice on to the launch. *)
Variable rowwise_grouped_heuristic_dispatch : Z → Z → Z → Z → string.
Variable get_kernel_via_heuristic : Z → Z → Z → string.
(** [std::getenv("FBGEMM_AUTOTUNE_ENABLE")] *)
Variable FBGEMM_AUTOTUNE_ENABLE : bool.
Variable latency : string → Z.
Variable get_fp8_rowwise_grouped_kernels : list string.

Definition get_float8_e4m3_dtype : Eff (ScalarType * string) :=
  match arch with
  | gfx942 => mret (kFloat8_e4m3fnuz, "float8_e4m3fnuz")
  | gfx950 => mret (kFloat8_e4m3fn, "float8_e4m3fn")
  | other_arch gcn_arch_name =>
      throw ("Unsupported GPU architecture for FP8: " +:+ gcn_arch_name)
  end.

Definition set_static_kernel_args
    (XQ WQ x_scale w_scale : list Tensor) : Eff unit :=
  for_each (λ xw : Tensor * Tensor,
      M ← size xw.1 0;
      K ← size xw.1 1;
      N ← size xw.2 0;
      emit (Launch "set_kernel_args_kernel"))
    (zip XQ WQ).

Definition _f8f8bf16_rowwise_grouped (OT : OutputType)
    (XQ WQ x_scale w_scale : list Tensor) : Eff GroupedOutput :=
  float8_dtype ← get_float8_e4m3_dtype;
  TORCH_CHECK
    (bool_decide (length XQ = length WQ)
     && bool_decide (length XQ = length x_scale)
     && bool_decide (length XQ = length w_scale))
    "All inputs must have the same number of groups." ;;
  let group_count := to_int (Z.of_nat (length XQ)) in
  for_each (λ x : Tensor,
      TORCH_CHECK (is_cuda x && is_contiguous x) "" ;;
      TORCH_CHECK (dim x =? 2) "Inputs must be 2D." ;;
      TORCH_CHECK (bool_decide (dtype x = float8_dtype.1))
        ("Inputs must be type " +:+ float8_dtype.2))
    XQ ;;
  for_each (λ w : Tensor,
      TORCH_CHECK (is_cuda w && is_contiguous w) "" ;;
      TORCH_CHECK (dim w =? 2) "Inputs must be 2D." ;;
      TORCH_CHECK (bool_decide (dtype w = float8_dtype.1))
        ("Inputs must be type " +:+ float8_dtype.2) ;;
      TORCH_CHECK_ (and_then (size_ge w 0 512) (size_ge w 1 512))
        "N and K must be at least 512 for grouped gemm. For smaller inputs, consider unrolling.")
    WQ ;;
  for_each (λ xs : Tensor,
      TORCH_CHECK (bool_decide (dtype xs = kFloat)) "Scales must be float32.")
    x_scale ;;
  for_each (λ ws : Tensor,
      TORCH_CHECK (bool_decide (dtype ws = kFloat)) "Scales must be float32.")
    w_scale ;;
  shapes ← mapM (λ xw : Tensor * Tensor,
              M ← size xw.1 0;
              N ← size xw.2 0;
              mret (M, N))
            (zip XQ WQ);
  let total_M := foldr Z.add 0 (fst <$> shapes) in
  let output_sizes := (λ mn : Z * Z, mn.1 * mn.2) <$> shapes in
  let total_output_size := foldr Z.add 0 output_sizes in
  match XQ, WQ with
  | XQ_0 :: _, WQ_0 :: _ =>
      let Y := empty [total_output_size] XQ_0 kBFloat16 in
      set_static_kernel_args XQ WQ x_scale w_scale ;;
      Ns ← mapM (λ w : Tensor, size w 0) WQ;
      Ks ← mapM (λ x : Tensor, size x 1) XQ;
      let MaxN := foldl Z.max 0 Ns in
      let MaxK := foldl Z.max 0 Ks in
      emit (Select "rowwise_grouped_heuristic_dispatch"
              [group_count; total_M; MaxN; MaxK]) ;;
      let selected_kernel :=
        rowwise_grouped_heuristic_dispatch group_count total_M MaxN MaxK in
      g_out ← run_kernel selected_kernel Y;
      match OT with
      | OutTensor =>
          N ← size WQ_0 0;
          AsTensor <$> view g_out [total_M; N]
      | OutTensorList =>
          AsList <$> mapM (λ gs : Tensor * (Z * Z),
                             view gs.1 [gs.2.1; gs.2.2])
                       (zip (split g_out output_sizes) shapes)
      end
  | _, _ => fault
  end.

Definition validate_inputs_common (XQ WQ x_scale w_scale : Tensor)
  : Eff unit :=
  TORCH_CHECK (is_cuda XQ && is_contiguous XQ) "" ;;
  TORCH_CHECK (is_cuda WQ && is_contiguous WQ) "" ;;
  TORCH_CHECK (is_cuda x_scale) "" ;;
  TORCH_CHECK (is_cuda w_scale) "" ;;
  float8_dtype ← get_float8_e4m3_dtype;
  TORCH_CHECK (bool_decide (dtype XQ = float8_dtype.1))
    ("Input XQ must be type " +:+ float8_dtype.2) ;;
  TORCH_CHECK (bool_decide (dtype WQ = float8_dtype.1))
    ("Input WQ must be type " +:+ float8_dtype.2) ;;
  TORCH_CHECK (bool_decide (dtype x_scale = kFloat)) "Scales must be float32." ;;
  TORCH_CHECK (bool_decide (dtype w_scale = kFloat)) "Scales must be float32.".

Definition f8f8bf16_rowwise_grouped (XQ WQ x_scale w_scale : list Tensor)
  : Eff GroupedOutput :=
  _f8f8bf16_rowwise_grouped OutTensorList XQ WQ x_scale w_scale.

Definition f8f8bf16_rowwise_grouped_cat (XQ WQ x_scale w_scale : list Tensor)
  : Eff GroupedOutput :=
  _f8f8bf16_rowwise_grouped OutTensor XQ WQ x_scale w_scale.

(** The group count a descriptor gives, after its checks. *)
Definition descriptor_groups (XQ : Tensor) (descriptor : option Tensor)
    (name : string) : Eff (option Z) :=
  match descriptor with
  | Some d =>
      g ← size d 0;
      TORCH_CHECK (device XQ =? device d)
        (name +:+ " and inputs must be on the same device.") ;;
      TORCH_CHECK (bool_decide (dtype d = kLong))
        (name +:+ " must be int64.") ;;
      mret (Some g)
  | None => mret None
  end.

Definition set_dynamic_kernel_args
    (XQ WQ x_scale w_scale output : Tensor)
    (zero_start_index_M M_sizes : option Tensor)
    (zeroing_output_tensor : bool) : Eff unit :=
  TORCH_CHECK
    (negb (eqb (bool_decide (is_Some zero_start_index_M))
             (bool_decide (is_Some M_sizes))))
    "One of zero_start_index_M or M_sizes must be provided." ;;
  g_z ← descriptor_groups XQ zero_start_index_M "zero_start_index_M";
  g_m ← descriptor_groups XQ M_sizes "M_sizes";
  let group_count := default (default 0 g_z) g_m in
  M ← size XQ (dim XQ - 2);
  K ← size WQ 2;
  N ← size WQ 1;
  if bool_decide (is_Some M_sizes) then
    emit (Launch "set_kernel_args")
  else if zeroing_output_tensor then
    let BLOCK_SIZE := 8 in
    TORCH_CHECK (N `rem` BLOCK_SIZE =? 0)
      "N must be divisible 8 for dynamic grouped gemm." ;;
    let block_factor :=
      to_int (Z.max group_count ((group_count * M * N) `quot` BLOCK_SIZE)) in
    let blockSize := Z.min 512 block_factor in
    numBlocks ← cdiv (block_factor + blockSize - 1) blockSize;
    emit (Launch "set_kernel_args_fixed_nk_kernel_zeroing")
  else
    emit (Launch "set_kernel_args_fixed_nk_kernel").

Definition f8f8bf16_rowwise_grouped_stacked
    (XQ WQ x_scale w_scale M_sizes : Tensor) : Eff Tensor :=
  group_count ← size M_sizes 0;
  total_M ← size XQ 0;
  N ← size WQ 1;
  K ← size XQ 1;
  validate_inputs_common XQ WQ x_scale w_scale ;;
  TORCH_CHECK_
    (and_then (size_is WQ 0 group_count)
       (and_then (mret (numel x_scale =? total_M))
          ((λ q, q =? N) <$> cdiv (numel w_scale) group_count)))
    "All inputs must have the same number of groups." ;;
  TORCH_CHECK (dim XQ =? 2) "Input XQ must be 2D (total_M,K)." ;;
  TORCH_CHECK (dim WQ =? 3) "Input WQ must be 3D (G,N,K)." ;;
  TORCH_CHECK_ (and_then (size_ge WQ 1 512) (size_ge WQ 2 512))
    "N and K must be at least 512 for grouped gemm. For smaller inputs, consider unrolling." ;;
  let Y := empty [total_M; N] XQ kBFloat16 in
  if total_M =? 0 then mret Y
  else
    set_dynamic_kernel_args XQ WQ x_scale w_scale Y None (Some M_sizes)
      false ;;
    emit (Select "rowwise_grouped_heuristic_dispatch"
            [group_count; total_M; N; K]) ;;
    let selected_kernel :=
      rowwise_grouped_heuristic_dispatch group_count total_M N K in
    run_kernel selected_kernel Y.

Definition f8f8bf16_rowwise_grouped_dynamic
    (XQ WQ x_scale w_scale zero_start_index_M : Tensor)
    (zeroing_output_tensor : bool) : Eff Tensor :=
  group_count ← size XQ 0;
  M ← size XQ 1;
  N ← size WQ 1;
  K ← size WQ 2;
  TORCH_CHECK_
    (and_then (size_is WQ 0 group_count)
       (and_then ((λ q, q =? M) <$> cdiv (numel x_scale) group_count)
          ((λ q, q =? N) <$> cdiv (numel w_scale) group_count)))
    "All inputs must have the same number of groups." ;;
  validate_inputs_common XQ WQ x_scale w_scale ;;
  TORCH_CHECK (dim XQ =? 3) "Input XQ must be 3D (G,M,K)." ;;
  TORCH_CHECK (dim WQ =? 3) "Input WQ must be 3D (G,N,K)." ;;
  TORCH_CHECK_ (and_then (size_ge WQ 1 512) (size_ge WQ 2 512))
    "N and K must be at least 512 for grouped gemm. For smaller inputs, consider unrolling." ;;
  let Y := empty [group_count; M; N] XQ kBFloat16 in
  if numel Y =? 0 then mret Y
  else
    set_dynamic_kernel_args XQ WQ x_scale w_scale Y
      (Some zero_start_index_M) None zeroing_output_tensor ;;
    emit (Select "rowwise_grouped_heuristic_dispatch"
            [group_count; M; N; K]) ;;
    let selected_kernel :=
      rowwise_grouped_heuristic_dispatch group_count M N K in
    run_kernel selected_kernel Y.

(** The shape checks of one input layout of [f8f8bf16_rowwise_grouped_mm];
    they give [(G, M, N, K)]. *)
Definition shapes_2D3D (XQ WQ x_scale w_scale : Tensor)
    (offsets : option Tensor) (out : Tensor) : Eff (Z * Z * Z * Z) :=
  match offsets with
  | None => throw "Must pass offsets for 2D input XQ."
  | Some offs =>
      TORCH_CHECK (bool_decide (dtype offs = kInt)) "offsets must be int32." ;;
      G ← size offs 0;
      M ← size XQ 0;
      N ← size WQ 1;
      K ← size WQ 2;
      TORCH_CHECK_ (and_then (size_is XQ 1 K) (size_is WQ 0 G))
        "XQ shape must be (total_M, K) and WQ shape must be (G, N, K)." ;;
      TORCH_CHECK_ (size_is x_scale 0 M) "x_scale shape must be (total_M)." ;;
      TORCH_CHECK_ (and_then (size_is w_scale 0 G) (size_is w_scale 1 N))
        "w_scale shape must be (G, N)." ;;
      TORCH_CHECK_
        (and_then (mret (dim out =? 2))
           (and_then (size_is out 0 M) (size_is out 1 N)))
        "out shape must be (total_M, N)." ;;
      mret (G, M, N, K)
  end.

Definition shapes_3D2D (XQ WQ x_scale w_scale : Tensor)
    (offsets : option Tensor) (out : Tensor) : Eff (Z * Z * Z * Z) :=
  match offsets with
  | None => throw "Must pass offsets for 2D input WQ."
  | Some offs =>
      TORCH_CHECK (bool_decide (dtype offs = kInt)) "offsets must be int32." ;;
      G ← size offs 0;
      M ← size XQ 1;
      N ← size WQ 0;
      K ← size WQ 1;
      TORCH_CHECK_ (and_then (size_is XQ 0 G) (size_is XQ 2 K))
        "XQ shape must be (G, M, K) and WQ shape must be (total_N, K)." ;;
      TORCH_CHECK_ (and_then (size_is x_scale 0 G) (size_is x_scale 1 M))
        "x_scale shape must be (G, M)." ;;
      TORCH_CHECK_ (size_is w_scale 0 N) "w_scale shape must be (total_N)." ;;
      TORCH_CHECK_
        (and_then (mret (dim out =? 2))
           (and_then (size_is out 0 M) (size_is out 1 N)))
        "out shape must be (M, total_N)." ;;
      mret (G, M, N, K)
  end.

Definition shapes_3D3D (XQ WQ x_scale w_scale : Tensor)
    (offsets : option Tensor) (out : Tensor) : Eff (Z * Z * Z * Z) :=
  TORCH_CHECK (negb (bool_decide (is_Some offsets)))
    "Offsets should not be passed for 3D-3D inputs." ;;
  G ← size XQ 0;
  M ← size XQ 1;
  N ← size WQ 1;
  K ← size XQ 2;
  TORCH_CHECK_ (and_then (size_is WQ 0 G) (size_is WQ 2 K))
    "XQ shape must be (G, M, K) and WQ shape must be (G, N, K)." ;;
  TORCH_CHECK_ (and_then (size_is x_scale 0 G) (size_is x_scale 1 M))
    "x_scale shape must be (G, M)." ;;
  TORCH_CHECK_ (and_then (size_is w_scale 0 G) (size_is w_scale 1 N))
    "w_scale shape must be (G, N)." ;;
  TORCH_CHECK_
    (and_then (mret (dim out =? 3))
       (and_then (size_is out 0 G)
          (and_then (size_is out 1 M) (size_is out 2 N))))
    "out shape must be (G, M, N)." ;;
  mret (G, M, N, K).

Definition shapes_2D2D (XQ WQ x_scale w_scale : Tensor)
    (offsets : option Tensor) (out : Tensor) : Eff (Z * Z * Z * Z) :=
  match offsets with
  | None => throw "Must pass offsets for 2D inputs XQ and WQ."
  | Some offs =>
      TORCH_CHECK (bool_decide (dtype offs = kInt)) "offsets must be int32." ;;
      G ← size offs 0;
      M ← size XQ 0;
      N ← size WQ 0;
      K ← size XQ 1;
      TORCH_CHECK_
        (and_then (mret ((dim XQ =? 2) && (dim WQ =? 2))) (size_is WQ 1 K))
        "XQ shape must be (M, total_K) and WQ shape must be (N, total_K)." ;;
      TORCH_CHECK_ (size_is x_scale 0 (G * M)) "x_scale shape must be (G * M)." ;;
      TORCH_CHECK_ (size_is w_scale 0 (G * N)) "w_scale shape must be (G * N)." ;;
      TORCH_CHECK_
        (and_then (mret (dim out =? 3))
           (and_then (size_is out 0 G)
              (and_then (size_is out 1 M) (size_is out 2 N))))
        "out shape must be (G, M, N)." ;;
      mret (G, M, N, K)
  end.

(** The result is [out] together with the tuning cache after the
    call. *)
Definition f8f8bf16_rowwise_grouped_mm
    (cache : gmap string string)
    (XQ WQ x_scale w_scale : Tensor) (offsets : option Tensor)
    (out : Tensor) : Eff (Tensor * gmap string string) :=
  validate_inputs_common XQ WQ x_scale w_scale ;;
  shape ←
    (if (dim XQ =? 2) && (dim WQ =? 3) then
       s ← shapes_2D3D XQ WQ x_scale w_scale offsets out; mret (s, _2D3D)
     else if (dim XQ =? 3) && (dim WQ =? 2) then
       s ← shapes_3D2D XQ WQ x_scale w_scale offsets out; mret (s, _3D2D)
     else if (dim XQ =? 3) && (dim WQ =? 3) then
       s ← shapes_3D3D XQ WQ x_scale w_scale offsets out; mret (s, _3D3D)
     else if (dim XQ =? 2) && (dim WQ =? 2) then
       s ← shapes_2D2D XQ WQ x_scale w_scale offsets out; mret (s, _2D2D)
     else
       throw "Invalid input shapes. Must be one of 2D-2D, 3D-3D, 2D-3D, 3D-2D.");
  let '(G, M, N, K, inputType) := shape in
  if numel out =? 0 then mret (out, cache)
  else
    emit (Launch "set_kernel_args") ;;
    MNK ← match inputType with
          | _2D3D => q ← cdiv M G; mret (q, N, K)
          | _3D2D => q ← cdiv N G; mret (M, q, K)
          | _2D2D => q ← cdiv K G; mret (M, N, q)
          | _3D3D => mret (M, N, K)
          end;
    let '(M, N, K) := MNK in
    emit (Select (if FBGEMM_AUTOTUNE_ENABLE then "get_kernel_via_tuning"
                  else "get_kernel_via_heuristic") [M; N; K]) ;;
    if FBGEMM_AUTOTUNE_ENABLE then
      match get_kernel_via_tuning latency get_fp8_rowwise_grouped_kernels
              cache M N K with
      | (Some kernel, cache') =>
          Y ← run_kernel kernel out; mret (Y, cache')
      | (None, _) => throw "no kernel"
      end
    else
      let kernel := get_kernel_via_heuristic M N K in
      Y ← run_kernel kernel out; mret (Y, cache).
End entry_points.

End Fp8RowwiseGrouped.

(** ** Device memory, as the argument kernels use it *)

Module Device.

(** [buffer[i]] and [buffer[i] = x] on a device array; outside the
    array both are undefined. *)
Definition load {A} (buffer : list A) (i : Z) : option A :=
  if decide (0 ≤ i) then buffer !! Z.to_nat i else None.

Definition store {A} (buffer : list A) (i : Z) (x : A) : option (list A) :=
  if decide (0 ≤ i < Z.of_nat (length buffer)) then
    Some (<[Z.to_nat i := x]> buffer)
  else None.

(** [*reinterpret_cast<float4*>(buffer + i) = {0, 0, 0, 0}]: sixteen
    zero bytes, eight bf16 zeros. *)
Definition store_float4_zero (buffer : list Z) (i : Z) : option (list Z) :=
  if decide (0 ≤ i ∧ i + 8 ≤ Z.of_nat (length buffer)) then
    Some (take (Z.to_nat i) buffer ++ replicate 8 0
            ++ drop (Z.to_nat i + 8) buffer)
  else None.

(** [hipMemcpy(dst, src, count * sizeof(T), hipMemcpyHostToDevice)] *)
Definition hipMemcpy {A} (dst src : list A) (count : nat)
  : option (list A) :=
  if decide (count ≤ length src ∧ count ≤ length dst)%nat then
    Some (take count src ++ drop count dst)
  else None.

(** A product of two [int]; signed overflow is undefined. *)
Definition int_mul (a b : Z) : option Z :=
  if decide (- 2 ^ 31 ≤ a * b < 2 ^ 31) then Some (a * b) else None.

(** The iterations of a host loop, or the threads of a launch taken
    in some order: each step may be undefined. *)
Fixpoint for_loop {S} (body : S → nat → option S) (s : S)
    (indices : list nat) : option S :=
  match indices with
  | [] => Some s
  | i :: rest =>
      s' ← body s i;
      for_loop body s' rest
  end.

(** [<<<numBlocks, blockSize>>>]: the global thread indices. *)
Definition launch_threads (numBlocks blockSize : Z) : list nat :=
  seq 0 (Z.to_nat (numBlocks * blockSize)).

End Device.

(** ** The fixed-shape argument kernels of [fp8_rowwise_grouped_gemm.hip] *)

Module Fp8RowwiseGroupedDynamic.
Import Fp8RowwiseGrouped Device.

(** The device memory the two kernels write: the argument array and
    the bf16 output, one bit pattern per element. *)
Record DeviceMemory := mkDeviceMemory {
  args_buffer : list KernelArguments;
  output_buffer : list Z
}.

Section fixed_nk.
Variables XQ WQ w_scale x_scale output : Z.
Variable prepad_M : list Z.
Variables M N K group_count : Z.

Definition kernel_group_args (thread_idx group_M : Z) : KernelArguments :=
  mkKernelArguments
    (XQ + thread_idx * M * K)
    (WQ + thread_idx * N * K)
    (w_scale + thread_idx * N, x_scale + thread_idx * M)
    (output + thread_idx * M * N)
    (to_int group_M) (to_int N) (to_int K) (to_int K) (to_int K) (0, 0)
    (to_int N).

(** The head that both kernels share: thread [thread_idx] sets up the
    arguments of group [thread_idx]. *)
Definition set_group_args (mem : DeviceMemory) (thread_idx : Z)
  : option DeviceMemory :=
  if thread_idx <? group_count then
    group_M ← load prepad_M thread_idx;
    args ← store (args_buffer mem) thread_idx
              (kernel_group_args thread_idx group_M);
    Some (mkDeviceMemory args (output_buffer mem))
  else Some mem.

(** One thread of [set_kernel_args_fixed_nk_kernel]; [t] is
    [blockIdx.x * blockDim.x + threadIdx.x]. *)
Definition set_kernel_args_fixed_nk_kernel (mem : DeviceMemory) (t : nat)
  : option DeviceMemory :=
  let thread_idx := to_int (Z.of_nat t) in
  set_group_args mem thread_idx.

(** One thread of [set_kernel_args_fixed_nk_kernel_zeroing]. *)
Definition set_kernel_args_fixed_nk_kernel_zeroing
    (mem : DeviceMemory) (t : nat) : option DeviceMemory :=
  let thread_idx := to_int (Z.of_nat t) in
  mem ← set_group_args mem thread_idx;
  output_offset ← int_mul thread_idx 8;
  if decide (M * N = 0) then None
  else
    let current_group := to_int (output_offset `quot` (M * N)) in
    if current_group <? group_count then
      nonzeros ← to_int <$> load prepad_M current_group;
      let current_M := to_int ((output_offset `rem` (M * N)) `quot` N) in
      if nonzeros <=? current_M then
        out ← store_float4_zero (output_buffer mem) output_offset;
        Some (mkDeviceMemory (args_buffer mem) out)
      else Some mem
    else Some mem.

(** The threads of a launch run in some order [schedule]; each one
    stores only to locations no other thread of the launch touches. *)
Definition run_threads (kernel : DeviceMemory → nat → option DeviceMemory)
    (mem : DeviceMemory) (schedule : list nat) : option DeviceMemory :=
  for_loop kernel mem schedule.

(** The launch geometry [(numBlocks, blockSize)] that
    [set_dynamic_kernel_args] computes for the zeroing kernel. *)
Definition zeroing_launch : option (Z * Z) :=
  let BLOCK_SIZE := 8 in
  let block_factor :=
    to_int (Z.max group_count ((group_count * M * N) `quot` BLOCK_SIZE)) in
  let blockSize := Z.min 512 block_factor in
  if decide (blockSize = 0) then None
  else Some ((block_factor + blockSize - 1) `quot` blockSize, blockSize).

(** The threads the zeroing branch of [set_dynamic_kernel_args]
    launches; [None] when its check on [N] fails or the block size
    is zero. *)
Definition zeroing_threads : option (list nat) :=
  if N `rem` 8 =? 0 then
    geometry ← zeroing_launch;
    Some (launch_threads geometry.1 geometry.2)
  else None.

(** The plain branch: [<<<1, group_count>>>]. *)
Definition fixed_nk_threads : list nat := launch_threads 1 group_count.
End fixed_nk.

End Fp8RowwiseGroupedDynamic.


(** ** The argument set-up of the bf16 grouped GEMM
    (gemm/ck_extensions.hip, third unit) *)

Module Bf16GroupedArgs.
Import Device.

(** [ck::tensor_operation::device::GroupedGemmKernelArgument<>]: no D
    tensors, so the two arrays [p_ds_grid] and [StrideDs] are empty. *)
Record KernelArguments := mkKernelArguments {
  p_a_grid : Z;
  p_b_grid : Z;
  p_e_grid : Z;
  karg_M : Z;
  karg_N : Z;
  karg_K : Z;
  StrideA : Z;
  StrideB : Z;
  StrideE : Z
}.

(** *** [nextPow2] *)

Definition CHAR_BIT : Z := 8.

(** [sizeof(num)] for [int64_t num] *)
Definition sizeof_num : Z := 8.

(** The conversion of an [int64_t] to the [unsigned int] parameter of
    [__builtin_clz]. *)
Definition to_unsigned (z : Z) : Z := z `mod` 2 ^ 32.

(** [__builtin_clz]: the leading zero bits of a 32-bit value,
    undefined at 0. *)
Definition builtin_clz (x : Z) : option Z :=
  if decide (x = 0) then None else Some (31 - Z.log2 x).

(** [a << s] on the 32-bit [int] [a]: undefined unless [0 ≤ s < 32]. *)
Definition int_shl (a s : Z) : option Z :=
  if decide (0 ≤ s < 32) then Some (to_int (a * 2 ^ s)) else None.

(** The shift count of [nextPow2]. *)
Definition nextPow2_shift (num : Z) : option Z :=
  leading_zeros ← builtin_clz (to_unsigned (num - 1));
  Some (CHAR_BIT * sizeof_num - leading_zeros).

Definition nextPow2 (num : Z) : option Z :=
  if num <=? 1 then Some 1
  else
    shift ← nextPow2_shift num;
    int_shl 1 shift.

(** *** [set_static_kernel_args] *)

(** A tensor of a group list, as the set-up reads it: the data pointer
    (counted in elements) and the sizes of a 2-D tensor. *)
Record Matrix := mkMatrix {
  data_ptr : Z;
  size_0 : Z;
  size_1 : Z
}.

(** The launch [<<<1, 1>>>] of [set_kernel_args_kernel] on the slot
    [slot] of the argument array; [idx] is the global thread index. *)
Definition set_kernel_args_kernel (kernel_args : list KernelArguments)
    (slot : nat) (A B output M N K : Z) (idx : nat)
  : option (list KernelArguments) :=
  if decide (idx = 0%nat) then
    let kernel_group_args :=
      mkKernelArguments A B output (to_int M) (to_int N) (to_int K)
        (to_int K) (to_int K) (to_int N) in
    store kernel_args (Z.of_nat slot) kernel_group_args
  else Some kernel_args.

Section set_static_kernel_args.
(** [at::cuda::getCurrentHIPStream().stream()]; 0 is the default
    stream. *)
Variable stream : Z.

Definition set_static_kernel_args (kernel_args : list KernelArguments)
    (A B : list Matrix) (output : Z) : option (list KernelArguments) :=
  let group_count := length A in
  if (16 <=? Z.of_nat group_count) && (stream =? 0) then
    host ← for_loop (λ (s : list KernelArguments * Z) i,
                let ggemm_kargs := s.1 in
                let output_offset := s.2 in
                a ← A !! i;
                b ← B !! i;
                let M := size_0 a in
                let K := size_1 a in
                let N := size_0 b in
                let group_args :=
                  mkKernelArguments (data_ptr a) (data_ptr b)
                    (output + output_offset) (to_int M) (to_int N)
                    (to_int K) (to_int K) (to_int K) (to_int N) in
                Some (ggemm_kargs ++ [group_args], output_offset + M * N))
              ([], 0) (seq 0 group_count);
    hipMemcpy kernel_args host.1 group_count
  else
    fst <$> for_loop (λ (s : list KernelArguments * Z) i,
                let kernel_args := s.1 in
                let output_offset := s.2 in
                a ← A !! i;
                b ← B !! i;
                let M := size_0 a in
                let K := size_1 a in
                let N := size_0 b in
                kernel_args' ← set_kernel_args_kernel kernel_args i
                                  (data_ptr a) (data_ptr b)
                                  (output + output_offset) M N K 0;
                Some (kernel_args', output_offset + M * N))
              (kernel_args, 0) (seq 0 group_count).
End set_static_kernel_args.

(** *** The kernels of the dynamic and the stacked set-up *)

Section kernels.
Variables A B output : Z.
(** [prepad_M] of the fixed-shape kernel, [M_sizes] of the stacked one *)
Variable M_descriptor : list Z.
Variables M N K group_count : Z.

(** One thread of [set_kernel_args_fixed_nk_kernel]. *)
Definition set_kernel_args_fixed_nk_kernel
    (kernel_args : list KernelArguments) (t : nat)
  : option (list KernelArguments) :=
  let group_idx := to_int (Z.of_nat t) in
  if group_idx <? group_count then
    group_M ← load M_descriptor group_idx;
    let kernel_group_args :=
      mkKernelArguments (A + group_idx * M * K) (B + group_idx * N * K)
        (output + group_idx * M * N) (to_int group_M) (to_int N)
        (to_int K) (to_int K) (to_int K) (to_int N) in
    store kernel_args group_idx kernel_group_args
  else Some kernel_args.

(** One thread of [set_kernel_args_m_sizes_kernel]. *)
Definition set_kernel_args_m_sizes_kernel
    (kernel_args : list KernelArguments) (t : nat)
  : option (list KernelArguments) :=
  let thread_idx := to_int (Z.of_nat t) in
  if thread_idx <? group_count then
    kernel_M ← load M_descriptor thread_idx;
    offset_M ← for_loop (λ offset_M i,
                   m ← M_descriptor !! i;
                   Some (offset_M + m))
                 0 (seq 0 (Z.to_nat thread_idx));
    let kernel_group_args :=
      mkKernelArguments (A + offset_M * K) (B + thread_idx * N * K)
        (output + offset_M * N) (to_int kernel_M) (to_int N)
        (to_int K) (to_int K) (to_int K) (to_int N) in
    store kernel_args thread_idx kernel_group_args
  else Some kernel_args.

(** Both kernels are launched as [<<<1, group_count>>>]. *)
Definition threads : list nat := launch_threads 1 group_count.
End kernels.

End Bf16GroupedArgs.


(** ** The list entry points of the bf16 grouped GEMM
    (gemm/ck_extensions.hip, third unit) *)

Module Bf16GroupedList.
Import Fp8RowwiseGrouped.

(** A kernel of [kernels/bf16_grouped_kernel_manifest.h], by its
    name. *)
Definition GroupedKernel : Type := string.

(** The initializer list of the table [bf16_grouped_lookup_dispatch]:
    the key is (G, M, N, K). *)
Definition bf16_grouped_lookup_dispatch_init
  : list (Z * Z * Z * Z * GroupedKernel) := [
  ((16, 16, 2048, 5120),
   "bf16_grouped_128x16x64x128_16x16_1x2_16x8x1_16x8x1_1x16x1x8_8x8x1_1x2_intrawave_v2");
  ((16, 16, 5120, 1024),
   "bf16_grouped_64x16x16x128_16x16_1x1_16x4x1_16x4x1_1x16x1x4_4x4x1_1x1_interwave_v2");
  ((16, 16, 16384, 5120),
   "bf16_grouped_64x16x32x128_16x16_1x2_16x4x1_16x4x1_1x16x1x4_8x8x1_1x2_intrawave_v2");
  ((16, 16, 5120, 8192),
   "bf16_grouped_128x16x64x128_16x16_1x2_16x8x1_16x8x1_1x16x1x8_8x8x1_1x2_interwave_v1");
  ((16, 32, 2048, 5120),
   "bf16_grouped_128x16x64x128_16x16_1x2_16x8x1_16x8x1_1x16x1x8_8x8x1_1x2_interwave_v2");
  ((16, 32, 5120, 1024),
   "bf16_grouped_256x16x64x128_16x16_1x1_16x16x1_16x16x1_1x16x1x16_4x4x1_1x1_interwave_v2");
  ((16, 32, 16384, 5120),
   "bf16_grouped_128x16x96x128_16x16_1x3_16x8x1_16x8x1_1x16x1x8_4x4x1_1x1_interwave_v1");
  ((16, 32, 5120, 8192),
   "bf16_grouped_128x16x96x64_16x16_1x3_8x16x1_8x16x1_1x16x1x8_4x4x1_1x1_intrawave_v1");
  ((16, 64, 2048, 5120),
   "bf16_grouped_256x16x64x128_16x16_1x1_16x16x1_16x16x1_1x16x1x16_4x4x1_1x1_interwave_v2");
  ((16, 64, 5120, 1024),
   "bf16_grouped_256x16x64x128_16x16_1x1_16x16x1_16x16x1_1x16x1x16_4x4x1_1x1_interwave_v2");
  ((16, 64, 16384, 5120),
   "bf16_grouped_128x16x96x128_16x16_1x3_16x8x1_16x8x1_1x16x1x8_4x4x1_1x1_interwave_v1");
  ((16, 64, 5120, 8192),
   "bf16_grouped_128x16x96x64_16x16_1x3_8x16x1_8x16x1_1x16x1x8_4x4x1_1x1_intrawave_v1");
  ((16, 128, 2048, 5120),
   "bf16_grouped_128x16x64x128_16x16_1x2_16x8x1_16x8x1_1x16x1x8_8x8x1_1x2_interwave_v2");
  ((16, 128, 5120, 1024),
   "bf16_grouped_256x16x64x128_16x16_1x1_16x16x1_16x16x1_1x16x1x16_4x4x1_1x1_interwave_v2");
  ((16, 128, 16384, 5120),
   "bf16_grouped_64x16x64x128_16x16_1x4_16x4x1_16x4x1_1x16x1x4_8x8x1_1x2_intrawave_v2");
  ((16, 128, 5120, 8192),
   "bf16_grouped_128x16x96x128_16x16_1x3_16x8x1_16x8x1_1x16x1x8_4x4x1_1x1_intrawave_v1");
  ((16, 256, 2048, 5120),
   "bf16_grouped_128x16x64x128_16x16_1x2_16x8x1_16x8x1_1x16x1x8_8x8x1_1x2_interwave_v2");
  ((16, 256, 5120, 1024),
   "bf16_grouped_128x16x32x128_16x16_1x1_16x8x1_16x8x1_1x16x1x8_4x4x1_1x1_interwave_v2");
  ((16, 256, 16384, 5120),
   "bf16_grouped_128x16x96x128_16x16_1x3_16x8x1_16x8x1_1x16x1x8_4x4x1_1x1_intrawave_v1");
  ((16, 256, 5120, 8192),
   "bf16_grouped_128x16x96x128_16x16_1x3_16x8x1_16x8x1_1x16x1x8_4x4x1_1x1_interwave_v1");
  ((16, 512, 2048, 5120),
   "bf16_grouped_128x32x64x128_32x32_1x1_16x8x1_16x8x1_1x16x1x8_8x8x1_1x1_interwave_v2");
  ((16, 512, 5120, 1024),
   "bf16_grouped_256x32x96x64_16x16_1x3_8x32x1_8x32x1_1x32x1x8_4x4x1_1x1_interwave_v2");
  ((16, 512, 16384, 5120),
   "bf16_grouped_128x32x96x128_16x16_2x3_16x8x1_16x8x1_1x32x1x4_8x8x1_2x1_intrawave_v2");
  ((16, 512, 5120, 8192),
   "bf16_grouped_256x32x96x64_16x16_1x3_8x32x1_8x32x1_1x32x1x8_4x4x1_1x1_interwave_v1");
  ((16, 1024, 2048, 5120),
   "bf16_grouped_256x64x128x128_32x32_2x1_16x16x1_16x16x1_1x16x1x16_8x8x1_1x1_intrawave_v3");
  ((16, 1024, 5120, 1024),
   "bf16_grouped_256x64x96x64_16x16_2x3_8x32x1_8x32x1_1x64x1x4_8x8x1_2x1_intrawave_v3");
  ((16, 1024, 16384, 5120),
   "bf16_grouped_256x64x192x128_16x16_4x3_16x16x1_16x16x1_1x32x1x8_8x8x1_2x1_intrawave_v3");
  ((16, 1024, 5120, 8192),
   "bf16_grouped_128x64x96x64_16x16_4x3_8x16x1_8x16x1_1x32x1x4_8x8x1_2x1_intrawave_v3");
  ((16, 2048, 2048, 5120),
   "bf16_grouped_256x128x128x128_32x32_2x2_16x16x1_16x16x1_1x32x1x8_8x8x1_1x1_intrawave_v3");
  ((16, 2048, 5120, 1024),
   "bf16_grouped_256x128x96x64_16x16_4x3_8x32x1_8x32x1_1x64x1x4_8x8x1_2x1_intrawave_v3");
  ((16, 2048, 16384, 5120),
   "bf16_grouped_256x128x224x64_16x16_4x7_8x32x1_8x32x1_1x64x1x4_8x8x1_2x1_intrawave_v3");
  ((16, 2048, 5120, 8192),
   "bf16_grouped_256x128x96x64_16x16_4x3_8x32x1_8x32x1_1x64x1x4_8x8x1_2x1_intrawave_v3");
  ((16, 4096, 2048, 5120),
   "bf16_grouped_256x128x256x64_32x32_4x2_8x32x1_8x32x1_1x16x1x16_8x8x1_1x1_intrawave_v3");
  ((16, 4096, 5120, 1024),
   "bf16_grouped_256x128x96x64_16x16_4x3_8x32x1_8x32x1_1x64x1x4_8x8x1_2x1_intrawave_v3");
  ((16, 4096, 16384, 5120),
   "bf16_grouped_256x256x224x64_16x16_8x7_8x32x1_8x32x1_1x64x1x4_8x8x1_2x1_intrawave_v3");
  ((16, 4096, 5120, 8192),
   "bf16_grouped_256x256x160x64_16x16_8x5_8x32x1_8x32x1_1x64x1x4_8x8x1_2x1_intrawave_v3");
  ((16, 8192, 2048, 5120),
   "bf16_grouped_256x256x256x64_32x32_4x4_8x32x1_8x32x1_1x32x1x8_8x8x1_1x1_intrawave_v3");
  ((16, 8192, 5120, 1024),
   "bf16_grouped_256x256x192x64_32x32_4x3_8x32x1_8x32x1_1x32x1x8_8x8x1_1x1_intrawave_v3");
  ((16, 8192, 16384, 5120),
   "bf16_grouped_256x256x224x64_16x16_8x7_8x32x1_8x32x1_1x64x1x4_8x8x1_2x1_intrawave_v3");
  ((16, 8192, 5120, 8192),
   "bf16_grouped_256x256x192x64_32x32_4x3_8x32x1_8x32x1_1x32x1x8_8x8x1_1x1_intrawave_v3");
  ((128, 128, 2048, 5120),
   "bf16_grouped_128x16x64x128_16x16_1x2_16x8x1_16x8x1_1x16x1x8_8x8x1_1x2_interwave_v2");
  ((128, 128, 5120, 1024),
   "bf16_grouped_256x16x64x128_16x16_1x1_16x16x1_16x16x1_1x16x1x16_4x4x1_1x1_interwave_v2");
  ((128, 128, 16384, 5120),
   "bf16_grouped_256x16x128x128_16x16_1x2_16x16x1_16x16x1_1x16x1x16_8x8x1_1x2_intrawave_v2");
  ((128, 128, 5120, 8192),
   "bf16_grouped_128x16x96x128_16x16_1x3_16x8x1_16x8x1_1x16x1x8_4x4x1_1x1_interwave_v2");
  ((128, 256, 2048, 5120),
   "bf16_grouped_128x16x96x128_16x16_1x3_16x8x1_16x8x1_1x16x1x8_4x4x1_1x1_intrawave_v1");
  ((128, 256, 5120, 1024),
   "bf16_grouped_256x16x64x128_16x16_1x1_16x16x1_16x16x1_1x16x1x16_4x4x1_1x1_interwave_v2");
  ((128, 256, 16384, 5120),
   "bf16_grouped_256x16x128x128_16x16_1x2_16x16x1_16x16x1_1x16x1x16_8x8x1_1x2_intrawave_v1");
  ((128, 256, 5120, 8192),
   "bf16_grouped_64x16x48x128_16x16_1x3_16x4x1_16x4x1_1x16x1x4_4x4x1_1x1_intrawave_v1");
  ((128, 512, 2048, 5120),
   "bf16_grouped_128x16x64x128_16x16_1x2_16x8x1_16x8x1_1x16x1x8_8x8x1_1x2_intrawave_v2");
  ((128, 512, 5120, 1024),
   "bf16_grouped_128x16x64x128_16x16_1x2_16x8x1_16x8x1_1x16x1x8_8x8x1_1x2_interwave_v2");
  ((128, 512, 16384, 5120),
   "bf16_grouped_256x16x128x128_16x16_1x2_16x16x1_16x16x1_1x16x1x16_8x8x1_1x2_intrawave_v2");
  ((128, 512, 5120, 8192),
   "bf16_grouped_128x16x96x128_16x16_1x3_16x8x1_16x8x1_1x16x1x8_4x4x1_1x1_interwave_v2");
  ((128, 1024, 2048, 5120),
   "bf16_grouped_128x16x96x128_16x16_1x3_16x8x1_16x8x1_1x16x1x8_4x4x1_1x1_intrawave_v2");
  ((128, 1024, 5120, 1024),
   "bf16_grouped_128x16x64x128_16x16_1x2_16x8x1_16x8x1_1x16x1x8_8x8x1_1x2_intrawave_v2");
  ((128, 1024, 16384, 5120),
   "bf16_grouped_256x16x128x128_16x16_1x2_16x16x1_16x16x1_1x16x1x16_8x8x1_1x2_intrawave_v2");
  ((128, 1024, 5120, 8192),
   "bf16_grouped_128x16x96x128_16x16_1x3_16x8x1_16x8x1_1x16x1x8_4x4x1_1x1_interwave_v2");
  ((128, 2048, 2048, 5120),
   "bf16_grouped_128x16x96x128_16x16_1x3_16x8x1_16x8x1_1x16x1x8_4x4x1_1x1_intrawave_v2");
  ((128, 2048, 5120, 1024),
   "bf16_grouped_128x16x32x128_16x16_1x1_16x8x1_16x8x1_1x16x1x8_4x4x1_1x1_interwave_v2");
  ((128, 2048, 16384, 5120),
   "bf16_grouped_256x16x128x128_16x16_1x2_16x16x1_16x16x1_1x16x1x16_8x8x1_1x2_intrawave_v2");
  ((128, 2048, 5120, 8192),
   "bf16_grouped_128x16x96x128_16x16_1x3_16x8x1_16x8x1_1x16x1x8_4x4x1_1x1_intrawave_v1");
  ((128, 4096, 2048, 5120),
   "bf16_grouped_128x32x64x128_32x32_1x1_16x8x1_16x8x1_1x16x1x8_8x8x1_1x1_intrawave_v1");
  ((128, 4096, 5120, 1024),
   "bf16_grouped_128x32x64x128_32x32_1x1_16x8x1_16x8x1_1x16x1x8_8x8x1_1x1_interwave_v2");
  ((128, 4096, 16384, 5120),
   "bf16_grouped_256x32x128x128_16x16_1x4_16x16x1_16x16x1_1x32x1x8_8x8x1_1x2_intrawave_v2");
  ((128, 4096, 5120, 8192),
   "bf16_grouped_256x32x224x64_16x16_1x7_8x32x1_8x32x1_1x32x1x8_4x4x1_1x1_intrawave_v1");
  ((128, 8192, 2048, 5120),
   "bf16_grouped_256x64x192x128_16x16_4x3_16x16x1_16x16x1_1x32x1x8_8x8x1_2x1_intrawave_v3");
  ((128, 8192, 5120, 1024),
   "bf16_grouped_128x64x128x64_32x32_2x2_8x16x1_8x16x1_1x16x1x8_8x8x1_1x1_intrawave_v3");
  ((128, 8192, 16384, 5120),
   "bf16_grouped_256x64x192x128_16x16_4x3_16x16x1_16x16x1_1x32x1x8_8x8x1_2x1_intrawave_v3");
  ((128, 8192, 5120, 8192),
   "bf16_grouped_256x64x192x128_16x16_4x3_16x16x1_16x16x1_1x32x1x8_8x8x1_2x1_intrawave_v3")
].

Definition bf16_grouped_lookup_dispatch
  : list (Z * Z * Z * Z * GroupedKernel) :=
  Std.umap_of_list (Bf16Grouped.IntTupleHash4 Std.hash) Std.tuple4_eq
    bf16_grouped_lookup_dispatch_init.

(** [grouped_heuristic_dispatch (G, total_M, N, K)]. [None]: the
    undefined shift of [nextPow2]. *)
Definition grouped_heuristic_dispatch (G total_M N K : Z)
  : option GroupedKernel :=
  padded_m ← Bf16GroupedArgs.nextPow2 total_M;
  let padded_m := if padded_m <? G then G else padded_m in
  let padded_m := if padded_m >? 8192 then 8192 else padded_m in
  let it :=
    Std.umap_find (Bf16Grouped.IntTupleHash4 Std.hash) Std.tuple4_eq
      bf16_grouped_lookup_dispatch (G, padded_m, N, K) in
  match it with
  | Some e => Some e.2
  | None =>
      Some "bf16_grouped_256x128x128x64_32x32_2x2_8x32x1_8x32x1_1x32x1x8_8x8x1_1x1_interwave_v1"
  end.

Section entry_points.
(** [at::cuda::getCurrentHIPStream().stream()]; 0 is the default
    stream. *)
Variable stream : Z.

(** The launches of [set_static_kernel_args]: none on the host path,
    one per group on the device path. *)
Definition set_static_kernel_args (A B : list Tensor) : Eff unit :=
  let group_count := Z.of_nat (length A) in
  if (16 <=? group_count) && (stream =? 0) then
    for_each (λ ab : Tensor * Tensor,
        M ← size ab.1 0;
        K ← size ab.1 1;
        N ← size ab.2 0;
        mret tt)
      (zip A B)
  else
    for_each (λ ab : Tensor * Tensor,
        M ← size ab.1 0;
        K ← size ab.1 1;
        N ← size ab.2 0;
        emit (Launch "set_kernel_args_kernel"))
      (zip A B).

Definition _bf16bf16bf16_grouped (OT : OutputType) (A B : list Tensor)
  : Eff GroupedOutput :=
  TORCH_CHECK (bool_decide (length A = length B))
    "A and B must have the same number of groups." ;;
  let group_count := to_int (Z.of_nat (length A)) in
  for_each (λ a : Tensor,
      TORCH_CHECK (is_cuda a && is_contiguous a) "" ;;
      TORCH_CHECK (dim a =? 2) "Inputs must be 2D." ;;
      TORCH_CHECK (bool_decide (dtype a = kBFloat16))
        "Inputs must be type bfloat16.")
    A ;;
  for_each (λ b : Tensor,
      TORCH_CHECK (is_cuda b && is_contiguous b) "" ;;
      TORCH_CHECK (dim b =? 2) "Inputs must be 2D." ;;
      TORCH_CHECK (bool_decide (dtype b = kBFloat16))
        "Inputs must be type bfloat16.")
    B ;;
  shapes ← mapM (λ ab : Tensor * Tensor,
              M ← size ab.1 0;
              N ← size ab.2 0;
              mret (M, N))
            (zip A B);
  let total_M := foldr Z.add 0 (fst <$> shapes) in
  let output_sizes := (λ mn : Z * Z, mn.1 * mn.2) <$> shapes in
  let total_output_size := foldr Z.add 0 output_sizes in
  match A, B with
  | A_0 :: _, B_0 :: _ =>
      let Y := empty [total_output_size] A_0 kBFloat16 in
      Y ← (if 0 <? numel Y then
             set_static_kernel_args A B ;;
             Ms ← mapM (λ a : Tensor, size a 0) A;
             Ns ← mapM (λ b : Tensor, size b 0) B;
             Ks ← mapM (λ a : Tensor, size a 1) A;
             let MaxM := foldl Z.max 0 Ms in
             let MaxN := foldl Z.max 0 Ns in
             let MaxK := foldl Z.max 0 Ks in
             emit (Select "grouped_heuristic_dispatch"
                     [group_count; MaxM; MaxN; MaxK]) ;;
             match grouped_heuristic_dispatch group_count MaxM MaxN MaxK with
             | Some selected_kernel => run_kernel selected_kernel Y
             | None => fault
             end
           else mret Y);
      match OT with
      | OutTensor =>
          N ← to_int <$> size B_0 0;
          AsTensor <$> view Y [total_M; N]
      | OutTensorList =>
          AsList <$> mapM (λ gs : Tensor * (Z * Z),
                             view gs.1 [gs.2.1; gs.2.2])
                       (zip (split Y output_sizes) shapes)
      end
  | _, _ => fault
  end.

Definition bf16bf16bf16_grouped (A B : list Tensor) : Eff GroupedOutput :=
  _bf16bf16bf16_grouped OutTensorList A B.

Definition bf16bf16bf16_grouped_cat (A B : list Tensor)
  : Eff GroupedOutput :=
  _bf16bf16bf16_grouped OutTensor A B.
End entry_points.

End Bf16GroupedList.


(** ** The fallback kernel of the FP8 rowwise heuristic
    (kernels/fp8fp8bf16_rowwise_64x16x16x256_16x16_1x1_16x4x1_16x4x1_1x4x1x16_4x4x1_1x1_intrawave_v1.hip) *)

Module Fp8RowwiseKernels.

Inductive BlockGemmPipelineScheduler := Intrawave | Interwave.

Inductive BlockGemmPipelineVersion := v1 | v2 | v3 | v4 | v5.

(** The template arguments of an instantiation of the device wrapper
    [f8f8bf16_rowwise_wrapper<...>], in their order: eight tile
    sizes, four [S<...>] sequences, two shuffle counts, the pipeline
    and the two trailing vector widths. *)
Record Instance := mkInstance {
  tile : list Z;
  S_0 : list Z;
  S_1 : list Z;
  S_2 : list Z;
  S_3 : list Z;
  shuffle : Z * Z;
  scheduler : BlockGemmPipelineScheduler;
  version : BlockGemmPipelineVersion;
  width_0 : Z;
  width_1 : Z
}.

(** The instantiation the kernel calls; [N] and [K] are the [int]
    sizes [WQ.size(0)] and [WQ.size(1)]. *)
Definition fp8fp8bf16_rowwise_64x16x16x256_16x16_1x1_16x4x1_16x4x1_1x4x1x16_4x4x1_1x1_intrawave_v1
    (N K : Z) : Instance :=
  if (K `rem` 256 =? 0) && (N `rem` 4 =? 0) then
    mkInstance [64; 16; 16; 256; 16; 16; 1; 1] [16; 4; 1] [16; 4; 1]
      [1; 16; 1; 4] [4; 4; 1] (1, 1) Intrawave v1 16 16
  else if (K `rem` 16 =? 0) && (N `rem` 4 =? 0) then
    mkInstance [64; 16; 16; 256; 16; 16; 1; 1] [16; 4; 1] [16; 4; 1]
      [1; 16; 1; 4] [4; 4; 1] (1, 1) Intrawave v1 16 16
  else if (K `rem` 8 =? 0) && (N `rem` 4 =? 0) then
    mkInstance [64; 16; 16; 256; 16; 16; 1; 1] [16; 4; 1] [16; 4; 1]
      [1; 16; 1; 4] [4; 4; 1] (1, 1) Intrawave v1 8 8
  else if (K `rem` 2 =? 0) && (N `rem` 4 =? 0) then
    mkInstance [64; 16; 16; 256; 16; 16; 1; 1] [16; 4; 1] [16; 4; 1]
      [1; 16; 1; 4] [4; 4; 1] (1, 1) Intrawave v1 2 2
  else
    mkInstance [64; 16; 16; 256; 16; 16; 1; 1] [16; 4; 1] [16; 4; 1]
      [1; 16; 1; 4] [1; 1; 1] (1, 1) Intrawave v1 1 1.

End Fp8RowwiseKernels.


(** * The vocabulary of the properties *)

(** ** Rowwise calls *)

(** The checks both rowwise wrappers make before they look at the
shape. *)
Definition rowwise_inputs_valid (XQ WQ x_scale w_scale : Tensor)
    (bias : option Tensor) (use_fast_accum : bool) : Prop :=
  dtype XQ = kFloat8_e4m3fnuz ∧ dtype WQ = kFloat8_e4m3fnuz
  ∧ dtype x_scale = kFloat ∧ dtype w_scale = kFloat
  ∧ use_fast_accum = true ∧ bias = None
  ∧ is_cuda XQ = true ∧ is_contiguous XQ = true
  ∧ is_cuda WQ = true ∧ is_contiguous WQ = true.

(** The problem shape [(M, N, K)] of a rowwise call: [M] is the
product of all sizes of [XQ] but the last, [N] and [K] are the sizes
of [WQ]; all three are [int]. *)
Definition rowwise_shape (XQ WQ : Tensor) : option (Z * Z * Z) :=
  match sizes XQ with
  | [] => None
  | _ :: _ =>
      n ← sizes WQ !! 0%nat;
      k ← sizes WQ !! 1%nat;
      Some (to_int (foldr Z.mul 1 (take (pred (length (sizes XQ))) (sizes XQ))),
            to_int n, to_int k)
  end.

(** ** Ordered tables *)

Section std_map_vocabulary.
Context {V : Type}.
Implicit Types (m : list (Z * V)) (e : Z * V).

(** The invariant of a [std::map]: keys strictly increase. *)
Definition map_ordered m : Prop := StronglySorted Z.lt (fst <$> m).

(** The entry [rowwise_nk_lookup] reads. *)
Definition selected_entry (M : Z) m : option (Z * V) :=
  let it := Std.lower_bound M m in
  if decide (it ≠ length m) then m !! it
  else match it with
       | O => None
       | S it' => m !! it'
       end.

(** What the lookup policy asks of the selected key [k]: it is the
smallest key of the table that is at least [M], or no key is at least
[M] and [k] is the largest key. *)
Definition lower_bound_or_largest (M : Z) m (k : Z) : Prop :=
  (M ≤ k ∧ ∀ e, e ∈ m → M ≤ e.1 → k ≤ e.1)
  ∨ ((∀ e, e ∈ m → e.1 < M) ∧ ∀ e, e ∈ m → e.1 ≤ k).
End std_map_vocabulary.

(** ** Hashes of keys *)

Section hash_vocabulary.
Variable std_hash : Z → Z.

(** The hash of a key is the exclusive or of the hashes of its
components, taken in any order. *)
Definition xor_of_hashes (components : list Z) : Z :=
  foldr (λ x acc, Z.lxor (std_hash x) acc) 0 components.
End hash_vocabulary.

(** ** Calls that fail *)

(** A call fails when it throws before anything is selected or
launched. *)
Definition fails {A} (e : Eff A) : Prop := threw e ∧ log e = [].

(** A step only checks when it neither logs nor faults. *)
Definition only_checks {A} (e : Eff A) : Prop :=
  log e = [] ∧ outcome e ≠ Fault.

(** ** Groups of a grouped problem *)

Section group_vocabulary.
Import Fp8RowwiseGrouped.
Variables XQ WQ w_scale x_scale output : Z.
Variables M_sizes offsets : option (list Z).
Variables M N K group_count : Z.
Variable input_type : option GroupedGemmInputType.

(** A group is nonzero when its resolved M, N and K are all nonzero. *)
Definition group_nonzero (thread_idx : nat) : bool :=
  match resolve_group M_sizes offsets M N K input_type thread_idx with
  | Some g =>
      negb (M_group g =? 0) && negb (N_group g =? 0) && negb (K_group g =? 0)
  | None => false
  end.

(** The argument record of a group. *)
Definition record_of (thread_idx : nat) : option KernelArguments :=
  resolve_group M_sizes offsets M N K input_type thread_idx
  ≫= kernel_group_args XQ WQ w_scale x_scale output N K.

(** The descriptors the data model allows: there is a group and the
count fits an [int]; sizes are not negative; exactly one of [M_sizes]
and [offsets] is given, with one entry per group; the entries of
[M_sizes] are not negative and [offsets] does not decrease from 0. *)
Definition descriptor_well_formed : Prop :=
  0 < group_count < 2 ^ 31 ∧ 0 ≤ M ∧ 0 ≤ N ∧ 0 ≤ K
  ∧ match M_sizes, offsets with
    | Some ms, None =>
        Z.of_nat (length ms) = group_count ∧ Forall (λ s, 0 ≤ s) ms
    | None, Some os =>
        Z.of_nat (length os) = group_count ∧ is_Some input_type
        ∧ StronglySorted Z.le (0 :: os)
    | _, _ => False
    end.
End group_vocabulary.


(** ** Outputs of the rowwise wrappers *)

(** A tensor after the kernel [kernel] has written it. *)
Definition written_by (kernel : string) (Y : Tensor) : Tensor :=
  mkTensor (dtype Y) (is_cuda Y) (is_contiguous Y) (device Y) (sizes Y)
    (Output kernel).

(** A preallocated output fits a rowwise problem when the product of
all its sizes but the last is M (as an [int]), its last size is N and
its element type is the output type of the wrapper. *)
Definition preallocated_output_fits (OUTPUT_DTYPE : ScalarType)
    (Y : Tensor) (M N : Z) : Prop :=
  sizes Y ≠ []
  ∧ to_int (foldr Z.mul 1 (take (pred (length (sizes Y))) (sizes Y))) = M
  ∧ List.last (sizes Y) 0 = N
  ∧ dtype Y = OUTPUT_DTYPE.

(** The check both wrappers make of a preallocated output. *)
Definition check_output (OUTPUT_DTYPE : ScalarType) (Y : Tensor) (M N : Z)
  : Eff Tensor :=
  y_m ← size_to_dim_ (dim Y - 1) (sizes Y);
  TORCH_CHECK ((to_int y_m =? M) && (List.last (sizes Y) 0 =? N)) "" ;;
  TORCH_CHECK (bool_decide (dtype Y = OUTPUT_DTYPE)) "" ;;
  mret Y.


(** ** Rows of the output of the dynamic grouped GEMM *)

Section zeroing_vocabulary.
Variable prepad_M : list Z.
Variables M N : Z.

(** The element [j] of the [G x M x N] output lies in a row at or
beyond the zero start index of its group. *)
Definition in_zero_row (j : Z) : bool :=
  match prepad_M !! Z.to_nat (j `div` (M * N)) with
  | Some p => p <=? (j `mod` (M * N)) `div` N
  | None => false
  end.
End zeroing_vocabulary.

(** ** Argument records of the bf16 grouped GEMM *)

Section bf16_grouped_vocabulary.
Import Bf16GroupedArgs.

(** The record of a group with operands [a] and [b] whose output
starts [output_offset] elements into the output. *)
Definition static_group_args (a b : Matrix) (output output_offset : Z)
  : KernelArguments :=
  mkKernelArguments (data_ptr a) (data_ptr b) (output + output_offset)
    (to_int (size_0 a)) (to_int (size_0 b)) (to_int (size_1 a))
    (to_int (size_1 a)) (to_int (size_1 a)) (to_int (size_0 b)).

(** The number of output elements of the groups before group [i]: the
sum of their [M * N]. *)
Definition output_offset_before (A B : list Matrix) (i : nat) : Z :=
  foldr Z.add 0
    (zip_with (λ a b, size_0 a * size_0 b) (take i A) (take i B)).

(** The record of group [i] of a stacked problem: its rows start after
the rows of the groups before it. *)
Definition stacked_group_args (A B output : Z) (M_sizes : list Z)
    (N K : Z) (i : nat) (kernel_M : Z) : KernelArguments :=
  let offset_M := foldr Z.add 0 (take i M_sizes) in
  mkKernelArguments (A + offset_M * K) (B + Z.of_nat i * N * K)
    (output + offset_M * N) (to_int kernel_M) (to_int N) (to_int K)
    (to_int K) (to_int K) (to_int N).
End bf16_grouped_vocabulary.

(** ** Calls that launch nothing *)

(** A call launches nothing when it selects and launches no kernel and
does not fault: it throws, or it returns a value that satisfies [P]. *)
Definition launches_nothing {A} (e : Eff A) (P : A → Prop) : Prop :=
  log e = []
  ∧ match outcome e with
    | Ok v => P v
    | Throw _ => True
    | Fault => False
    end.

(** ** Shape keys *)

(** A string without the separator of the shape key. *)
Fixpoint separator_free (s : string) : Prop :=
  match s with
  | EmptyString => True
  | String c rest => String c "" ≠ "_" ∧ separator_free rest
  end.

(** ** Operands of the list entry points *)

Definition first_size (t : Tensor) : Z := default 0 (sizes t !! 0%nat).

Definition second_size (t : Tensor) : Z := default 0 (sizes t !! 1%nat).

(** What [f8f8bf16_rowwise_grouped] asks of its four lists: as many
tensors in each, at least one; activations and weights on the device,
contiguous, two-dimensional and of the FP8 type; N and K of every
weight at least 512; scales of type float. *)
Definition grouped_lists_valid (float8_dtype : ScalarType)
    (XQ WQ x_scale w_scale : list Tensor) : Prop :=
  XQ ≠ []
  ∧ length XQ = length WQ ∧ length XQ = length x_scale
  ∧ length XQ = length w_scale
  ∧ Forall (λ x, is_cuda x = true ∧ is_contiguous x = true
                 ∧ length (sizes x) = 2%nat ∧ dtype x = float8_dtype) XQ
  ∧ Forall (λ w, is_cuda w = true ∧ is_contiguous w = true
                 ∧ length (sizes w) = 2%nat ∧ dtype w = float8_dtype
                 ∧ 512 ≤ first_size w ∧ 512 ≤ second_size w) WQ
  ∧ Forall (λ s, dtype s = kFloat) x_scale
  ∧ Forall (λ s, dtype s = kFloat) w_scale.

(** What [bf16bf16bf16_grouped] asks of its two lists: as many tensors
in each, at least one, all on the device, contiguous, two-dimensional
and of type bfloat16. *)
Definition bf16_lists_valid (A B : list Tensor) : Prop :=
  A ≠ []
  ∧ length A = length B
  ∧ Forall (λ t, is_cuda t = true ∧ is_contiguous t = true
                 ∧ length (sizes t) = 2%nat ∧ dtype t = kBFloat16) A
  ∧ Forall (λ t, is_cuda t = true ∧ is_contiguous t = true
                 ∧ length (sizes t) = 2%nat ∧ dtype t = kBFloat16) B.

(** * Properties *)

(** ** Reasoning about calls *)

Lemma size_lookup (t : Tensor) (d s : Z) :
  0 ≤ d → sizes t !! Z.to_nat d = Some s → size t d = mret s.
Proof.
  intros Hd Hs. unfold size, dim.
  assert (Hlt : (Z.to_nat d < length (sizes t))%nat)
    by (eapply lookup_lt_Some; eauto).
  destruct (decide _) as [_|Hn]; [|lia].
  rewrite Z.mod_small by lia. rewrite Hs. reflexivity.
Qed.

Lemma TORCH_CHECK_false {A} (msg : string) (k : unit → Eff A) :
  (TORCH_CHECK false msg ≫= k) = throw msg.
Proof. reflexivity. Qed.

Lemma TORCH_CHECK_true {A} (msg : string) (k : unit → Eff A) :
  (TORCH_CHECK true msg ≫= k) = k tt.
Proof. unfold TORCH_CHECK, mbind, mret, Eff_bind, Eff_ret. simpl. destruct (k tt); reflexivity. Qed.

Lemma mret_bind {A B} (a : A) (k : A → Eff B) : (mret a ≫= k) = k a.
Proof. unfold mbind, mret, Eff_bind, Eff_ret. simpl. destruct (k a); reflexivity. Qed.

Section bf16_gemm.
Import Bf16Gemm.

Lemma bf16_gemm_impl_small (c : Config) (A B : Tensor) (m n k : Z) :
  sizes A !! 0%nat = Some m → sizes B !! 0%nat = Some n →
  sizes A !! 1%nat = Some k →
  to_int m < 128 ∨ to_int n < 128 ∨ to_int k < 256 →
  bf16_gemm_impl c A B = throw "Minimum supported M,N,K is 128,128,256.".
Proof.
  intros Hm Hn Hk Hsmall. unfold bf16_gemm_impl.
  rewrite (size_lookup A 0 m ltac:(lia) Hm), mret_bind.
  rewrite (size_lookup B 0 n ltac:(lia) Hn), mret_bind.
  rewrite (size_lookup A 1 k ltac:(lia) Hk), mret_bind.
  replace (bool_decide (128 ≤ to_int m) && bool_decide (128 ≤ to_int n)
           && bool_decide (256 ≤ to_int k)) with false.
  - apply TORCH_CHECK_false.
  - symmetry. rewrite !andb_false_iff, !bool_decide_eq_false. lia.
Qed.

(** C10: [bf16_gemm] fails on every input whose M is below 128, whose N
    is below 128 or whose K is below 256, a zero dimension included:
    the call throws, and nothing is launched. *)
Theorem bf16_gemm_minimum_shape (A B : Tensor) (m n k : Z) :
  sizes A !! 0%nat = Some m → sizes B !! 0%nat = Some n →
  sizes A !! 1%nat = Some k →
  to_int m < 128 ∨ to_int n < 128 ∨ to_int k < 256 →
  threw (bf16_gemm A B) ∧ log (bf16_gemm A B) = [].
Proof.
  intros Hm Hn Hk Hsmall. unfold bf16_gemm.
  destruct (bool_decide (dtype A = kBFloat16) && bool_decide (dtype B = kBFloat16)).
  - rewrite TORCH_CHECK_true.
    rewrite (size_lookup A 0 m ltac:(lia) Hm), mret_bind.
    rewrite (size_lookup B 0 n ltac:(lia) Hn), mret_bind.
    rewrite (size_lookup A 1 k ltac:(lia) Hk), mret_bind.
    cbv zeta.
    repeat case_match;
      rewrite (bf16_gemm_impl_small _ A B m n k Hm Hn Hk Hsmall);
      (split; [eexists; reflexivity | reflexivity]).
  - rewrite TORCH_CHECK_false. split; [eexists; reflexivity | reflexivity].
Qed.

Lemma bf16_gemm_minimum_shape_witness :
  let A := mkTensor kBFloat16 true true 0 [0; 256] Data in
  let B := mkTensor kBFloat16 true true 0 [128; 256] Data in
  threw (bf16_gemm A B) ∧ log (bf16_gemm A B) = [].
Proof.
  intros A B.
  apply (bf16_gemm_minimum_shape A B 0 128 256); [reflexivity..|].
  left. vm_compute. reflexivity.
Defined.
End bf16_gemm.

(** ** Zero-sized problems in the rowwise wrappers *)

Lemma size_to_dim_all_but_last (t : Tensor) :
  sizes t ≠ [] →
  size_to_dim_ (dim t - 1) (sizes t)
  = mret (foldr Z.mul 1 (take (pred (length (sizes t))) (sizes t))).
Proof.
  intros Hne. unfold size_to_dim_, dim.
  destruct (sizes t) as [|s l] eqn:Hs; [done|].
  rewrite bool_decide_eq_true_2 by (simpl length; lia).
  rewrite TORCH_CHECK_true. do 3 f_equal. simpl length. lia.
Qed.

Lemma rowwise_shape_inv (XQ WQ : Tensor) (M N K : Z) :
  rowwise_shape XQ WQ = Some (M, N, K) →
  ∃ n k, sizes XQ ≠ [] ∧ sizes WQ !! 0%nat = Some n
         ∧ sizes WQ !! 1%nat = Some k
         ∧ M = to_int (foldr Z.mul 1 (take (pred (length (sizes XQ))) (sizes XQ)))
         ∧ N = to_int n ∧ K = to_int k.
Proof.
  unfold rowwise_shape. destruct (sizes XQ) as [|s l] eqn:Hs; [done|].
  destruct (sizes WQ !! 0%nat) as [n|]; [|done].
  destruct (sizes WQ !! 1%nat) as [k|]; [|done].
  simpl. intros [= <- <- <-]. exists n, k. done.
Qed.

Lemma zero_dimension_test (M N K : Z) :
  M = 0 ∨ N = 0 ∨ K = 0 → (M =? 0) || (N =? 0) || (K =? 0) = true.
Proof.
  intros H. rewrite !orb_true_iff, !Z.eqb_eq. tauto.
Qed.




(** ** The heuristic selectors *)

Lemma string_in_list (k : string) (l : list string) :
  bool_decide (k ∈ l) = true → k ∈ l.
Proof. apply bool_decide_eq_true_1. Qed.

(** The kernels the branches of [rowwise_heuristic_dispatch] return. *)
Lemma rowwise_heuristic_dispatch_branches (M N K : Z) :
  Fp8Rowwise.rowwise_heuristic_dispatch M N K ∈
    [ "fp8fp8bf16_rowwise_64x16x16x256_16x16_1x1_16x4x1_16x4x1_1x4x1x16_4x4x1_1x1_intrawave_v1";
      "fp8fp8bf16_rowwise_64x16x16x128_16x16_1x1_8x8x1_8x8x1_1x16x1x4_4x4x1_1x1_interwave_v1";
      "fp8fp8bf16_rowwise_128x16x32x128_16x16_1x1_8x16x1_8x16x1_1x16x1x8_4x4x1_1x1_intrawave_v1";
      "fp8fp8bf16_rowwise_128x32x16x128_16x16_1x1_8x16x1_8x16x1_1x16x1x8_2x2x1_1x1_interwave_v1";
      "fp8fp8bf16_rowwise_256x128x128x128_32x32_2x2_8x32x1_8x32x1_1x32x1x8_8x8x1_1x1_intrawave_v5";
      "fp8fp8bf16_rowwise_256x128x128x128_32x32_2x2_8x32x1_8x32x1_1x32x1x8_8x8x1_1x1_interwave_v1";
      "fp8fp8bf16_rowwise_256x128x128x128_32x32_2x2_8x32x1_8x32x1_1x32x1x8_8x8x1_1x1_intrawave_v3";
      "fp8fp8bf16_rowwise_256x256x256x128_16x16_8x8_8x32x1_8x32x1_1x32x1x8_8x8x1_1x2_intrawave_v3";
      "fp8fp8bf16_rowwise_256x224x256x128_16x16_7x8_8x32x1_8x32x1_1x32x1x8_8x8x1_1x2_intrawave_v3" ].
Proof.
  unfold Fp8Rowwise.rowwise_heuristic_dispatch.
  repeat (match goal with |- context [if ?b then _ else _] => destruct b end);
    apply string_in_list; vm_compute; reflexivity.
Qed.

Lemma rowwise_preshuffle_heuristic_dispatch_prefix (M N K : Z) :
  String.prefix "fp8_rowwise_preshuffle_"
    (Fp8RowwisePreshuffle.rowwise_preshuffle_heuristic_dispatch M N K) = true.
Proof.
  unfold Fp8RowwisePreshuffle.rowwise_preshuffle_heuristic_dispatch.
  repeat (match goal with |- context [if ?b then _ else _] => destruct b end);
    vm_compute; reflexivity.
Qed.

(** C3: the heuristic selector is total: on every shape, so on every
strictly positive one, [rowwise_heuristic_dispatch] returns a kernel,
and the kernel is one the manifest declares; no branch throws. The
preshuffle selector returns a kernel of its family on every shape as
well. *)
Theorem rowwise_heuristic_dispatch_total (M N K : Z) :
  (∃ kernel, Fp8Rowwise.rowwise_heuristic_dispatch M N K = kernel
             ∧ kernel ∈ Fp8Rowwise.kernel_manifest)
  ∧ (∃ kernel,
       Fp8RowwisePreshuffle.rowwise_preshuffle_heuristic_dispatch M N K = kernel
       ∧ String.prefix "fp8_rowwise_preshuffle_" kernel = true).
Proof.
  split.
  - eexists; split; [reflexivity|].
    pose proof (rowwise_heuristic_dispatch_branches M N K) as Hin.
    revert Hin. generalize (Fp8Rowwise.rowwise_heuristic_dispatch M N K).
    intros k Hin.
    repeat (apply elem_of_cons in Hin as [-> | Hin];
            [apply string_in_list; vm_compute; reflexivity|]).
    by apply elem_of_nil in Hin.
  - eexists; split; [reflexivity|].
    apply rowwise_preshuffle_heuristic_dispatch_prefix.
Qed.

(** ** The ordered family tables *)

Section std_map.
Context {V : Type}.
Implicit Types (m : list (Z * V)) (e : Z * V).

Lemma map_ordered_cons e m :
  map_ordered (e :: m) ↔ map_ordered m ∧ Forall (λ e', e.1 < e'.1) m.
Proof.
  unfold map_ordered. rewrite fmap_cons. split.
  - intros Hss. apply StronglySorted_inv in Hss as [Hs Hall].
    split; [done|]. rewrite Forall_fmap in Hall. exact Hall.
  - intros [Hs Hall]. constructor; [done|]. rewrite Forall_fmap. exact Hall.
Qed.

Lemma map_insert_keys e m e' :
  e' ∈ Std.map_insert e m → e' = e ∨ e' ∈ m.
Proof.
  induction m as [|x m IH]; simpl.
  - intros ->%list_elem_of_singleton. by left.
  - repeat case_match.
    + intros [->|Hin]%elem_of_cons; [by left|by right].
    + intros [->|Hin]%elem_of_cons; [right; left|].
      destruct (IH Hin) as [->|?]; [by left|right; by right].
    + by right.
Qed.

Lemma map_insert_ordered e m : map_ordered m → map_ordered (Std.map_insert e m).
Proof.
  induction m as [|x m IH]; simpl.
  - intros _. apply map_ordered_cons. split; [constructor|constructor].
  - intros [Hm Hall]%map_ordered_cons.
    destruct (e.1 <? x.1) eqn:Hlt; [|destruct (x.1 <? e.1) eqn:Hgt].
    + apply Z.ltb_lt in Hlt. apply map_ordered_cons. split.
      * by apply map_ordered_cons.
      * constructor; [done|]. eapply Forall_impl; [exact Hall|].
        simpl. intros. lia.
    + apply Z.ltb_lt in Hgt. apply map_ordered_cons. split; [by apply IH|].
      apply Forall_forall. intros e' [->|Hin]%map_insert_keys; [done|].
      by eapply Forall_forall in Hall.
    + by apply map_ordered_cons.
Qed.

Lemma map_of_list_ordered (init : list (Z * V)) :
  map_ordered (Std.map_of_list init).
Proof.
  unfold Std.map_of_list.
  assert (Hgen : ∀ m, map_ordered m →
            map_ordered (foldl (λ m e, Std.map_insert e m) m init)).
  { induction init as [|e init IH]; intros m Hm; simpl; [done|].
    apply IH. by apply map_insert_ordered. }
  apply Hgen. constructor.
Qed.

(** [lower_bound] on any sequence: the entries before the position are
below [key], the entry at it is not. *)
Lemma lower_bound_spec (key : Z) m :
  (Std.lower_bound key m ≤ length m)%nat
  ∧ (∀ i e, (i < Std.lower_bound key m)%nat → m !! i = Some e → e.1 < key)
  ∧ (∀ e, m !! Std.lower_bound key m = Some e → key ≤ e.1).
Proof.
  induction m as [|x m (IHlen & IHlt & IHge)]; simpl.
  - split; [lia|]. split; [intros; lia|]. intros e; done.
  - destruct (x.1 <? key) eqn:Hlt.
    + apply Z.ltb_lt in Hlt. split; [lia|]. split.
      * intros [|i] e Hi; simpl; [intros [= <-]; done|].
        apply IHlt. lia.
      * simpl. apply IHge.
    + apply Z.ltb_ge in Hlt. split; [lia|]. split; [intros; lia|].
      simpl. by intros e [= <-].
Qed.

Lemma map_ordered_lookup m i j ei ej :
  map_ordered m → (i < j)%nat → m !! i = Some ei → m !! j = Some ej →
  ei.1 < ej.1.
Proof.
  revert i j. induction m as [|x m IH]; intros i j Hm Hij Hi Hj.
  - by rewrite lookup_nil in Hi.
  - apply map_ordered_cons in Hm as [Hm Hall].
    destruct j as [|j]; [lia|]. simpl in Hj.
    destruct i as [|i]; simpl in Hi.
    + injection Hi as <-. eapply Forall_forall in Hall; [done|].
      by eapply list_elem_of_lookup_2.
    + eapply (IH i j); [done|lia|done..].
Qed.

Lemma selected_entry_spec (M : Z) m :
  map_ordered m → m ≠ [] →
  ∃ e, selected_entry M m = Some e ∧ e ∈ m
       ∧ lower_bound_or_largest M m e.1.
Proof.
  intros Hm Hne. unfold selected_entry.
  destruct (lower_bound_spec M m) as (Hlen & Hlt & Hge).
  set (it := Std.lower_bound M m) in *.
  destruct (decide (it ≠ length m)) as [Hin|Hend].
  - destruct (lookup_lt_is_Some_2 m it) as [e He]; [lia|].
    exists e. split; [done|]. split; [by eapply list_elem_of_lookup_2|].
    left. split; [by apply Hge|].
    intros e' [j Hj]%list_elem_of_lookup_1 Hle.
    destruct (decide (j < it)%nat) as [Hji|Hji].
    + specialize (Hlt j e' Hji Hj). lia.
    + destruct (decide (j = it)) as [->|Hne'].
      * rewrite He in Hj. injection Hj as <-. lia.
      * pose proof (map_ordered_lookup m it j e e' Hm ltac:(lia) He Hj). lia.
  - apply dec_stable in Hend.
    destruct it as [|it'] eqn:Hit.
    + destruct m; [done|simpl in Hend; lia].
    + destruct (lookup_lt_is_Some_2 m it') as [e He]; [lia|].
      exists e. split; [done|]. split; [by eapply list_elem_of_lookup_2|].
      right. split.
      * intros e' [j Hj]%list_elem_of_lookup_1. apply (Hlt j e'); [|done].
        apply lookup_lt_Some in Hj. lia.
      * intros e' [j Hj]%list_elem_of_lookup_1.
        pose proof (lookup_lt_Some _ _ _ Hj) as Hjlen.
        destruct (decide (j = it')) as [->|Hne'].
        -- rewrite He in Hj. injection Hj as <-. lia.
        -- pose proof (map_ordered_lookup m j it' e' e Hm ltac:(lia) Hj He).
           lia.
Qed.

Lemma selected_entry_monotone (M M' : Z) m e e' :
  map_ordered m → M < M' →
  selected_entry M m = Some e → selected_entry M' m = Some e' →
  e.1 ≤ e'.1.
Proof.
  intros Hm HMM He He'.
  assert (Hne : m ≠ []).
  { intros ->. unfold selected_entry in He. simpl in He. done. }
  destruct (selected_entry_spec M m Hm Hne) as (x & Hx & Hxin & Hxs).
  destruct (selected_entry_spec M' m Hm Hne) as (x' & Hx' & Hxin' & Hxs').
  rewrite He in Hx. injection Hx as <-.
  rewrite He' in Hx'. injection Hx' as <-.
  destruct Hxs' as [[Hge' Hmin']|[Hall' Hmax']].
  - destruct Hxs as [[Hge Hmin]|[Hall Hmax]].
    + apply Hmin; [done|lia].
    + specialize (Hall e' Hxin'). lia.
  - by apply Hmax'.
Qed.
End std_map.

Lemma rowwise_nk_lookup_selected (M : Z) (table : Fp8Rowwise.NKLookupTableType) :
  Fp8Rowwise.rowwise_nk_lookup M table = snd <$> selected_entry M table.
Proof.
  unfold Fp8Rowwise.rowwise_nk_lookup, Fp8Rowwise.rowwise_nk_lookup_it,
    selected_entry.
  destruct (decide _); [done|].
  destruct (Std.lower_bound M table); done.
Qed.

Lemma NK_lookup_table_entries :
  Fp8Rowwise.NK_lookup_table =
  [ ((7168, 8192), Fp8Rowwise.N_7168_K_8192_dispatch_table);
    ((8192, 3584), Fp8Rowwise.N_8192_K_3584_dispatch_table);
    ((1024, 5120), Fp8Rowwise.N_1024_K_5120_dispatch_table);
    ((5120, 1024), Fp8Rowwise.N_5120_K_1024_dispatch_table);
    ((2048, 5120), Fp8Rowwise.N_2048_K_5120_dispatch_table);
    ((896, 5120), Fp8Rowwise.N_896_K_5120_dispatch_table);
    ((5120, 640), Fp8Rowwise.N_5120_K_640_dispatch_table);
    ((4096, 5120), Fp8Rowwise.N_4096_K_5120_dispatch_table);
    ((5120, 2048), Fp8Rowwise.N_5120_K_2048_dispatch_table) ].
Proof. vm_compute. reflexivity. Qed.

(** Every family table is an ordered, non-empty map. *)
Lemma NK_lookup_table_well_formed (nk : Z * Z)
    (table : Fp8Rowwise.NKLookupTableType) :
  (nk, table) ∈ Fp8Rowwise.NK_lookup_table →
  map_ordered table ∧ table ≠ [].
Proof.
  rewrite NK_lookup_table_entries. intros Hin.
  repeat (apply elem_of_cons in Hin as [[= -> ->] | Hin];
          [split; [apply map_of_list_ordered | by vm_compute]|]).
  by apply elem_of_nil in Hin.
Qed.

(** C4: for every (N,K) family table and every query M,
[rowwise_nk_lookup] returns the kernel mapped to the smallest key of
the table that is at least M, and the kernel mapped to the largest key
when no key is at least M. *)
Theorem rowwise_nk_lookup_lower_bound (nk : Z * Z)
    (table : Fp8Rowwise.NKLookupTableType) (M : Z) :
  (nk, table) ∈ Fp8Rowwise.NK_lookup_table →
  ∃ k kernel,
    (k, kernel) ∈ table
    ∧ Fp8Rowwise.rowwise_nk_lookup M table = Some kernel
    ∧ lower_bound_or_largest M table k.
Proof.
  intros [Hord Hne]%NK_lookup_table_well_formed.
  destruct (selected_entry_spec M table Hord Hne) as ([k kernel] & He & Hin & Hk).
  exists k, kernel. split; [done|]. split; [|done].
  rewrite rowwise_nk_lookup_selected, He. reflexivity.
Qed.

Lemma rowwise_nk_lookup_lower_bound_witness :
  ∃ k kernel,
    (k, kernel) ∈ Fp8Rowwise.N_2048_K_5120_dispatch_table
    ∧ Fp8Rowwise.rowwise_nk_lookup 6000
        Fp8Rowwise.N_2048_K_5120_dispatch_table = Some kernel
    ∧ lower_bound_or_largest 6000 Fp8Rowwise.N_2048_K_5120_dispatch_table k.
Proof.
  apply (rowwise_nk_lookup_lower_bound (2048, 5120)
           Fp8Rowwise.N_2048_K_5120_dispatch_table 6000).
  rewrite NK_lookup_table_entries. do 4 apply list_elem_of_further.
  apply list_elem_of_here.
Defined.

(** C6: the family-table lookup is monotone in M: for queries
M < M' on one family table, the key selected for M' is at least the
key selected for M. *)
Theorem rowwise_nk_lookup_monotone (nk : Z * Z)
    (table : Fp8Rowwise.NKLookupTableType) (M M' : Z) :
  (nk, table) ∈ Fp8Rowwise.NK_lookup_table →
  M < M' →
  ∃ e e',
    selected_entry M table = Some e
    ∧ selected_entry M' table = Some e'
    ∧ Fp8Rowwise.rowwise_nk_lookup M table = Some e.2
    ∧ Fp8Rowwise.rowwise_nk_lookup M' table = Some e'.2
    ∧ e.1 ≤ e'.1.
Proof.
  intros [Hord Hne]%NK_lookup_table_well_formed HMM.
  destruct (selected_entry_spec M table Hord Hne) as (e & He & _).
  destruct (selected_entry_spec M' table Hord Hne) as (e' & He' & _).
  exists e, e'. rewrite !rowwise_nk_lookup_selected, He, He'.
  repeat split; try reflexivity.
  by eapply selected_entry_monotone.
Qed.

Lemma rowwise_nk_lookup_monotone_witness :
  ∃ e e',
    selected_entry 100 Fp8Rowwise.N_896_K_5120_dispatch_table = Some e
    ∧ selected_entry 7000 Fp8Rowwise.N_896_K_5120_dispatch_table = Some e'
    ∧ Fp8Rowwise.rowwise_nk_lookup 100
        Fp8Rowwise.N_896_K_5120_dispatch_table = Some e.2
    ∧ Fp8Rowwise.rowwise_nk_lookup 7000
        Fp8Rowwise.N_896_K_5120_dispatch_table = Some e'.2
    ∧ e.1 ≤ e'.1.
Proof.
  apply (rowwise_nk_lookup_monotone (896, 5120)
           Fp8Rowwise.N_896_K_5120_dispatch_table 100 7000).
  - rewrite NK_lookup_table_entries. do 5 apply list_elem_of_further.
    apply list_elem_of_here.
  - lia.
Defined.

(** ** The exact-key table *)

Lemma tuple2_eq_spec (s t : Z * Z) : Std.tuple2_eq s t = true ↔ s = t.
Proof.
  destruct s as [a b], t as [a' b']. unfold Std.tuple2_eq. simpl.
  rewrite andb_true_iff, !Z.eqb_eq. split; [intros [-> ->]; done|].
  by intros [= -> ->].
Qed.

Lemma tuple3_eq_spec (s t : Z * Z * Z) : Std.tuple3_eq s t = true ↔ s = t.
Proof.
  destruct s as [[a b] c], t as [[a' b'] c']. unfold Std.tuple3_eq. simpl.
  rewrite !andb_true_iff, !Z.eqb_eq. split; [intros [[-> ->] ->]; done|].
  by intros [= -> -> ->].
Qed.

Section unordered_map.
Context {K V : Type} (hasher : K → Z) (key_eq : K → K → bool).

Lemma umap_find_Some (m : list (K * V)) (k : K) (e : K * V) :
  Std.umap_find hasher key_eq m k = Some e →
  e ∈ m ∧ key_eq e.1 k = true.
Proof.
  unfold Std.umap_find. intros Hf. apply find_some in Hf as [Hin Hb].
  apply andb_true_iff in Hb as [_ Heq]. split; [|done].
  by apply list_elem_of_In.
Qed.

(** A hash that agrees on equal keys never hides an entry: [find] is
the search by the key equality alone. *)
Lemma umap_find_by_equality (m : list (K * V)) (k : K) :
  (∀ k', key_eq k' k = true → k' = k) →
  Std.umap_find hasher key_eq m k = List.find (λ e, key_eq e.1 k) m.
Proof.
  intros Heq. unfold Std.umap_find. induction m as [|e m IH]; [done|].
  simpl. destruct (key_eq e.1 k) eqn:He.
  - rewrite (Heq _ He), Z.eqb_refl. reflexivity.
  - rewrite andb_false_r. exact IH.
Qed.
End unordered_map.

Lemma padded_m_buckets (M : Z) :
  (M ≤ 128 →
   Fp8Rowwise.padded_m M ∈ [16; 32; 64; 128]
   ∧ M ≤ Fp8Rowwise.padded_m M
   ∧ ∀ b, b ∈ [16; 32; 64; 128] → M ≤ b → Fp8Rowwise.padded_m M ≤ b)
  ∧ (128 < M → Fp8Rowwise.padded_m M = M).
Proof.
  unfold Fp8Rowwise.padded_m.
  destruct (Z.leb_spec M 16);
    [|destruct (Z.leb_spec M 32);
      [|destruct (Z.leb_spec M 64); [|destruct (Z.leb_spec M 128)]]].
  all: split; [intros HM; try lia | intros HM; try lia].
  all: split; [set_solver|];
       split; [lia|intros b Hb Hle; set_unfold in Hb; lia].
Qed.

(** C7: before the exact-key table is consulted, M is rounded up to
the nearest of the buckets 16, 32, 64 and 128, and left unchanged above
128; an entry found under the bucketed triple is returned at once,
whatever the family tables and the heuristic are. *)
Theorem rowwise_dispatch_exact_match (M N K : Z) :
  (M ≤ 128 →
   Fp8Rowwise.padded_m M ∈ [16; 32; 64; 128]
   ∧ M ≤ Fp8Rowwise.padded_m M
   ∧ ∀ b, b ∈ [16; 32; 64; 128] → M ≤ b → Fp8Rowwise.padded_m M ≤ b)
  ∧ (128 < M → Fp8Rowwise.padded_m M = M)
  ∧ ∀ e,
      Std.umap_find (Fp8Rowwise.IntTupleHash3 Std.hash) Std.tuple3_eq
        Fp8Rowwise.rowwise_lookup_dispatch (Fp8Rowwise.padded_m M, N, K)
      = Some e →
      e.1 = (Fp8Rowwise.padded_m M, N, K)
      ∧ Fp8Rowwise.rowwise_dispatch M N K = Some e.2
      ∧ ∀ NK_table heuristic_dispatch,
          Fp8Rowwise.rowwise_dispatch_with Fp8Rowwise.rowwise_lookup_dispatch
            NK_table heuristic_dispatch M N K = Some e.2.
Proof.
  destruct (padded_m_buckets M) as [Hsmall Hlarge].
  split; [done|]. split; [done|].
  intros e He. split.
  - apply umap_find_Some in He as [_ Heq]. by apply tuple3_eq_spec.
  - unfold Fp8Rowwise.rowwise_dispatch, Fp8Rowwise.rowwise_dispatch_with.
    rewrite He. split; [reflexivity|]. intros; reflexivity.
Qed.

Lemma rowwise_dispatch_exact_match_witness :
  Fp8Rowwise.padded_m 20 = 32
  ∧ Fp8Rowwise.rowwise_dispatch 20 1280 8192 =
    Some "fp8fp8bf16_rowwise_128x32x16x128_16x16_1x1_8x16x1_8x16x1_1x16x1x8_2x2x1_1x1_interwave_v2".
Proof.
  destruct (rowwise_dispatch_exact_match 20 1280 8192) as (Hb & _ & Hexact).
  split; [reflexivity|].
  refine (proj1 (proj2 (Hexact ((32, 1280, 8192),
    "fp8fp8bf16_rowwise_128x32x16x128_16x16_1x1_8x16x1_8x16x1_1x16x1x8_2x2x1_1x1_interwave_v2") _))).
  vm_compute. reflexivity.
Defined.

(** ** Equality and hash of the table keys *)

Section IntTupleHash.
Variable std_hash : Z → Z.

Lemma xor_of_hashes_permutation (s t : list Z) :
  s ≡ₚ t → xor_of_hashes std_hash s = xor_of_hashes std_hash t.
Proof.
  intros Hp. unfold xor_of_hashes.
  apply (foldr_permutation (=)); [solve_proper| |done].
  intros j1 a1 j2 a2 b _ _ _.
  rewrite <- !Z.lxor_assoc. f_equal. apply Z.lxor_comm.
Qed.

Lemma IntTupleHash2_xor (t : Z * Z) :
  Fp8Rowwise.IntTupleHash2 std_hash t = xor_of_hashes std_hash [t.1; t.2]
  ∧ Bf16Grouped.IntTupleHash2 std_hash t = xor_of_hashes std_hash [t.1; t.2].
Proof.
  unfold Fp8Rowwise.IntTupleHash2, Bf16Grouped.IntTupleHash2, xor_of_hashes.
  simpl. by rewrite Z.lxor_0_r.
Qed.

Lemma IntTupleHash3_xor (t : Z * Z * Z) :
  Fp8Rowwise.IntTupleHash3 std_hash t = xor_of_hashes std_hash [t.1.1; t.1.2; t.2]
  ∧ Bf16Grouped.IntTupleHash3 std_hash t = xor_of_hashes std_hash [t.1.1; t.1.2; t.2].
Proof.
  unfold Fp8Rowwise.IntTupleHash3, Bf16Grouped.IntTupleHash3, xor_of_hashes.
  simpl. by rewrite Z.lxor_0_r, Z.lxor_assoc.
Qed.

Lemma IntTupleHash4_xor (t : Z * Z * Z * Z) :
  Bf16Grouped.IntTupleHash4 std_hash t
  = xor_of_hashes std_hash [t.1.1.1; t.1.1.2; t.1.2; t.2].
Proof.
  unfold Bf16Grouped.IntTupleHash4, xor_of_hashes.
  simpl. by rewrite Z.lxor_0_r, !Z.lxor_assoc.
Qed.
End IntTupleHash.

Lemma tuple4_eq_spec (s t : Z * Z * Z * Z) : Std.tuple4_eq s t = true ↔ s = t.
Proof.
  destruct s as [[[a b] c] d], t as [[[a' b'] c'] d'].
  unfold Std.tuple4_eq. simpl.
  rewrite !andb_true_iff, !Z.eqb_eq.
  split; [intros [[[-> ->] ->] ->]; done|]. by intros [= -> -> -> ->].
Qed.

(** C5, as amended: the key equality of the lookup tables is exact and
order-sensitive, so keys whose components are permuted and differ are
distinct keys, and a lookup only finds the entry of the very key asked
for. The hash does not tell such keys apart: it is the same for every
permutation of the components, whatever [std::hash] is. *)
Theorem IntTupleHash_equality_and_hash (std_hash : Z → Z) :
  (∀ s t, Std.tuple2_eq s t = true ↔ s = t)
  ∧ (∀ s t, Std.tuple3_eq s t = true ↔ s = t)
  ∧ (∀ s t, Std.tuple4_eq s t = true ↔ s = t)
  ∧ (∀ s t : Z * Z, [s.1; s.2] ≡ₚ [t.1; t.2] →
       Fp8Rowwise.IntTupleHash2 std_hash s = Fp8Rowwise.IntTupleHash2 std_hash t
       ∧ Bf16Grouped.IntTupleHash2 std_hash s
         = Bf16Grouped.IntTupleHash2 std_hash t)
  ∧ (∀ s t : Z * Z * Z, [s.1.1; s.1.2; s.2] ≡ₚ [t.1.1; t.1.2; t.2] →
       Fp8Rowwise.IntTupleHash3 std_hash s = Fp8Rowwise.IntTupleHash3 std_hash t
       ∧ Bf16Grouped.IntTupleHash3 std_hash s
         = Bf16Grouped.IntTupleHash3 std_hash t)
  ∧ (∀ s t : Z * Z * Z * Z,
       [s.1.1.1; s.1.1.2; s.1.2; s.2] ≡ₚ [t.1.1.1; t.1.1.2; t.1.2; t.2] →
       Bf16Grouped.IntTupleHash4 std_hash s
       = Bf16Grouped.IntTupleHash4 std_hash t)
  ∧ (∀ (m : list (Z * Z * Z * string)) k e,
       Std.umap_find (Fp8Rowwise.IntTupleHash3 std_hash) Std.tuple3_eq m k
       = Some e → e.1 = k)
  ∧ (∀ (m : list (Z * Z * Fp8Rowwise.NKLookupTableType)) k e,
       Std.umap_find (Fp8Rowwise.IntTupleHash2 std_hash) Std.tuple2_eq m k
       = Some e → e.1 = k).
Proof.
  split; [apply tuple2_eq_spec|]. split; [apply tuple3_eq_spec|].
  split; [apply tuple4_eq_spec|]. repeat split.
  - rewrite !(proj1 (IntTupleHash2_xor _ _)). by apply xor_of_hashes_permutation.
  - rewrite !(proj2 (IntTupleHash2_xor _ _)). by apply xor_of_hashes_permutation.
  - rewrite !(proj1 (IntTupleHash3_xor _ _)). by apply xor_of_hashes_permutation.
  - rewrite !(proj2 (IntTupleHash3_xor _ _)). by apply xor_of_hashes_permutation.
  - intros s t Hp. rewrite !IntTupleHash4_xor. by apply xor_of_hashes_permutation.
  - intros m k e [_ Heq]%umap_find_Some. by apply tuple3_eq_spec.
  - intros m k e [_ Heq]%umap_find_Some. by apply tuple2_eq_spec.
Qed.

(** C5, as stated, fails: the hash is the same on keys that the
equality keeps apart. *)
Lemma IntTupleHash_collides_on_permuted_keys :
  Std.tuple2_eq (7168, 8192) (8192, 7168) = false
  ∧ Fp8Rowwise.IntTupleHash2 Std.hash (7168, 8192)
    = Fp8Rowwise.IntTupleHash2 Std.hash (8192, 7168)
  ∧ Std.tuple3_eq (16, 1280, 8192) (1280, 16, 8192) = false
  ∧ Fp8Rowwise.IntTupleHash3 Std.hash (16, 1280, 8192)
    = Fp8Rowwise.IntTupleHash3 Std.hash (1280, 16, 8192)
  ∧ Std.tuple4_eq (16, 32, 2048, 5120) (32, 16, 5120, 2048) = false
  ∧ Bf16Grouped.IntTupleHash4 Std.hash (16, 32, 2048, 5120)
    = Bf16Grouped.IntTupleHash4 Std.hash (32, 16, 5120, 2048).
Proof. vm_compute. auto 10. Qed.

(** ** The tuning cache *)

Lemma nextPowerOf2_rounds_up (n : Z) :
  n ≤ Fp8RowwiseGrouped.nextPowerOf2 n
  ∧ (∃ p, 0 ≤ p ∧ Fp8RowwiseGrouped.nextPowerOf2 n = 2 ^ p)
  ∧ (1 < n → Fp8RowwiseGrouped.nextPowerOf2 n < 2 * n).
Proof.
  unfold Fp8RowwiseGrouped.nextPowerOf2.
  pose proof (Z.log2_up_nonneg n) as Hnn.
  split; [|split].
  - destruct (decide (1 < n)) as [Hn|Hn].
    + apply Z.log2_up_spec in Hn. lia.
    + pose proof (Z.pow_pos_nonneg 2 (Z.log2_up n) ltac:(lia) Hnn). lia.
  - exists (Z.log2_up n). done.
  - intros Hn. pose proof (Z.log2_up_spec n Hn) as [Hlo _].
    assert (0 < Z.log2_up n) by (apply Z.log2_up_pos; lia).
    replace (Z.log2_up n) with (Z.succ (Z.pred (Z.log2_up n))) at 1 by lia.
    rewrite Z.pow_succ_r by lia. lia.
Qed.

(** The decimal digits and the sign hold no separator. *)
Lemma pretty_N_go_separator_free (x : N) (s : string) :
  separator_free s → separator_free (pretty_N_go x s).
Proof.
  revert s. induction (N.lt_wf_0 x) as [x _ IH]; intros s Hs.
  assert (x = 0 ∨ 0 < x)%N as [->|Hx] by lia.
  - by rewrite pretty_N_go_0.
  - rewrite pretty_N_go_step by done. apply IH.
    { by apply N.div_lt. }
    split; [|done]. unfold pretty_N_char. by repeat case_match.
Qed.

Lemma to_string_separator_free (z : Z) :
  separator_free (Fp8RowwiseGrouped.to_string z).
Proof.
  unfold Fp8RowwiseGrouped.to_string, pretty, pretty_Z.
  assert (∀ p : positive, separator_free (pretty p)) as Hpos.
  { intros p. unfold pretty, pretty_positive, pretty, pretty_N.
    case_decide; [done|]. by apply pretty_N_go_separator_free. }
  destruct z as [|p|p]; [done|apply Hpos|].
  split; [done|apply Hpos].
Qed.

Lemma separator_splits_once (a b r r' : string) :
  separator_free a → separator_free b →
  a +:+ "_" +:+ r = b +:+ "_" +:+ r' → a = b ∧ r = r'.
Proof.
  revert b. induction a as [|c a IH]; intros [|d b] Ha Hb Heq.
  - injection Heq as Heq. done.
  - injection Heq as Hd _. destruct Hb as [Hb _]. by rewrite <- Hd in Hb.
  - injection Heq as Hc _. destruct Ha as [Ha _]. by rewrite Hc in Ha.
  - injection Heq as <- Heq. destruct Ha as [_ Ha], Hb as [_ Hb].
    destruct (IH b Ha Hb Heq) as [-> ->]. done.
Qed.

(** Three numbers written in decimal and joined by the separator can
be read back. *)
Lemma joined_decimals_read_back (a b c a' b' c' : Z) :
  Fp8RowwiseGrouped.to_string a +:+ "_"
    +:+ Fp8RowwiseGrouped.to_string b +:+ "_"
    +:+ Fp8RowwiseGrouped.to_string c
  = Fp8RowwiseGrouped.to_string a' +:+ "_"
    +:+ Fp8RowwiseGrouped.to_string b' +:+ "_"
    +:+ Fp8RowwiseGrouped.to_string c'
  → a = a' ∧ b = b' ∧ c = c'.
Proof.
  intros Heq.
  apply separator_splits_once in Heq as [Ha Heq];
    [|apply to_string_separator_free..].
  apply separator_splits_once in Heq as [Hb Hc];
    [|apply to_string_separator_free..].
  unfold Fp8RowwiseGrouped.to_string in *.
  by apply (inj pretty) in Ha, Hb, Hc.
Qed.

(** A query of the cache reads and writes the entry of its key and no
other; asked again, it answers from that entry. *)
Lemma findBestKernelMaybeAutotune_entry (latency : string → Z)
    (cache : gmap string string) (key : string) (kernels : list string) :
  let query :=
    Fp8RowwiseGrouped.findBestKernelMaybeAutotune latency cache key kernels in
  query.1 = query.2 !! key
  ∧ (∀ other, other ≠ key → query.2 !! other = cache !! other)
  ∧ (cache !! key = None → kernels ≠ [] → is_Some query.1)
  ∧ Fp8RowwiseGrouped.findBestKernelMaybeAutotune latency query.2 key kernels
    = query.
Proof.
  unfold Fp8RowwiseGrouped.findBestKernelMaybeAutotune.
  destruct (cache !! key) as [kernel|] eqn:Hc; cbn [fst snd].
  - rewrite Hc. repeat split; done.
  - destruct kernels as [|k rest]; cbn [fst snd].
    + rewrite Hc. repeat split; done.
    + rewrite lookup_insert_eq. repeat split; [|by eauto].
      intros other Hne. by rewrite lookup_insert_ne.
Qed.

(** C8: the key of the tuning cache is made of M, N and K each rounded
up to the next power of two, written in decimal and joined by
underscores. A query reads and writes the entry under that key and no
other entry, and a miss with a candidate leaves its measurement there.
So two shapes have the same key exactly when their dimensions round to
the same triple: a query whose dimensions round to the triple of an
earlier query gets the kernel of that query and changes nothing in the
cache, that is, nothing is measured again, and a query that rounds to
another triple does not see the entry of the earlier one. *)
Theorem tuning_cache_key_rounds_to_power_of_two
    (latency : string → Z) (kernels : list string)
    (cache : gmap string string) (M N K M' N' K' : Z) :
  let rounded (n : Z) := Fp8RowwiseGrouped.nextPowerOf2 n in
  let key_of (M N K : Z) : string :=
    Fp8RowwiseGrouped.to_string (rounded M) +:+ "_"
      +:+ Fp8RowwiseGrouped.to_string (rounded N) +:+ "_"
      +:+ Fp8RowwiseGrouped.to_string (rounded K) in
  let first :=
    Fp8RowwiseGrouped.get_kernel_via_tuning latency kernels cache M N K in
  let second :=
    Fp8RowwiseGrouped.get_kernel_via_tuning latency kernels first.2 M' N' K' in
  (∀ n, n ∈ [M; N; K] →
     ∃ p, 0 ≤ p ∧ rounded n = 2 ^ p ∧ n ≤ 2 ^ p ∧ (1 < n → 2 ^ p < 2 * n))
  ∧ first.1 = first.2 !! key_of M N K
  ∧ (∀ other, other ≠ key_of M N K → first.2 !! other = cache !! other)
  ∧ (cache !! key_of M N K = None → kernels ≠ [] → is_Some first.1)
  ∧ (key_of M' N' K' = key_of M N K
     ↔ rounded M' = rounded M ∧ rounded N' = rounded N
       ∧ rounded K' = rounded K)
  ∧ (key_of M' N' K' = key_of M N K → second = first)
  ∧ (key_of M' N' K' ≠ key_of M N K →
     first.2 !! key_of M' N' K' = cache !! key_of M' N' K'
     ∧ ∀ other, other ≠ key_of M' N' K' →
         second.2 !! other = first.2 !! other).
Proof.
  intros rounded key_of first second.
  pose proof (findBestKernelMaybeAutotune_entry latency cache
                (key_of M N K) kernels) as (Hread & Hother & Hmiss & Hagain).
  pose proof (findBestKernelMaybeAutotune_entry latency first.2
                (key_of M' N' K') kernels) as (_ & Hother' & _).
  split.
  { intros n _.
    destruct (nextPowerOf2_rounds_up n) as (Hle & (p & Hp & Heq) & Hlt).
    exists p. fold (rounded n) in *. rewrite <- Heq. auto. }
  split; [exact Hread|]. split; [exact Hother|]. split; [exact Hmiss|].
  split.
  { split.
    - intros Heq. by apply joined_decimals_read_back in Heq.
    - intros (HM & HN & HK). unfold key_of. by rewrite HM, HN, HK. }
  split.
  { intros Heq. unfold second, Fp8RowwiseGrouped.get_kernel_via_tuning.
    cbv zeta. unfold Fp8RowwiseGrouped.shape_key.
    fold (rounded M') (rounded N') (rounded K'). fold (key_of M' N' K').
    rewrite Heq. exact Hagain. }
  intros Hne. split; [by apply Hother|exact Hother'].
Qed.

Lemma tuning_cache_key_rounds_to_power_of_two_witness :
  let latency := λ k : string, Z.of_nat (String.length k) in
  let kernels := ["kernel_b_slower"; "kernel_a"] in
  let first :=
    Fp8RowwiseGrouped.get_kernel_via_tuning latency kernels ∅ 100 512 3000 in
  let second :=
    Fp8RowwiseGrouped.get_kernel_via_tuning latency kernels first.2
      128 300 4096 in
  let third :=
    Fp8RowwiseGrouped.get_kernel_via_tuning latency kernels first.2
      128 512 4097 in
  first = (Some "kernel_a", {[ "128_512_4096" := "kernel_a" ]})
  ∧ second = first
  ∧ third.2 !! "128_512_4096" = Some "kernel_a"
  ∧ third.2 !! "128_512_8192" = Some "kernel_a".
Proof.
  intros latency kernels first second third.
  pose proof (tuning_cache_key_rounds_to_power_of_two latency kernels ∅
                100 512 3000 128 300 4096) as (_ & _ & _ & _ & _ & Hsame & _).
  pose proof (tuning_cache_key_rounds_to_power_of_two latency kernels ∅
                100 512 3000 128 512 4097)
    as (_ & _ & _ & _ & _ & _ & Hother).
  split; [reflexivity|]. split; [exact (Hsame eq_refl)|].
  split; [|reflexivity].
  destruct Hother as [_ Hkeep]; [by vm_compute|].
  fold first third in Hkeep.
  rewrite (Hkeep "128_512_4096"); [reflexivity|by vm_compute].
Defined.

(** ** The minimum N and K of the grouped entry points *)

Lemma fails_throw {A} (msg : string) : fails (throw (A:=A) msg).
Proof. split; [by eexists|done]. Qed.

Lemma fails_bind {A B} (m : Eff A) (k : A → Eff B) :
  only_checks m → (∀ a, outcome m = Ok a → fails (k a)) → fails (m ≫= k).
Proof.
  intros [Hlog HnF] Hk. destruct m as [l [a|msg|]]; simpl in *; subst.
  - destruct (Hk a eq_refl) as [[msg Hmsg] Hl].
    unfold fails, threw, mbind, Eff_bind. simpl. rewrite Hl. by eauto.
  - split; [by eexists|done].
  - done.
Qed.

Lemma fails_bind_l {A B} (m : Eff A) (k : A → Eff B) :
  fails m → fails (m ≫= k).
Proof.
  intros [[msg Hmsg] Hlog]. unfold fails, threw, mbind, Eff_bind.
  rewrite Hmsg. simpl. by eauto.
Qed.

Lemma only_checks_bind {A B} (m : Eff A) (k : A → Eff B) :
  only_checks m → (∀ a, outcome m = Ok a → only_checks (k a)) →
  only_checks (m ≫= k).
Proof.
  intros [Hlog HnF] Hk. destruct m as [l [a|msg|]]; simpl in *; subst.
  - destruct (Hk a eq_refl) as [Hl Hf].
    unfold only_checks, mbind, Eff_bind. simpl. by rewrite Hl.
  - done.
  - done.
Qed.

Lemma only_checks_mret {A} (a : A) : only_checks (mret a).
Proof. done. Qed.

Lemma only_checks_throw {A} (msg : string) : only_checks (throw (A:=A) msg).
Proof. done. Qed.

Lemma only_checks_TORCH_CHECK (cond : bool) (msg : string) :
  only_checks (TORCH_CHECK cond msg).
Proof. by destruct cond. Qed.

Lemma only_checks_size (t : Tensor) (d : Z) : only_checks (size t d).
Proof. unfold size. repeat case_match; done. Qed.

Lemma only_checks_fmap {A B} (f : A → B) (m : Eff A) :
  only_checks m → only_checks (f <$> m).
Proof.
  intros Hm. unfold fmap, Eff_fmap. apply only_checks_bind; [done|].
  intros; apply only_checks_mret.
Qed.

Lemma only_checks_and_then (a b : Eff bool) :
  only_checks a → (outcome a = Ok true → only_checks b) →
  only_checks (and_then a b).
Proof.
  intros Ha Hb. apply only_checks_bind; [done|].
  intros [|] Hout; [by apply Hb|apply only_checks_mret].
Qed.

Lemma only_checks_TORCH_CHECK_ (cond : Eff bool) (msg : string) :
  only_checks cond → only_checks (TORCH_CHECK_ cond msg).
Proof.
  intros Hc. apply only_checks_bind; [done|].
  intros; apply only_checks_TORCH_CHECK.
Qed.

Lemma only_checks_cdiv (a b : Z) : b ≠ 0 → only_checks (cdiv a b).
Proof. intros Hb. unfold cdiv. by destruct (decide (b = 0)). Qed.

Lemma only_checks_for_each {A} (body : A → Eff unit) (xs : list A) :
  (∀ x, only_checks (body x)) → only_checks (for_each body xs).
Proof.
  intros Hb. induction xs as [|x xs IH]; simpl; [done|].
  apply only_checks_bind; [apply Hb|done].
Qed.

Lemma fails_for_each {A} (body : A → Eff unit) (xs : list A) (x : A) :
  (∀ y, only_checks (body y)) → x ∈ xs → fails (body x) →
  fails (for_each body xs).
Proof.
  intros Hb Hin Hx. induction xs as [|y xs IH]; simpl.
  - by apply elem_of_nil in Hin.
  - apply elem_of_cons in Hin as [<-|Hin]; [by apply fails_bind_l|].
    apply fails_bind; [apply Hb|]. intros _ _. by apply IH.
Qed.

Lemma size_Ok (t : Tensor) (d s : Z) (i : nat) :
  outcome (size t d) = Ok s → d = Z.of_nat i → sizes t !! i = Some s.
Proof.
  unfold size, dim. intros Hout ->.
  destruct (decide _) as [Hr|]; [|done].
  rewrite Z.mod_small, Nat2Z.id in Hout by lia.
  destruct (sizes t !! i); [|done]. simpl in Hout. congruence.
Qed.

(** The check [w.size(dn) >= 512 && w.size(dk) >= 512] fails when one of
the two sizes is below 512. *)
Lemma minimum_tile_check_fails {A} (w : Tensor) (dn dk n k : Z)
    (msg : string) (rest : unit → Eff A) :
  0 ≤ dn → 0 ≤ dk →
  sizes w !! Z.to_nat dn = Some n → sizes w !! Z.to_nat dk = Some k →
  n < 512 ∨ k < 512 →
  fails (TORCH_CHECK_
           (and_then (Fp8RowwiseGrouped.size_ge w dn 512)
                     (Fp8RowwiseGrouped.size_ge w dk 512)) msg ≫= rest).
Proof.
  intros Hdn Hdk Hn Hk Hsmall.
  unfold TORCH_CHECK_, and_then, Fp8RowwiseGrouped.size_ge, fmap, Eff_fmap.
  rewrite (size_lookup w dn n Hdn Hn), (size_lookup w dk k Hdk Hk).
  rewrite !mret_bind.
  destruct (Z.leb_spec 512 n) as [Hn512|Hn512].
  - rewrite !mret_bind.
    destruct (Z.leb_spec 512 k); [lia|].
    rewrite TORCH_CHECK_false. apply fails_throw.
  - rewrite !mret_bind, TORCH_CHECK_false. apply fails_throw.
Qed.

Lemma bind_unit_r (m : Eff unit) : (m ≫= mret) = m.
Proof.
  destruct m as [l [[]|msg|]]; unfold mbind, Eff_bind; simpl;
    by rewrite ?app_nil_r.
Qed.

Section grouped_entry_points.
Import Fp8RowwiseGrouped.
Variable arch : GPUArch.
Variable rowwise_grouped_heuristic_dispatch : Z → Z → Z → Z → string.

Lemma only_checks_get_float8_e4m3_dtype :
  only_checks (get_float8_e4m3_dtype arch).
Proof. unfold get_float8_e4m3_dtype. by destruct arch. Qed.

Lemma only_checks_validate_inputs_common (XQ WQ x_scale w_scale : Tensor) :
  only_checks (validate_inputs_common arch XQ WQ x_scale w_scale).
Proof.
  unfold validate_inputs_common.
  repeat (apply only_checks_bind;
          [first [apply only_checks_TORCH_CHECK
                 |apply only_checks_get_float8_e4m3_dtype]|intros ? _]).
  apply only_checks_TORCH_CHECK.
Qed.

Lemma size_is_true (t : Tensor) (d v : Z) (i : nat) :
  outcome (size_is t d v) = Ok true → d = Z.of_nat i →
  sizes t !! i = Some v.
Proof.
  unfold size_is, fmap, Eff_fmap. intros Hout ->.
  destruct (size t (Z.of_nat i)) as [l [s| |]] eqn:Hs;
    unfold mbind, Eff_bind in Hout; simpl in Hout; try done.
  injection Hout as Heq. apply Z.eqb_eq in Heq as <-.
  apply (size_Ok t (Z.of_nat i)); [by rewrite Hs|done].
Qed.

Lemma _f8f8bf16_rowwise_grouped_minimum (OT : OutputType)
    (XQ WQ x_scale w_scale : list Tensor) (w : Tensor) (n k : Z) :
  w ∈ WQ → sizes w !! 0%nat = Some n → sizes w !! 1%nat = Some k →
  n < 512 ∨ k < 512 →
  fails (_f8f8bf16_rowwise_grouped arch rowwise_grouped_heuristic_dispatch
           OT XQ WQ x_scale w_scale).
Proof.
  intros Hin Hn Hk Hsmall. unfold _f8f8bf16_rowwise_grouped.
  apply fails_bind; [apply only_checks_get_float8_e4m3_dtype|].
  intros float8_dtype _.
  apply fails_bind; [apply only_checks_TORCH_CHECK|]. intros _ _.
  apply fails_bind.
  { apply only_checks_for_each. intros x.
    repeat (apply only_checks_bind;
            [apply only_checks_TORCH_CHECK|intros ? _]).
    apply only_checks_TORCH_CHECK. }
  intros _ _. apply fails_bind_l.
  apply (fails_for_each _ WQ w); [|done|].
  - intros y.
    repeat (apply only_checks_bind;
            [apply only_checks_TORCH_CHECK|intros ? _]).
    apply only_checks_TORCH_CHECK_, only_checks_and_then;
      [|intros _]; apply only_checks_fmap, only_checks_size.
  - repeat (apply fails_bind; [apply only_checks_TORCH_CHECK|intros ? _]).
    rewrite <- bind_unit_r.
    by apply (minimum_tile_check_fails w 0 1 n k).
Qed.
Lemma f8f8bf16_rowwise_grouped_stacked_minimum
    (XQ WQ x_scale w_scale M_sizes : Tensor) (G n k : Z) :
  sizes WQ !! 0%nat = Some G → 0 < G →
  sizes WQ !! 1%nat = Some n → sizes WQ !! 2%nat = Some k →
  n < 512 ∨ k < 512 →
  fails (f8f8bf16_rowwise_grouped_stacked arch
           rowwise_grouped_heuristic_dispatch XQ WQ x_scale w_scale M_sizes).
Proof.
  intros HG HGpos Hn Hk Hsmall. unfold f8f8bf16_rowwise_grouped_stacked.
  apply fails_bind; [apply only_checks_size|]. intros group_count _.
  apply fails_bind; [apply only_checks_size|]. intros total_M _.
  apply fails_bind; [apply only_checks_size|]. intros N _.
  apply fails_bind; [apply only_checks_size|]. intros K _.
  apply fails_bind; [apply only_checks_validate_inputs_common|]. intros _ _.
  apply fails_bind.
  { apply only_checks_TORCH_CHECK_, only_checks_and_then.
    - apply only_checks_fmap, only_checks_size.
    - intros Hsame. apply (size_is_true WQ 0 group_count 0) in Hsame; [|done].
      apply only_checks_and_then; [apply only_checks_mret|]. intros _.
      apply only_checks_fmap, only_checks_cdiv.
      rewrite HG in Hsame. injection Hsame as <-. lia. }
  intros _ _.
  apply fails_bind; [apply only_checks_TORCH_CHECK|]. intros _ _.
  apply fails_bind; [apply only_checks_TORCH_CHECK|]. intros _ _.
  by apply (minimum_tile_check_fails WQ 1 2 n k).
Qed.

Lemma f8f8bf16_rowwise_grouped_dynamic_minimum
    (XQ WQ x_scale w_scale zero_start_index_M : Tensor)
    (zeroing_output_tensor : bool) (G n k : Z) :
  sizes WQ !! 0%nat = Some G → 0 < G →
  sizes WQ !! 1%nat = Some n → sizes WQ !! 2%nat = Some k →
  n < 512 ∨ k < 512 →
  fails (f8f8bf16_rowwise_grouped_dynamic arch
           rowwise_grouped_heuristic_dispatch XQ WQ x_scale w_scale
           zero_start_index_M zeroing_output_tensor).
Proof.
  intros HG HGpos Hn Hk Hsmall. unfold f8f8bf16_rowwise_grouped_dynamic.
  apply fails_bind; [apply only_checks_size|]. intros group_count _.
  apply fails_bind; [apply only_checks_size|]. intros M _.
  apply fails_bind; [apply only_checks_size|]. intros N _.
  apply fails_bind; [apply only_checks_size|]. intros K _.
  apply fails_bind.
  { apply only_checks_TORCH_CHECK_, only_checks_and_then.
    - apply only_checks_fmap, only_checks_size.
    - intros Hsame. apply (size_is_true WQ 0 group_count 0) in Hsame; [|done].
      assert (group_count ≠ 0)
        by (rewrite HG in Hsame; injection Hsame as <-; lia).
      apply only_checks_and_then; [|intros _];
        by apply only_checks_fmap, only_checks_cdiv. }
  intros _ _.
  apply fails_bind; [apply only_checks_validate_inputs_common|]. intros _ _.
  apply fails_bind; [apply only_checks_TORCH_CHECK|]. intros _ _.
  apply fails_bind; [apply only_checks_TORCH_CHECK|]. intros _ _.
  by apply (minimum_tile_check_fails WQ 1 2 n k).
Qed.
End grouped_entry_points.

Lemma bf16bf16bf16_grouped_stacked_minimum
    (grouped_heuristic_dispatch : Z → Z → Z → Z → string)
    (X W M_sizes : Tensor) (n k : Z) :
  sizes W !! 1%nat = Some n → sizes W !! 2%nat = Some k →
  n < 512 ∨ k < 512 →
  fails (Bf16Grouped.bf16bf16bf16_grouped_stacked grouped_heuristic_dispatch
           X W M_sizes).
Proof.
  intros Hn Hk Hsmall. unfold Bf16Grouped.bf16bf16bf16_grouped_stacked.
  apply fails_bind; [apply only_checks_size|]. intros group_count _.
  apply fails_bind; [apply only_checks_size|]. intros total_M _.
  apply fails_bind; [apply only_checks_size|]. intros N _.
  apply fails_bind; [apply only_checks_size|]. intros K _.
  apply fails_bind.
  { apply only_checks_TORCH_CHECK_, only_checks_fmap, only_checks_size. }
  intros _ _.
  do 6 (apply fails_bind; [apply only_checks_TORCH_CHECK|]; intros _ _).
  by apply (minimum_tile_check_fails W 1 2 n k).
Qed.

(** C9, as amended: each of the grouped entry points
[f8f8bf16_rowwise_grouped], [f8f8bf16_rowwise_grouped_cat],
[f8f8bf16_rowwise_grouped_stacked], [f8f8bf16_rowwise_grouped_dynamic]
and [bf16bf16bf16_grouped_stacked] throws, before any kernel is
selected or launched, when the N or the K of a group's weight is below
512. *)
Theorem grouped_entry_points_minimum_tile
    (arch : Fp8RowwiseGrouped.GPUArch)
    (rowwise_grouped_heuristic_dispatch grouped_heuristic_dispatch
       : Z → Z → Z → Z → string)
    (n k : Z) :
  n < 512 ∨ k < 512 →
  (∀ XQ WQ x_scale w_scale w,
     w ∈ WQ → sizes w = [n; k] →
     fails (Fp8RowwiseGrouped.f8f8bf16_rowwise_grouped arch
              rowwise_grouped_heuristic_dispatch XQ WQ x_scale w_scale)
     ∧ fails (Fp8RowwiseGrouped.f8f8bf16_rowwise_grouped_cat arch
                rowwise_grouped_heuristic_dispatch XQ WQ x_scale w_scale))
  ∧ (∀ XQ WQ x_scale w_scale M_sizes G,
       0 < G → sizes WQ = [G; n; k] →
       fails (Fp8RowwiseGrouped.f8f8bf16_rowwise_grouped_stacked arch
                rowwise_grouped_heuristic_dispatch XQ WQ x_scale w_scale
                M_sizes))
  ∧ (∀ XQ WQ x_scale w_scale zero_start_index_M zeroing_output_tensor G,
       0 < G → sizes WQ = [G; n; k] →
       fails (Fp8RowwiseGrouped.f8f8bf16_rowwise_grouped_dynamic arch
                rowwise_grouped_heuristic_dispatch XQ WQ x_scale w_scale
                zero_start_index_M zeroing_output_tensor))
  ∧ (∀ X W M_sizes G,
       sizes W = [G; n; k] →
       fails (Bf16Grouped.bf16bf16bf16_grouped_stacked
                grouped_heuristic_dispatch X W M_sizes)).
Proof.
  intros Hsmall. split; [|split; [|split]].
  - intros XQ WQ x_scale w_scale w Hin Hs.
    split;
      (eapply (_f8f8bf16_rowwise_grouped_minimum _ _ _ _ _ _ _ w n k);
       [done|by rewrite Hs..|done]).
  - intros XQ WQ x_scale w_scale M_sizes G HG Hs.
    apply (f8f8bf16_rowwise_grouped_stacked_minimum _ _ _ _ _ _ _ G n k);
      [by rewrite Hs|done|by rewrite Hs..|done].
  - intros XQ WQ x_scale w_scale z zo G HG Hs.
    apply (f8f8bf16_rowwise_grouped_dynamic_minimum _ _ _ _ _ _ _ _ G n k);
      [by rewrite Hs|done|by rewrite Hs..|done].
  - intros X W M_sizes G Hs.
    apply (bf16bf16bf16_grouped_stacked_minimum _ _ _ _ n k);
      [by rewrite Hs..|done].
Qed.

Lemma grouped_entry_points_minimum_tile_witness :
  let XQ := mkTensor kFloat8_e4m3fnuz true true 0 [12; 1024] Data in
  let WQ := mkTensor kFloat8_e4m3fnuz true true 0 [3; 256; 1024] Data in
  let x_scale := mkTensor kFloat true true 0 [12] Data in
  let w_scale := mkTensor kFloat true true 0 [3; 256] Data in
  let M_sizes := mkTensor kLong true true 0 [3] Data in
  fails (Fp8RowwiseGrouped.f8f8bf16_rowwise_grouped_stacked
           Fp8RowwiseGrouped.gfx942 (λ _ _ _ _, "selected")
           XQ WQ x_scale w_scale M_sizes).
Proof.
  intros XQ WQ x_scale w_scale M_sizes.
  refine (proj1 (proj2 (grouped_entry_points_minimum_tile
            Fp8RowwiseGrouped.gfx942 (λ _ _ _ _, "selected")
            (λ _ _ _ _, "selected") 256 1024 _))
            XQ WQ x_scale w_scale M_sizes 3 _ _).
  - left. lia.
  - lia.
  - reflexivity.
Defined.

(** C9, as stated, fails: [f8f8bf16_rowwise_grouped_mm] makes no such
check; with N = K = 256 it sets the arguments up, selects a kernel and
launches it. *)
Lemma f8f8bf16_rowwise_grouped_mm_accepts_small_tiles :
  let XQ := mkTensor kFloat8_e4m3fnuz true true 0 [2; 4; 256] Data in
  let WQ := mkTensor kFloat8_e4m3fnuz true true 0 [2; 256; 256] Data in
  let x_scale := mkTensor kFloat true true 0 [2; 4] Data in
  let w_scale := mkTensor kFloat true true 0 [2; 256] Data in
  let out := mkTensor kBFloat16 true true 0 [2; 4; 256] Uninit in
  let call :=
    Fp8RowwiseGrouped.f8f8bf16_rowwise_grouped_mm Fp8RowwiseGrouped.gfx942
      (λ _ _ _, "selected") false (λ _, 0) [] ∅
      XQ WQ x_scale w_scale None out in
  log call = [Launch "set_kernel_args";
              Select "get_kernel_via_heuristic" [4; 256; 256];
              Launch "selected"]
  ∧ outcome call
    = Ok (mkTensor kBFloat16 true true 0 [2; 4; 256] (Output "selected"), ∅).
Proof. vm_compute. auto. Qed.

(** ** The grouped argument builder *)

Lemma StronglySorted_lookup_le (l : list Z) (i j : nat) (x y : Z) :
  StronglySorted Z.le l → (i < j)%nat →
  l !! i = Some x → l !! j = Some y → x ≤ y.
Proof.
  revert i j. induction l as [|a l IH]; intros i j Hs Hij Hi Hj; [done|].
  apply StronglySorted_inv in Hs as [Hs Hall].
  destruct j as [|j]; [lia|]. simpl in Hj.
  destruct i as [|i]; simpl in Hi.
  - injection Hi as <-. eapply Forall_forall in Hall; [done|].
    by eapply list_elem_of_lookup_2.
  - eapply (IH i j); [done|lia|done..].
Qed.

Lemma to_int_small (z : Z) : - 2 ^ 31 ≤ z < 2 ^ 31 → to_int z = z.
Proof.
  intros Hz. unfold to_int.
  change (2 ^ 31) with 2147483648 in *. change (2 ^ 32) with 4294967296.
  rewrite Z.mod_small by lia. lia.
Qed.

Section set_kernel_args.
Import Fp8RowwiseGrouped.
Variables XQ WQ w_scale x_scale output : Z.
Variables M_sizes offsets : option (list Z).
Variables M N K group_count : Z.
Variable input_type : option GroupedGemmInputType.

Local Notation "'resolve'" :=
  (resolve_group M_sizes offsets M N K input_type).
Local Notation "'default_args'" :=
  (default_group_args XQ WQ w_scale x_scale output).
Local Notation "'nonzero'" :=
  (group_nonzero M_sizes offsets M N K input_type).
Local Notation "'record'" :=
  (record_of XQ WQ w_scale x_scale output M_sizes offsets M N K input_type).
Local Notation "'well_formed'" :=
  (descriptor_well_formed M_sizes offsets M N K group_count input_type).

Lemma previous_offset_lookup (os : list Z) (i : nat) :
  previous_offset os i = (0 :: os) !! i.
Proof. by destruct i. Qed.

Lemma resolve_group_well_formed (i : nat) :
  well_formed → (i < Z.to_nat group_count)%nat →
  ∃ g, resolve i = Some g
       ∧ 0 ≤ M_group g ∧ 0 ≤ N_group g ∧ 0 ≤ K_group g
       ∧ (writes g = true → is_Some (offs g)).
Proof.
  intros (HG & HM & HN & HK & Hdesc) Hi. unfold resolve_group.
  destruct M_sizes as [ms|], offsets as [os|]; try done.
  - destruct Hdesc as [Hlen Hall].
    destruct (lookup_lt_is_Some_2 ms i) as [s Hs]; [lia|].
    rewrite Hs. simpl.
    assert (0 ≤ s) by (by eapply Forall_lookup_1 in Hall).
    destruct (Z.ltb_spec 0 s).
    + eexists. split; [done|]. simpl. by eauto.
    + eexists. split; [done|]. simpl. repeat split; [done..|].
      unfold writes. simpl. destruct (Z.ltb_spec 0 s); [lia|done].
  - destruct Hdesc as (Hlen & [ty ->] & Hsorted).
    destruct (lookup_lt_is_Some_2 os i) as [cur Hcur]; [lia|].
    destruct (lookup_lt_is_Some_2 (0 :: os) i) as [p Hp]; [simpl; lia|].
    assert (p ≤ cur).
    { eapply (StronglySorted_lookup_le (0 :: os) i (S i)); [done|lia|done..]. }
    destruct ty; simpl; rewrite ?previous_offset_lookup, ?Hp, ?Hcur; simpl;
      (eexists; split; [done|]; simpl; repeat split; by eauto with lia).
Qed.

Lemma writes_group_nonzero (i : nat) (g : Group) :
  resolve i = Some g → 0 ≤ M_group g → 0 ≤ N_group g → 0 ≤ K_group g →
  writes g = nonzero i.
Proof.
  intros Hg HM HN HK. unfold writes, group_nonzero. rewrite Hg.
  destruct (Z.ltb_spec 0 (M_group g)), (Z.eqb_spec (M_group g) 0),
    (Z.ltb_spec 0 (N_group g)), (Z.eqb_spec (N_group g) 0),
    (Z.ltb_spec 0 (K_group g)), (Z.eqb_spec (K_group g) 0);
    simpl; try done; lia.
Qed.

(** The stores before the barrier fill the slots of all threads with
the default record and clear the counter. *)
Lemma before_sync_all (n : nat) (mem : Memory) :
  (n ≤ length (kernel_args mem))%nat →
  foldl (before_sync XQ WQ w_scale x_scale output) mem (seq 0 n)
  = mkMemory (replicate n default_args ++ drop n (kernel_args mem))
      (match n with O => non_zero_counter mem | S _ => 0 end).
Proof.
  induction n as [|n IH]; intros Hn.
  - simpl. rewrite drop_0. by destruct mem.
  - rewrite seq_S, foldl_app, IH by lia. simpl. unfold before_sync. simpl.
    f_equal.
    + destruct (lookup_lt_is_Some_2 (kernel_args mem) n) as [x Hx]; [lia|].
      rewrite insert_app_r_alt by (rewrite length_replicate; lia).
      rewrite length_replicate, Nat.sub_diag, (drop_S _ x n Hx). simpl.
      rewrite (app_comm_cons (replicate n _)), replicate_cons_app,
        <- app_assoc. reflexivity.
    + destruct n; [done|]. by destruct (decide _).
Qed.

(** After the barrier every nonzero group of the schedule takes the
next slot, in the order of the schedule. *)
Lemma after_sync_all_spec (schedule : list nat) (arr : list KernelArguments)
    (c : nat) :
  well_formed →
  (∀ i, i ∈ schedule → (i < Z.to_nat group_count)%nat) →
  (c + length (filter nonzero schedule) ≤ length arr)%nat →
  Z.of_nat (length arr) < 2 ^ 31 →
  ∃ records,
    Forall2 (λ i r, record i = Some r) (filter nonzero schedule)
      records
    ∧ after_sync_all XQ WQ w_scale x_scale output M_sizes offsets M N K
        input_type (mkMemory arr (Z.of_nat c)) schedule
      = Some (mkMemory
                (take c arr ++ records
                 ++ drop (c + length (filter nonzero schedule)) arr)
                (Z.of_nat (c + length (filter nonzero schedule)))).
Proof.
  intros Hwf. revert arr c.
  induction schedule as [|t rest IH]; intros arr c Hin Hroom Hlen.
  - exists []. split; [constructor|]. simpl.
    rewrite !Nat.add_0_r, take_drop. reflexivity.
  - destruct (resolve_group_well_formed t Hwf)
      as (g & Hg & HM & HN & HK & Hoffs); [apply Hin; left|].
    pose proof (writes_group_nonzero t g Hg HM HN HK) as Hw.
    rewrite filter_cons in *. simpl after_sync_all. unfold after_sync at 1.
    rewrite Hg. simpl. rewrite Hw.
    destruct (nonzero t) eqn:Hnz.
    + rewrite decide_True in * by done. simpl in Hroom.
      destruct Hoffs as [o Ho]; [done|].
      assert (Hrec : ∃ args, kernel_group_args XQ WQ w_scale x_scale output
                               N K g = Some args)
        by (unfold kernel_group_args; rewrite Ho; by eexists).
      destruct Hrec as [args Hargs]. rewrite Hargs. simpl.
      rewrite decide_True by lia.
      rewrite Nat2Z.id, to_int_small by lia.
      replace (Z.of_nat c + 1) with (Z.of_nat (S c)) by lia.
      destruct (IH (<[c := args]> arr) (S c)) as (records & Hrecs & Hrun).
      { intros i Hi. apply Hin. by right. }
      { rewrite length_insert. lia. }
      { by rewrite length_insert. }
      exists (args :: records). split.
      * constructor; [|done]. unfold record_of. by rewrite Hg.
      * unfold mbind, option_bind; cbv beta iota. rewrite Hrun. do 2 f_equal.
        -- rewrite (take_S_r _ _ args)
             by (apply list_lookup_insert_eq; lia).
           rewrite take_insert_ge by lia.
           rewrite drop_insert_lt by lia.
           rewrite <- app_assoc. simpl. by rewrite Nat.add_succ_r.
        -- simpl. by rewrite Nat.add_succ_r.
    + rewrite decide_False in Hroom |- * by (by intros []).
      unfold mbind, option_bind; cbv beta iota.
      destruct (IH arr c) as (records & Hrecs & Hrun); [|done..|].
      { intros i Hi. apply Hin. by right. }
      exists records. done.
Qed.
Lemma asserts_well_formed :
  well_formed → asserts M_sizes offsets input_type = true.
Proof.
  intros (_ & _ & _ & _ & Hdesc). unfold asserts.
  destruct M_sizes as [ms|], offsets as [os|]; try done.
  - by destruct input_type.
  - destruct Hdesc as (_ & [ty ->] & _). done.
Qed.

End set_kernel_args.


(** The same run, evaluated: the groups of size 3 and 5 hold the slots
0 and 1, in the order of the schedule, and the counter stops at 2. *)
Example set_kernel_args_m_sizes_0_5_0_3 :
  let default_args :=
    Fp8RowwiseGrouped.default_group_args 1000 2000 3000 4000 5000 in
  Fp8RowwiseGrouped.set_kernel_args 1000 2000 3000 4000 5000
    (Some [0; 5; 0; 3]) None 8 512 1024 4 None [3; 1; 0; 2]%nat
    (Fp8RowwiseGrouped.mkMemory (replicate 4 default_args) 7)
  = Some (Fp8RowwiseGrouped.mkMemory
            [ Fp8RowwiseGrouped.mkKernelArguments
                (1000 + 5 * 1024) (2000 + 3 * 512 * 1024)
                (3000 + 3 * 512, 4000 + 5) (5000 + 5 * 512)
                3 512 1024 1024 1024 (0, 0) 512;
              Fp8RowwiseGrouped.mkKernelArguments
                1000 (2000 + 1 * 512 * 1024)
                (3000 + 1 * 512, 4000) 5000
                5 512 1024 1024 1024 (0, 0) 512;
              default_args; default_args ]
            2).
Proof. reflexivity. Qed.

(** Offsets 0, 10, 10, 25 over four groups: the groups of 10 and 15
rows are written, the two empty ones are not. *)
Example set_kernel_args_offsets_0_10_10_25 :
  let default_args :=
    Fp8RowwiseGrouped.default_group_args 1000 2000 3000 4000 5000 in
  (λ mem, (Fp8RowwiseGrouped.karg_M <$> Fp8RowwiseGrouped.kernel_args mem,
           Fp8RowwiseGrouped.non_zero_counter mem))
  <$> Fp8RowwiseGrouped.set_kernel_args 1000 2000 3000 4000 5000
        None (Some [0; 10; 10; 25]) 25 512 1024 4
        (Some Fp8RowwiseGrouped._2D3D) [0; 1; 2; 3]%nat
        (Fp8RowwiseGrouped.mkMemory (replicate 4 default_args) 7)
  = Some ([10; 15; 0; 0], 2).
Proof. reflexivity. Qed.

(** * Further properties of the dispatch and of the argument set-up *)

(** ** [rowwise_dispatch] never leaves the manifest *)

Lemma forallb_elem_of {A} (P : A → bool) (l : list A) :
  forallb P l = true → ∀ x, x ∈ l → P x = true.
Proof.
  intros H x Hx. rewrite forallb_forall in H. apply H. by apply list_elem_of_In.
Qed.

Lemma rowwise_lookup_dispatch_kernels :
  forallb (λ e : Z * Z * Z * string,
             bool_decide (e.2 ∈ Fp8Rowwise.kernel_manifest))
    Fp8Rowwise.rowwise_lookup_dispatch = true.
Proof. vm_compute. reflexivity. Qed.

Lemma rowwise_lookup_dispatch_declared e :
  e ∈ Fp8Rowwise.rowwise_lookup_dispatch → e.2 ∈ Fp8Rowwise.kernel_manifest.
Proof.
  intros He. apply string_in_list.
  exact (forallb_elem_of _ _ rowwise_lookup_dispatch_kernels e He).
Qed.

Lemma NK_lookup_table_kernels :
  forallb (λ t : Z * Z * Fp8Rowwise.NKLookupTableType,
             forallb (λ e : Z * string,
                        bool_decide (e.2 ∈ Fp8Rowwise.kernel_manifest)) t.2)
    Fp8Rowwise.NK_lookup_table = true.
Proof. vm_compute. reflexivity. Qed.

Lemma NK_lookup_table_declared nk table e :
  (nk, table) ∈ Fp8Rowwise.NK_lookup_table → e ∈ table →
  e.2 ∈ Fp8Rowwise.kernel_manifest.
Proof.
  intros Ht He. apply string_in_list.
  pose proof (forallb_elem_of _ _ NK_lookup_table_kernels _ Ht) as Hall.
  exact (forallb_elem_of _ _ Hall e He).
Qed.

Lemma rowwise_heuristic_dispatch_declared (M N K : Z) :
  Fp8Rowwise.rowwise_heuristic_dispatch M N K ∈ Fp8Rowwise.kernel_manifest.
Proof.
  pose proof (rowwise_heuristic_dispatch_branches M N K) as Hin.
  revert Hin. generalize (Fp8Rowwise.rowwise_heuristic_dispatch M N K).
  intros k Hin.
  repeat (apply elem_of_cons in Hin as [-> | Hin];
          [apply string_in_list; vm_compute; reflexivity|]).
  by apply elem_of_nil in Hin.
Qed.


(** The three sources of a dispatched kernel. *)
Lemma rowwise_dispatch_sources (M N K : Z) :
  ∃ kernel,
    Fp8Rowwise.rowwise_dispatch M N K = Some kernel
    ∧ ((((Fp8Rowwise.padded_m M, N, K), kernel)
          ∈ Fp8Rowwise.rowwise_lookup_dispatch)
       ∨ (∃ table e,
            ((N, K), table) ∈ Fp8Rowwise.NK_lookup_table
            ∧ e ∈ table ∧ e.2 = kernel
            ∧ lower_bound_or_largest M table e.1)
       ∨ kernel = Fp8Rowwise.rowwise_heuristic_dispatch M N K).
Proof.
  unfold Fp8Rowwise.rowwise_dispatch, Fp8Rowwise.rowwise_dispatch_with.
  destruct (Std.umap_find (Fp8Rowwise.IntTupleHash3 Std.hash) Std.tuple3_eq
              Fp8Rowwise.rowwise_lookup_dispatch (Fp8Rowwise.padded_m M, N, K))
    as [[key kernel]|] eqn:He.
  { apply umap_find_Some in He as [Hin Hkey].
    apply tuple3_eq_spec in Hkey. cbn [fst] in Hkey. subst key.
    exists kernel. split; [reflexivity|]. left; exact Hin. }
  destruct (Std.umap_find (Fp8Rowwise.IntTupleHash2 Std.hash) Std.tuple2_eq
              Fp8Rowwise.NK_lookup_table (N, K))
    as [[nk table]|] eqn:Hnk.
  - apply umap_find_Some in Hnk as [Hin Hkey].
    apply tuple2_eq_spec in Hkey. cbn [fst] in Hkey. subst nk.
    destruct (NK_lookup_table_well_formed _ table Hin) as [Hord Hne].
    destruct (selected_entry_spec M table Hord Hne) as (e & Hsel & Hmem & Hlb).
    exists e.2. cbn [snd]. rewrite rowwise_nk_lookup_selected, Hsel.
    split; [reflexivity|]. right; left. exists table, e. auto.
  - eexists. split; [reflexivity|]. right; right. reflexivity.
Qed.

Lemma rowwise_dispatch_declared (M N K : Z) :
  ∃ kernel, Fp8Rowwise.rowwise_dispatch M N K = Some kernel
            ∧ kernel ∈ Fp8Rowwise.kernel_manifest.
Proof.
  destruct (rowwise_dispatch_sources M N K)
    as (kernel & Hd & [Hin | [(table & e & Ht & He & <- & _) | ->]]).
  - exists kernel. split; [exact Hd|].
    exact (rowwise_lookup_dispatch_declared (_, kernel) Hin).
  - exists e.2. split; [exact Hd|].
    exact (NK_lookup_table_declared _ _ _ Ht He).
  - eexists. split; [exact Hd|]. apply rowwise_heuristic_dispatch_declared.
Qed.

(** The keys of an unordered map are distinct, so [find] settles
which entries a key has: the one it returns, or none. *)
Lemma umap_find_unique {K V : Type} (hasher : K → Z) (key_eq : K → K → bool)
    (m : list (K * V)) (k : K) :
  (∀ k', key_eq k' k = true ↔ k' = k) →
  NoDup (fst <$> m) →
  match Std.umap_find hasher key_eq m k with
  | Some e => e.1 = k ∧ e ∈ m ∧ ∀ v, (k, v) ∈ m → v = e.2
  | None => ∀ v, (k, v) ∉ m
  end.
Proof.
  intros Heq Hnd.
  rewrite umap_find_by_equality by (intros k'; apply Heq).
  induction m as [|[k0 v0] m IH]; [intros v; apply not_elem_of_nil|].
  rewrite fmap_cons in Hnd. apply NoDup_cons in Hnd as [Hk0 Hnd].
  specialize (IH Hnd). cbn [List.find fst].
  destruct (key_eq k0 k) eqn:Hk.
  - apply Heq in Hk. subst k0. cbn [fst snd].
    split; [reflexivity|]. split; [apply list_elem_of_here|].
    intros v [[= ->]|Hin]%elem_of_cons; [reflexivity|].
    exfalso. apply Hk0. apply list_elem_of_fmap. by exists (k, v).
  - assert (k0 ≠ k) as Hne.
    { intros ->. assert (key_eq k k = true) as Hkk by by apply Heq.
      congruence. }
    destruct (List.find (λ e, key_eq e.1 k) m) as [e|].
    + destruct IH as (He & Hin & Huniq). split; [exact He|].
      split; [by apply list_elem_of_further|].
      intros v [[= <- _]|Hv]%elem_of_cons; [done|]. by apply Huniq.
    + intros v [[= <- _]|Hv]%elem_of_cons; [done|]. by apply (IH v).
Qed.

Lemma rowwise_lookup_dispatch_keys :
  NoDup (fst <$> Fp8Rowwise.rowwise_lookup_dispatch).
Proof. apply (bool_decide_unpack _). vm_compute. exact I. Qed.

Lemma NK_lookup_table_keys :
  NoDup (fst <$> Fp8Rowwise.NK_lookup_table).
Proof. apply (bool_decide_unpack _). vm_compute. exact I. Qed.

(** X1: on every shape (M, N, K), also a non-positive one,
[rowwise_dispatch] returns a kernel, and the kernel is declared by the
manifest. The three sources are tried in order. When the exact table
has an entry under the bucketed M, N and K, the kernel is that
entry's, and the table has no other entry under the key. Otherwise,
when (N, K) has a family table, the kernel is the one the family table
maps to the smallest key that is at least M (to its largest key when
there is none); (N, K) has no other family table, and the family
tables are never empty, so the iterator that is dereferenced is always
valid. Otherwise the kernel is the choice of the heuristic. *)
Theorem rowwise_dispatch_total (M N K : Z) :
  ∃ kernel,
    Fp8Rowwise.rowwise_dispatch M N K = Some kernel
    ∧ kernel ∈ Fp8Rowwise.kernel_manifest
    ∧ ((((Fp8Rowwise.padded_m M, N, K), kernel)
          ∈ Fp8Rowwise.rowwise_lookup_dispatch
        ∧ ∀ k, ((Fp8Rowwise.padded_m M, N, K), k)
                 ∈ Fp8Rowwise.rowwise_lookup_dispatch → k = kernel)
       ∨ ((∀ k, ((Fp8Rowwise.padded_m M, N, K), k)
                  ∉ Fp8Rowwise.rowwise_lookup_dispatch)
          ∧ ∃ table e,
              ((N, K), table) ∈ Fp8Rowwise.NK_lookup_table
              ∧ (∀ t, ((N, K), t) ∈ Fp8Rowwise.NK_lookup_table → t = table)
              ∧ e ∈ table ∧ e.2 = kernel
              ∧ lower_bound_or_largest M table e.1)
       ∨ ((∀ k, ((Fp8Rowwise.padded_m M, N, K), k)
                  ∉ Fp8Rowwise.rowwise_lookup_dispatch)
          ∧ (∀ t, ((N, K), t) ∉ Fp8Rowwise.NK_lookup_table)
          ∧ kernel = Fp8Rowwise.rowwise_heuristic_dispatch M N K)).
Proof.
  destruct (rowwise_dispatch_declared M N K) as (kernel & Hd & Hdecl).
  exists kernel. split; [exact Hd|]. split; [exact Hdecl|].
  revert Hd.
  unfold Fp8Rowwise.rowwise_dispatch, Fp8Rowwise.rowwise_dispatch_with.
  pose proof (umap_find_unique (Fp8Rowwise.IntTupleHash3 Std.hash)
                Std.tuple3_eq Fp8Rowwise.rowwise_lookup_dispatch
                (Fp8Rowwise.padded_m M, N, K)
                (λ k', tuple3_eq_spec k' _)
                rowwise_lookup_dispatch_keys) as Hexact.
  destruct (Std.umap_find (Fp8Rowwise.IntTupleHash3 Std.hash) Std.tuple3_eq
              Fp8Rowwise.rowwise_lookup_dispatch (Fp8Rowwise.padded_m M, N, K))
    as [[key k0]|].
  { cbn [fst snd] in Hexact. destruct Hexact as (-> & Hin & Huniq).
    intros [= <-]. left. split; [exact Hin|exact Huniq]. }
  pose proof (umap_find_unique (Fp8Rowwise.IntTupleHash2 Std.hash)
                Std.tuple2_eq Fp8Rowwise.NK_lookup_table (N, K)
                (λ k', tuple2_eq_spec k' _)
                NK_lookup_table_keys) as Hfamily.
  destruct (Std.umap_find (Fp8Rowwise.IntTupleHash2 Std.hash) Std.tuple2_eq
              Fp8Rowwise.NK_lookup_table (N, K))
    as [[nk table]|].
  - cbn [fst snd] in Hfamily. destruct Hfamily as (-> & Hin & Huniq).
    destruct (NK_lookup_table_well_formed _ table Hin) as [Hord Hne].
    destruct (selected_entry_spec M table Hord Hne) as (e & Hsel & Hmem & Hlb).
    cbn [fst snd]. rewrite rowwise_nk_lookup_selected, Hsel. intros [= <-].
    right; left. split; [exact Hexact|].
    exists table, e. split; [exact Hin|]. split; [exact Huniq|]. auto.
  - intros [= <-]. right; right. split; [exact Hexact|].
    split; [exact Hfamily|reflexivity].
Qed.

(** ** The rowwise wrappers on a problem without a zero dimension *)

Lemma nonzero_dimension_test (M N K : Z) :
  M ≠ 0 → N ≠ 0 → K ≠ 0 → (M =? 0) || (N =? 0) || (K =? 0) = false.
Proof.
  intros HM HN HK. rewrite !orb_false_iff, !Z.eqb_neq. tauto.
Qed.

Lemma check_output_fits (OUTPUT_DTYPE : ScalarType) (Y : Tensor) (M N : Z) :
  preallocated_output_fits OUTPUT_DTYPE Y M N →
  check_output OUTPUT_DTYPE Y M N = mret Y.
Proof.
  intros (Hne & HM & HN & Hty). unfold check_output.
  rewrite (size_to_dim_all_but_last Y Hne), mret_bind.
  rewrite HM, HN, !Z.eqb_refl. simpl andb. rewrite TORCH_CHECK_true.
  rewrite bool_decide_eq_true_2 by done. by rewrite TORCH_CHECK_true.
Qed.

Lemma check_output_misfits (OUTPUT_DTYPE : ScalarType) (Y : Tensor) (M N : Z) :
  ¬ preallocated_output_fits OUTPUT_DTYPE Y M N →
  ∃ msg, check_output OUTPUT_DTYPE Y M N = throw msg.
Proof.
  intros Hno. unfold check_output.
  destruct (decide (sizes Y = [])) as [Hnil|Hne].
  { unfold size_to_dim_, dim. rewrite Hnil. simpl.
    eexists. reflexivity. }
  rewrite (size_to_dim_all_but_last Y Hne), mret_bind.
  destruct ((to_int _ =? M) && (List.last (sizes Y) 0 =? N)) eqn:Hc.
  - apply andb_true_iff in Hc as [HM%Z.eqb_eq HN%Z.eqb_eq].
    rewrite TORCH_CHECK_true.
    rewrite bool_decide_eq_false_2.
    + eexists. reflexivity.
    + intros Hty. apply Hno. done.
  - eexists. reflexivity.
Qed.


Lemma f8f8_rowwise_wrapper_nonzero
    (XQ WQ x_scale w_scale : Tensor) (bias : option Tensor)
    (use_fast_accum : bool) (output : option Tensor) (M N K : Z) :
  rowwise_inputs_valid XQ WQ x_scale w_scale bias use_fast_accum →
  rowwise_shape XQ WQ = Some (M, N, K) →
  M ≠ 0 → N ≠ 0 → K ≠ 0 →
  Fp8Rowwise.f8f8_rowwise_wrapper XQ WQ x_scale w_scale bias
    use_fast_accum output
  = (Y ← match output with
         | Some Y => check_output kBFloat16 Y M N
         | None => mret (empty (set_back (sizes XQ) N) XQ kBFloat16)
         end;
     emit (Select "rowwise_dispatch" [M; N; K]) ;;
     match Fp8Rowwise.rowwise_dispatch M N K with
     | Some rowwise_impl => run_kernel rowwise_impl Y
     | None => fault
     end).
Proof.
  intros (Hx & Hw & Hxs & Hws & -> & -> & Hxc & Hxg & Hwc & Hwg) Hshape
    HM HN HK.
  apply rowwise_shape_inv in Hshape
    as (n & k & Hne & Hn & Hk & -> & -> & ->).
  pose proof (nonzero_dimension_test _ _ _ HM HN HK) as Hz.
  unfold Fp8Rowwise.f8f8_rowwise_wrapper.
  rewrite Hx, Hw, Hxs, Hws, Hxc, Hxg, Hwc, Hwg.
  rewrite !(bool_decide_eq_true_2 (kFloat8_e4m3fnuz = kFloat8_e4m3fnuz)) by reflexivity.
  rewrite !(bool_decide_eq_true_2 (kFloat = kFloat)) by reflexivity.
  rewrite (bool_decide_eq_false_2 (is_Some None)) by (intros [? [=]]).
  simpl andb. simpl negb. rewrite !TORCH_CHECK_true.
  rewrite (size_to_dim_all_but_last XQ Hne), !mret_bind.
  rewrite (size_lookup WQ 0 n ltac:(lia) Hn), !mret_bind.
  rewrite (size_lookup WQ 1 k ltac:(lia) Hk), !mret_bind.
  cbv zeta. rewrite Hz. reflexivity.
Qed.

Lemma f8f8_rowwise_preshuffle_wrapper_nonzero (OUTPUT_DTYPE : ScalarType)
    (XQ WQ x_scale w_scale : Tensor) (bias : option Tensor)
    (use_fast_accum : bool) (output : option Tensor) (M N K : Z) :
  rowwise_inputs_valid XQ WQ x_scale w_scale bias use_fast_accum →
  rowwise_shape XQ WQ = Some (M, N, K) →
  M ≠ 0 → N ≠ 0 → K ≠ 0 →
  Fp8RowwisePreshuffle.f8f8_rowwise_preshuffle_wrapper OUTPUT_DTYPE
    XQ WQ x_scale w_scale bias use_fast_accum output
  = (Y ← match output with
         | Some Y => check_output OUTPUT_DTYPE Y M N
         | None => mret (empty (set_back (sizes XQ) N) XQ OUTPUT_DTYPE)
         end;
     emit (Select "rowwise_preshuffle_heuristic_dispatch" [M; N; K]) ;;
     run_kernel
       (Fp8RowwisePreshuffle.rowwise_preshuffle_heuristic_dispatch M N K) Y).
Proof.
  intros (Hx & Hw & Hxs & Hws & -> & -> & Hxc & Hxg & Hwc & Hwg) Hshape
    HM HN HK.
  apply rowwise_shape_inv in Hshape
    as (n & k & Hne & Hn & Hk & -> & -> & ->).
  pose proof (nonzero_dimension_test _ _ _ HM HN HK) as Hz.
  unfold Fp8RowwisePreshuffle.f8f8_rowwise_preshuffle_wrapper.
  rewrite Hx, Hw, Hxs, Hws, Hxc, Hxg, Hwc, Hwg.
  rewrite !(bool_decide_eq_true_2 (kFloat8_e4m3fnuz = kFloat8_e4m3fnuz)) by reflexivity.
  rewrite !(bool_decide_eq_true_2 (kFloat = kFloat)) by reflexivity.
  rewrite (bool_decide_eq_false_2 (is_Some None)) by (intros [? [=]]).
  simpl andb. simpl negb. rewrite !TORCH_CHECK_true.
  rewrite (size_to_dim_all_but_last XQ Hne), !mret_bind.
  rewrite (size_lookup WQ 0 n ltac:(lia) Hn), !mret_bind.
  rewrite (size_lookup WQ 1 k ltac:(lia) Hk), !mret_bind.
  cbv zeta. rewrite Hz. reflexivity.
Qed.



(** X3: when a preallocated output is passed and no dimension is zero,
the wrapper accepts it exactly when the product of its sizes but the
last is M, its last size is N and its element type is the output type.
An output that fits is the tensor the selected kernel writes and the
call returns, whatever its leading sizes are; an output that does not
fit makes the call throw before a kernel is selected. *)
Theorem rowwise_wrappers_preallocated_output
    (XQ WQ x_scale w_scale Y : Tensor) (bias : option Tensor)
    (use_fast_accum : bool) (OUTPUT_DTYPE : ScalarType) (M N K : Z) :
  rowwise_inputs_valid XQ WQ x_scale w_scale bias use_fast_accum →
  rowwise_shape XQ WQ = Some (M, N, K) →
  M ≠ 0 → N ≠ 0 → K ≠ 0 →
  (preallocated_output_fits kBFloat16 Y M N →
   ∃ kernel,
     Fp8Rowwise.rowwise_dispatch M N K = Some kernel
     ∧ Fp8Rowwise.f8f8_rowwise_wrapper XQ WQ x_scale w_scale bias
         use_fast_accum (Some Y)
       = mkEff [Select "rowwise_dispatch" [M; N; K]; Launch kernel]
           (Ok (written_by kernel Y)))
  ∧ (¬ preallocated_output_fits kBFloat16 Y M N →
     fails (Fp8Rowwise.f8f8_rowwise_wrapper XQ WQ x_scale w_scale bias
              use_fast_accum (Some Y)))
  ∧ (preallocated_output_fits OUTPUT_DTYPE Y M N →
     let kernel :=
       Fp8RowwisePreshuffle.rowwise_preshuffle_heuristic_dispatch M N K in
     Fp8RowwisePreshuffle.f8f8_rowwise_preshuffle_wrapper OUTPUT_DTYPE
       XQ WQ x_scale w_scale bias use_fast_accum (Some Y)
     = mkEff [Select "rowwise_preshuffle_heuristic_dispatch" [M; N; K];
              Launch kernel]
         (Ok (written_by kernel Y)))
  ∧ (¬ preallocated_output_fits OUTPUT_DTYPE Y M N →
     fails (Fp8RowwisePreshuffle.f8f8_rowwise_preshuffle_wrapper
              OUTPUT_DTYPE XQ WQ x_scale w_scale bias use_fast_accum
              (Some Y))).
Proof.
  intros Hvalid Hshape HM HN HK.
  pose proof (f8f8_rowwise_wrapper_nonzero _ _ _ _ _ _ (Some Y) _ _ _
                Hvalid Hshape HM HN HK) as ->.
  pose proof (f8f8_rowwise_preshuffle_wrapper_nonzero OUTPUT_DTYPE
                _ _ _ _ _ _ (Some Y) _ _ _ Hvalid Hshape HM HN HK) as ->.
  split; [|split; [|split]].
  - intros Hfit.
    destruct (rowwise_dispatch_declared M N K) as (kernel & Hd & _).
    exists kernel. split; [done|].
    rewrite (check_output_fits _ _ _ _ Hfit), Hd. reflexivity.
  - intros Hno. destruct (check_output_misfits _ _ _ _ Hno) as [msg ->].
    split; [by exists msg|reflexivity].
  - intros Hfit. cbv zeta.
    rewrite (check_output_fits _ _ _ _ Hfit). reflexivity.
  - intros Hno. destruct (check_output_misfits _ _ _ _ Hno) as [msg ->].
    split; [by exists msg|reflexivity].
Qed.

Lemma rowwise_wrappers_preallocated_output_witness :
  let XQ := mkTensor kFloat8_e4m3fnuz true true 0 [4; 5; 8192] Data in
  let WQ := mkTensor kFloat8_e4m3fnuz true true 0 [1280; 8192] Data in
  let x_scale := mkTensor kFloat true true 0 [20] Data in
  let w_scale := mkTensor kFloat true true 0 [1280] Data in
  let Y := mkTensor kBFloat16 true true 0 [20; 1280] Uninit in
  let kernel :=
    "fp8fp8bf16_rowwise_128x32x16x128_16x16_1x1_8x16x1_8x16x1_1x16x1x8_2x2x1_1x1_interwave_v2" in
  Fp8Rowwise.f8f8_rowwise_wrapper XQ WQ x_scale w_scale None true (Some Y)
  = mkEff [Select "rowwise_dispatch" [20; 1280; 8192]; Launch kernel]
      (Ok (mkTensor kBFloat16 true true 0 [20; 1280] (Output kernel)))
  ∧ fails (Fp8RowwisePreshuffle.f8f8_rowwise_preshuffle_wrapper kHalf
             XQ WQ x_scale w_scale None true (Some Y)).
Proof.
  intros XQ WQ x_scale w_scale Y kernel.
  destruct (rowwise_wrappers_preallocated_output XQ WQ x_scale w_scale Y
              None true kHalf 20 1280 8192)
    as (Hfit & _ & _ & Hmis).
  - repeat split; reflexivity.
  - reflexivity.
  - lia.
  - lia.
  - lia.
  - split.
    + destruct Hfit as (k & Hd & Hcall).
      { repeat split; try reflexivity. discriminate. }
      rewrite Hcall.
      assert (k = kernel) as ->; [|reflexivity].
      vm_compute in Hd. by injection Hd as <-.
    + apply Hmis. intros (_ & _ & _ & Hty). discriminate Hty.
Defined.

(** ** [bf16_gemm] on a shape it accepts *)

Section bf16_gemm_launch.
Import Bf16Gemm.

Lemma bf16_gemm_impl_launch (c : Config) (A B : Tensor) (m n k : Z) :
  sizes A !! 0%nat = Some m → sizes B !! 0%nat = Some n →
  sizes A !! 1%nat = Some k →
  128 ≤ to_int m → 128 ≤ to_int n → 256 ≤ to_int k →
  bf16_gemm_impl c A B
  = mkEff [Launch (DeviceGemmV2Instance c)]
      (Ok (mkTensor kBFloat16 (is_cuda A) true (device A)
             [to_int m; to_int n] (Output (DeviceGemmV2Instance c)))).
Proof.
  intros Hm Hn Hk HM HN HK. unfold bf16_gemm_impl.
  rewrite (size_lookup A 0 m ltac:(lia) Hm), mret_bind.
  rewrite (size_lookup B 0 n ltac:(lia) Hn), mret_bind.
  rewrite (size_lookup A 1 k ltac:(lia) Hk), mret_bind.
  rewrite !bool_decide_eq_true_2 by done. simpl andb.
  rewrite TORCH_CHECK_true. reflexivity.
Qed.

(** An instance is named after all its template arguments, so the
name that is launched tells the configuration. *)
Lemma DeviceGemmV2Instance_inj (c c' : Config) :
  DeviceGemmV2Instance c' = DeviceGemmV2Instance c → c' = c.
Proof.
  destruct c as [a1 a2 a3 a4 a5 a6 a7 a8 a9 p].
  destruct c' as [b1 b2 b3 b4 b5 b6 b7 b8 b9 q].
  unfold DeviceGemmV2Instance.
  cbn [BLOCK_SIZE MBLOCK NBLOCK KBLOCK MPER_XDL NPER_XDL MPER_WAVE NPER_WAVE
       CNPER_WAVE PADDING].
  intros Heq. apply (inj (String.app _)) in Heq.
  apply separator_splits_once in Heq as [Hp Heq];
    [|by destruct q; vm_compute; repeat split
     |by destruct p; vm_compute; repeat split].
  do 8 (apply separator_splits_once in Heq as [?%(inj pretty) Heq];
        [|apply (to_string_separator_free _)..]).
  apply (inj pretty) in Heq. subst.
  by destruct p, q.
Qed.

(** X4: on bfloat16 inputs with M ≥ 128, N ≥ 128 and K ≥ 256,
[bf16_gemm] launches one instance and returns the M x N bfloat16 tensor
it wrote, on the device of [A]. The instance that is launched has one
configuration: no other template arguments give its name. It pads
exactly when M, N or K is not a multiple of 256, so an instance without
padding only runs on shapes its tile sizes divide; the tile of 256 rows,
with eight XDL tiles per wave along M, is used exactly when M ≥ 8192 and
N ≥ 4096, or N ≥ 8192 and M ≥ 4096, and the tile of 128 rows, with four,
otherwise.
The second size of [B] is never read. *)
Theorem bf16_gemm_launches_fitting_instance (A B : Tensor) (m n k : Z) :
  dtype A = kBFloat16 → dtype B = kBFloat16 →
  sizes A !! 0%nat = Some m → sizes B !! 0%nat = Some n →
  sizes A !! 1%nat = Some k →
  128 ≤ to_int m → 128 ≤ to_int n → 256 ≤ to_int k →
  let M := to_int m in
  let N := to_int n in
  let K := to_int k in
  ∃ c : Config,
    bf16_gemm A B
    = mkEff [Launch (DeviceGemmV2Instance c)]
        (Ok (mkTensor kBFloat16 (is_cuda A) true (device A) [M; N]
               (Output (DeviceGemmV2Instance c))))
    ∧ (∀ c', DeviceGemmV2Instance c' = DeviceGemmV2Instance c → c' = c)
    ∧ (PADDING c = false
       ↔ M `rem` 256 = 0 ∧ N `rem` 256 = 0 ∧ K `rem` 256 = 0)
    ∧ (PADDING c = false →
       M `rem` MBLOCK c = 0 ∧ N `rem` NBLOCK c = 0 ∧ K `rem` KBLOCK c = 0)
    ∧ (MBLOCK c = 256
       ↔ (8192 ≤ M ∧ 4096 ≤ N) ∨ (8192 ≤ N ∧ 4096 ≤ M))
    ∧ (MBLOCK c = 128 ∨ MBLOCK c = 256)
    ∧ NBLOCK c = 128 ∧ KBLOCK c = 64
    ∧ BLOCK_SIZE c = 256 ∧ MPER_XDL c = 16 ∧ NPER_XDL c = 16
    ∧ MBLOCK c = 32 * MPER_WAVE c ∧ NPER_WAVE c = 4 ∧ CNPER_WAVE c = 2.
Proof.
  intros HA HB Hm Hn Hk HM HN HK M N K. unfold bf16_gemm.
  rewrite HA, HB, !bool_decide_eq_true_2 by done. simpl andb.
  rewrite TORCH_CHECK_true.
  rewrite (size_lookup A 0 m ltac:(lia) Hm), mret_bind.
  rewrite (size_lookup B 0 n ltac:(lia) Hn), mret_bind.
  rewrite (size_lookup A 1 k ltac:(lia) Hk), mret_bind.
  cbv zeta. fold M N K.
  assert (∀ x, x `rem` 256 = 0 → x `rem` 128 = 0 ∧ x `rem` 64 = 0) as Hdiv.
  { intros x Hx. pose proof (Z.quot_rem' x 256) as Hq.
    rewrite Hx in Hq.
    split.
    - apply Z.rem_divide; [lia|]. exists (2 * (x `quot` 256)). lia.
    - apply Z.rem_divide; [lia|]. exists (4 * (x `quot` 256)). lia. }
  destruct (Z.eqb_spec (M `rem` 256) 0) as [EM|EM];
    destruct (Z.eqb_spec (N `rem` 256) 0) as [EN|EN];
    destruct (Z.eqb_spec (K `rem` 256) 0) as [EK|EK];
    simpl negb; simpl orb;
    destruct (bool_decide_reflect (8192 ≤ M));
    destruct (bool_decide_reflect (4096 ≤ N));
    destruct (bool_decide_reflect (8192 ≤ N));
    destruct (bool_decide_reflect (4096 ≤ M));
    simpl andb; simpl orb; cbv iota;
    (eexists; split; [apply (bf16_gemm_impl_launch _ A B m n k); done|]);
    (split; [intros c'; apply DeviceGemmV2Instance_inj|]);
    cbn [BLOCK_SIZE MBLOCK NBLOCK KBLOCK MPER_XDL NPER_XDL MPER_WAVE
         NPER_WAVE CNPER_WAVE PADDING];
    repeat split; intros; try discriminate; try reflexivity;
    try lia; try (exfalso; lia);
    try (apply (Hdiv _ EM)); try (apply (Hdiv _ EN)); try (apply (Hdiv _ EK));
    try (by left); try (by right).
Qed.

Lemma bf16_gemm_launches_fitting_instance_witness :
  let A := mkTensor kBFloat16 true true 0 [8192; 512] Data in
  let B := mkTensor kBFloat16 true true 0 [4096; 3] Data in
  bf16_gemm A B
  = mkEff [Launch "DeviceGemm_Xdl_CShuffleV3_Default_256_256_128_64_16_16_8_4_2"]
      (Ok (mkTensor kBFloat16 true true 0 [8192; 4096]
             (Output
                "DeviceGemm_Xdl_CShuffleV3_Default_256_256_128_64_16_16_8_4_2"))).
Proof.
  intros A B.
  destruct (bf16_gemm_launches_fitting_instance A B 8192 4096 512)
    as (c & Hcall & _ & Hpad & _ & Hrows & _ & HN & HK & Hblock & HMX & HNX
        & Hwave & HNW & HCN);
    [reflexivity..| | | |].
  - vm_compute. discriminate.
  - vm_compute. discriminate.
  - vm_compute. discriminate.
  - rewrite Hcall.
    assert (PADDING c = false) as HP by (apply Hpad; vm_compute; done).
    assert (MBLOCK c = 256) as HM by (apply Hrows; vm_compute; left; done).
    rewrite HM in Hwave.
    destruct c as [a1 a2 a3 a4 a5 a6 a7 a8 a9 p].
    cbn [BLOCK_SIZE MBLOCK NBLOCK KBLOCK MPER_XDL NPER_XDL MPER_WAVE
         NPER_WAVE CNPER_WAVE PADDING] in *.
    assert (a7 = 8) by lia. subst. reflexivity.
Defined.
End bf16_gemm_launch.

(** ** The zeroing kernel of the dynamic grouped GEMM *)

(** An aligned block of eight elements lies in one row. *)
Lemma aligned_block_div_mod (a d r : Z) :
  0 < d → d `mod` 8 = 0 → 0 ≤ a → a `mod` 8 = 0 → 0 ≤ r < 8 →
  (a + r) `div` d = a `div` d ∧ (a + r) `mod` d = a `mod` d + r.
Proof.
  intros Hd Hd8 Ha Ha8 Hr.
  pose proof (Z.div_mod a d ltac:(lia)) as Hdm.
  pose proof (Z.mod_pos_bound a d Hd) as Hs.
  pose proof (Z.div_mod d 8 ltac:(lia)) as Hd'. rewrite Hd8 in Hd'.
  pose proof (Z.div_mod a 8 ltac:(lia)) as Ha'. rewrite Ha8 in Ha'.
  assert (a `mod` d + r < d) as Hlt.
  { assert (a `mod` d = 8 * (a `div` 8 - (d `div` 8) * (a `div` d))) as Hs8 by lia.
    assert ((a `div` 8 - (d `div` 8) * (a `div` d)) < d `div` 8) by lia.
    lia. }
  assert (a + r = d * (a `div` d) + (a `mod` d + r)) as Heq by lia.
  split.
  - symmetry. apply (Z.div_unique_pos _ _ _ (a `mod` d + r)); lia.
  - symmetry. apply (Z.mod_unique_pos _ _ (a `div` d)); lia.
Qed.

(** The grid covers the block factor. *)
Lemma ceil_div_covers (block_factor blockSize : Z) :
  0 < blockSize → 0 ≤ block_factor →
  let numBlocks := (block_factor + blockSize - 1) `quot` blockSize in
  block_factor ≤ numBlocks * blockSize < block_factor + blockSize.
Proof.
  intros Hb Hf. cbv zeta.
  rewrite Z.quot_div_nonneg by lia.
  pose proof (Z.div_mod (block_factor + blockSize - 1) blockSize ltac:(lia)) as Hdm.
  pose proof (Z.mod_pos_bound (block_factor + blockSize - 1) blockSize Hb) as Hs.
  nia.
Qed.

Lemma row_major_div_mod (g m n M N : Z) :
  0 ≤ g → 0 ≤ m < M → 0 ≤ n < N →
  (g * M * N + m * N + n) `div` (M * N) = g
  ∧ ((g * M * N + m * N + n) `mod` (M * N)) `div` N = m.
Proof.
  intros Hg Hm Hn.
  assert (0 ≤ m * N + n < M * N) as Hrow by nia.
  assert ((g * M * N + m * N + n) `div` (M * N) = g) as Hq.
  { symmetry. apply (Z.div_unique_pos _ _ _ (m * N + n)); lia. }
  assert ((g * M * N + m * N + n) `mod` (M * N) = m * N + n) as Hr.
  { symmetry. apply (Z.mod_unique_pos _ _ g); lia. }
  split; [done|]. rewrite Hr.
  symmetry. apply (Z.div_unique_pos _ _ _ n); lia.
Qed.

Lemma store_float4_zero_lookup (buffer : list Z) (t : nat) :
  (8 * t + 8 ≤ length buffer)%nat →
  ∃ out, Device.store_float4_zero buffer (Z.of_nat t * 8) = Some out
         ∧ length out = length buffer
         ∧ ∀ j : nat,
             out !! j = if decide (j `div` 8 = t)%nat then
                          Some 0 else buffer !! j.
Proof.
  intros Hlen. unfold Device.store_float4_zero.
  rewrite decide_True by lia.
  replace (Z.to_nat (Z.of_nat t * 8)) with (8 * t)%nat by lia.
  eexists. split; [reflexivity|]. split.
  { rewrite !length_app, length_take, length_replicate, length_drop. lia. }
  intros j.
  pose proof (Nat.div_mod_eq j 8) as Hj.
  pose proof (Nat.mod_upper_bound j 8 ltac:(lia)) as Hr.
  destruct (decide (j `div` 8 = t)%nat) as [Heq|Hne].
  - rewrite lookup_app_r by (rewrite length_take; lia).
    rewrite length_take, Nat.min_l by lia.
    rewrite lookup_app_l by (rewrite length_replicate; lia).
    apply lookup_replicate_2. lia.
  - destruct (decide (j < 8 * t)%nat) as [Hlt|Hge].
    + rewrite lookup_app_l by (rewrite length_take; lia).
      apply lookup_take_lt. lia.
    + assert (8 * t + 8 ≤ j)%nat as Hbig.
      { assert (t < j `div` 8)%nat; [|lia].
        assert (t ≤ j `div` 8)%nat; [|lia].
        apply Nat.div_le_lower_bound; lia. }
      rewrite lookup_app_r by (rewrite length_take; lia).
      rewrite length_take, Nat.min_l by lia.
      rewrite lookup_app_r by (rewrite length_replicate; lia).
      rewrite length_replicate, lookup_drop. f_equal. lia.
Qed.
Section fixed_nk_args.
Import Fp8RowwiseGrouped Device Fp8RowwiseGroupedDynamic.
Variables XQ WQ w_scale x_scale output : Z.
Variable prepad_M : list Z.
Variables M N K group_count : Z.
Hypothesis Hlen : Z.of_nat (length prepad_M) = group_count.

Local Notation "'plain'" :=
  (set_kernel_args_fixed_nk_kernel XQ WQ w_scale x_scale output
     prepad_M M N K group_count).
Local Notation "'group_args'" :=
  (kernel_group_args XQ WQ w_scale x_scale output M N K).

Lemma set_group_args_spec (mem : DeviceMemory) (t : nat) :
  Z.of_nat (length (args_buffer mem)) = group_count →
  ∃ args,
    set_group_args XQ WQ w_scale x_scale output prepad_M M N K group_count
      mem (Z.of_nat t)
    = Some (mkDeviceMemory args (output_buffer mem))
    ∧ length args = length (args_buffer mem)
    ∧ ∀ i, args !! i
           = if decide (i = t ∧ Z.of_nat t < group_count) then
               group_args (Z.of_nat t) <$> prepad_M !! t
             else args_buffer mem !! i.
Proof.
  intros Hargs. unfold set_group_args.
  destruct (Z.ltb_spec (Z.of_nat t) group_count) as [Hlt|Hge].
  - destruct (lookup_lt_is_Some_2 prepad_M t ltac:(lia)) as [p Hp].
    unfold load, store. rewrite decide_True by lia.
    rewrite Nat2Z.id, Hp. cbn [mbind option_bind].
    rewrite decide_True by lia. cbn [mbind option_bind].
    eexists. split; [reflexivity|]. split; [by rewrite length_insert|].
    intros i. destruct (decide (i = t ∧ _)) as [[-> _]|Hno].
    + rewrite list_lookup_insert_eq by lia. reflexivity.
    + rewrite list_lookup_insert_ne by (intros ->; apply Hno; done).
      reflexivity.
  - exists (args_buffer mem). split; [by destruct mem|]. split; [done|].
    intros i. rewrite decide_False by lia. reflexivity.
Qed.

Lemma run_fixed_nk_spec (schedule : list nat) (mem : DeviceMemory) :
  Z.of_nat (length (args_buffer mem)) = group_count →
  (∀ t, t ∈ schedule → Z.of_nat t < 2 ^ 31) →
  ∃ args,
    run_threads plain mem schedule
    = Some (mkDeviceMemory args (output_buffer mem))
    ∧ length args = length (args_buffer mem)
    ∧ ∀ i, args !! i
           = if decide (i ∈ schedule ∧ Z.of_nat i < group_count) then
               group_args (Z.of_nat i) <$> prepad_M !! i
             else args_buffer mem !! i.
Proof.
  revert mem. induction schedule as [|t rest IH]; intros mem Hargs Hts.
  { exists (args_buffer mem). split; [by destruct mem|]. split; [done|].
    intros i. rewrite decide_False; [done|]. intros [[]%elem_of_nil _]. }
  destruct (set_group_args_spec mem t Hargs) as (args1 & Hstep & Hl1 & Hlk1).
  destruct (IH (mkDeviceMemory args1 (output_buffer mem)))
    as (args' & Hrun & Hl & Hlk).
  { cbn [args_buffer]. by rewrite Hl1. }
  { intros t' Ht'. apply Hts. by apply list_elem_of_further. }
  cbn [args_buffer output_buffer] in *.
  exists args'. unfold run_threads in *. cbn [for_loop].
  assert (plain mem t = Some (mkDeviceMemory args1 (output_buffer mem)))
    as Hstep'.
  { unfold set_kernel_args_fixed_nk_kernel. cbv zeta.
    rewrite (to_int_small (Z.of_nat t))
      by (specialize (Hts t (list_elem_of_here _ _)); lia).
    exact Hstep. }
  rewrite Hstep'. cbn [mbind option_bind]. split; [exact Hrun|].
  split; [by rewrite Hl, Hl1|].
  intros i. rewrite Hlk, Hlk1.
  destruct (decide (i ∈ rest ∧ Z.of_nat i < group_count)) as [[Hi Hlt]|Hno];
    destruct (decide (i = t ∧ Z.of_nat t < group_count)) as [[Heq Hlt']|Hno'];
    destruct (decide (i ∈ t :: rest ∧ Z.of_nat i < group_count))
      as [[Hc Hlt'']|Hnc];
    try subst i; try reflexivity; exfalso.
  - apply Hnc. split; [by apply list_elem_of_further|done].
  - apply Hnc. split; [by apply list_elem_of_further|done].
  - apply Hnc. split; [apply list_elem_of_here|done].
  - apply elem_of_cons in Hc as [->|Hc]; [by apply Hno'|by apply Hno].
Qed.

(** X6: the plain fixed-shape kernel, launched with one thread per
group, leaves in slot g the argument record of group g (the operands
offset by g whole problems, M taken from [zero_start_index_M[g]]),
whatever order the threads run in, and writes nothing to the output. A
block holds at most 1024 threads. *)
Theorem set_kernel_args_fixed_nk_kernel_writes_group_records
    (schedule : list nat) (mem : DeviceMemory) :
  0 ≤ group_count ≤ 1024 →
  schedule ≡ₚ fixed_nk_threads group_count →
  Z.of_nat (length (args_buffer mem)) = group_count →
  ∃ args,
    run_threads plain mem schedule
    = Some (mkDeviceMemory args (output_buffer mem))
    ∧ length args = length (args_buffer mem)
    ∧ ∀ (g : nat) (p : Z),
        prepad_M !! g = Some p →
        args !! g = Some (group_args (Z.of_nat g) p).
Proof.
  intros HG Hperm Hargs.
  assert (∀ t : nat, t ∈ schedule ↔ Z.of_nat t < group_count) as Hsched.
  { intros t. rewrite Hperm. unfold fixed_nk_threads, launch_threads.
    rewrite elem_of_seq. lia. }
  destruct (run_fixed_nk_spec schedule mem Hargs)
    as (args & Hrun & Hl & Hlk).
  { intros t Ht%Hsched. lia. }
  exists args. split; [exact Hrun|]. split; [exact Hl|].
  intros g p Hp. rewrite Hlk.
  pose proof (lookup_lt_Some _ _ _ Hp) as Hg.
  rewrite decide_True; [by rewrite Hp|].
  split; [apply Hsched; lia|lia].
Qed.
End fixed_nk_args.

Section zeroing.
Import Fp8RowwiseGrouped Device Fp8RowwiseGroupedDynamic.
Variables XQ WQ w_scale x_scale output : Z.
Variable prepad_M : list Z.
Variables M N K group_count : Z.
Hypothesis HG : 0 < group_count.
Hypothesis HM : 0 < M.
Hypothesis HN : 0 < N.
Hypothesis HN8 : N `rem` 8 = 0.
Hypothesis Hsize : group_count * M * N < 2 ^ 30.
Hypothesis Hlen : Z.of_nat (length prepad_M) = group_count.
Hypothesis Hint : Forall (λ p, - 2 ^ 31 ≤ p < 2 ^ 31) prepad_M.

Local Notation "'zeroing'" :=
  (set_kernel_args_fixed_nk_kernel_zeroing XQ WQ w_scale x_scale output
     prepad_M M N K group_count).
Local Notation "'group_args'" :=
  (kernel_group_args XQ WQ w_scale x_scale output M N K).
Local Notation "'zero_row'" := (in_zero_row prepad_M M N).

Lemma row_of_block (t j : nat) :
  (j `div` 8 = t)%nat →
  zero_row (Z.of_nat j) = zero_row (Z.of_nat t * 8).
Proof.
  intros Hj.
  pose proof (Nat.div_mod_eq j 8) as Hdm.
  pose proof (Nat.mod_upper_bound j 8 ltac:(lia)) as Hr.
  assert (Z.of_nat j = Z.of_nat t * 8 + Z.of_nat (j `mod` 8)) as -> by lia.
  rewrite Z.rem_mod_nonneg in HN8 by lia.
  assert ((M * N) `mod` 8 = 0) as HMN8.
  { rewrite <- Z.mul_mod_idemp_r, HN8, Z.mul_0_r by lia. reflexivity. }
  assert ((Z.of_nat t * 8) `mod` 8 = 0) as Ht8 by (apply Z.mod_mul; lia).
  destruct (aligned_block_div_mod (Z.of_nat t * 8) (M * N)
              (Z.of_nat (j `mod` 8)) ltac:(nia) HMN8 ltac:(lia) Ht8
              ltac:(lia)) as [Hq Hrem].
  unfold in_zero_row. rewrite Hq, Hrem.
  assert (((Z.of_nat t * 8) `mod` (M * N)) `mod` 8 = 0) as Hs8.
  { apply Z.mod_divide; [lia|].
    rewrite (Z.mod_eq (Z.of_nat t * 8) (M * N)) by nia.
    apply Z.divide_sub_r; [by exists (Z.of_nat t)|].
    apply Z.divide_mul_l. apply Z.mod_divide; [lia|exact HMN8]. }
  pose proof (Z.mod_pos_bound (Z.of_nat t * 8) (M * N) ltac:(nia)) as Hsb.
  destruct (aligned_block_div_mod ((Z.of_nat t * 8) `mod` (M * N)) N
              (Z.of_nat (j `mod` 8)) HN HN8 ltac:(lia) Hs8 ltac:(lia))
    as [Hq2 _].
  rewrite Hq2. reflexivity.
Qed.

Lemma zeroing_thread_spec (mem : DeviceMemory) (t : nat) :
  Z.of_nat (length (args_buffer mem)) = group_count →
  Z.of_nat (length (output_buffer mem)) = group_count * M * N →
  Z.of_nat t * 8 < 2 ^ 31 →
  ∃ mem',
    zeroing mem t = Some mem'
    ∧ length (args_buffer mem') = length (args_buffer mem)
    ∧ length (output_buffer mem') = length (output_buffer mem)
    ∧ (∀ i, args_buffer mem' !! i
            = if decide (i = t ∧ Z.of_nat t < group_count) then
                group_args (Z.of_nat t) <$> prepad_M !! t
              else args_buffer mem !! i)
    ∧ (∀ j : nat, Z.of_nat j < group_count * M * N →
         output_buffer mem' !! j
         = if decide (j `div` 8 = t)%nat then
             if zero_row (Z.of_nat j) then Some 0
             else output_buffer mem !! j
           else output_buffer mem !! j).
Proof.
  intros Hargs Hout Ht.
  unfold set_kernel_args_fixed_nk_kernel_zeroing.
  rewrite (to_int_small (Z.of_nat t)) by lia.
  destruct (set_group_args_spec XQ WQ w_scale x_scale output prepad_M
              M N K group_count Hlen mem t Hargs)
    as (args & -> & Hlargs & Hlk).
  cbn [mbind option_bind]. unfold int_mul.
  rewrite decide_True by lia. cbn [mbind option_bind].
  rewrite decide_False by nia.
  cbn [args_buffer output_buffer].
  set (T8 := Z.of_nat t * 8).
  assert (0 < M * N) as HMN by nia.
  assert (0 ≤ T8) as HT8 by lia.
  pose proof (Z.mod_pos_bound T8 (M * N) HMN) as Hrow.
  rewrite (Z.quot_div_nonneg T8) by lia.
  rewrite (Z.rem_mod_nonneg T8) by lia.
  rewrite (Z.quot_div_nonneg (T8 `mod` (M * N))) by lia.
  assert (0 ≤ T8 `div` (M * N) ≤ T8) as Hq.
  { split; [apply Z.div_pos; lia|].
    apply Z.div_le_upper_bound; [lia|nia]. }
  assert (0 ≤ (T8 `mod` (M * N)) `div` N < M) as Hcm.
  { split; [apply Z.div_pos; lia|].
    apply Z.div_lt_upper_bound; lia. }
  rewrite (to_int_small (T8 `div` (M * N))) by lia.
  rewrite (to_int_small ((T8 `mod` (M * N)) `div` N)) by nia.
  assert (∀ j : nat, Z.of_nat j < group_count * M * N →
            (j `div` 8 = t)%nat → T8 `div` (M * N) < group_count) as Hin.
  { intros j Hj Hjt. apply Z.div_lt_upper_bound; [lia|].
    pose proof (Nat.div_mod_eq j 8). unfold T8. nia. }
  destruct (Z.ltb_spec (T8 `div` (M * N)) group_count) as [Hlt|Hge].
  - unfold load. rewrite decide_True by lia.
    destruct (lookup_lt_is_Some_2 prepad_M (Z.to_nat (T8 `div` (M * N)))
                ltac:(lia)) as [p Hp].
    rewrite Hp. cbn [fmap option_fmap option_map mbind option_bind].
    rewrite (to_int_small p)
      by (eapply Forall_lookup_1 in Hint; [exact Hint|exact Hp]).
    assert (zero_row T8 = (p <=? (T8 `mod` (M * N)) `div` N)) as Hzr.
    { unfold in_zero_row. by rewrite Hp. }
    destruct (p <=? (T8 `mod` (M * N)) `div` N) eqn:Hz.
    + assert (8 * t + 8 ≤ length (output_buffer mem))%nat as Hroom.
      { assert (T8 < group_count * M * N) as Hlt8.
        { pose proof (Z.div_mod T8 (M * N) ltac:(lia)). nia. }
        rewrite Z.rem_mod_nonneg in HN8 by lia.
        pose proof (Z.div_mod N 8 ltac:(lia)) as HN'. rewrite HN8 in HN'.
        assert (group_count * M * N = 8 * (group_count * M * (N `div` 8)))
          as HGMN by lia.
        unfold T8 in Hlt8. lia. }
      destruct (store_float4_zero_lookup (output_buffer mem) t Hroom)
        as (out & Hstore & Hlout & Hlko).
      fold T8 in Hstore. rewrite Hstore.
      cbn [mbind option_bind].
      eexists. split; [reflexivity|]. cbn [args_buffer output_buffer].
      split; [done|]. split; [done|]. split; [done|].
      intros j Hj. rewrite Hlko.
      destruct (decide (j `div` 8 = t)%nat) as [Hjt|]; [|done].
      rewrite (row_of_block t j Hjt). fold T8. by rewrite Hzr.
    + eexists. split; [reflexivity|]. cbn [args_buffer output_buffer].
      split; [done|]. split; [done|]. split; [done|].
      intros j Hj.
      destruct (decide (j `div` 8 = t)%nat) as [Hjt|]; [|done].
      rewrite (row_of_block t j Hjt). fold T8. by rewrite Hzr.
  - eexists. split; [reflexivity|]. cbn [args_buffer output_buffer].
    split; [done|]. split; [done|]. split; [done|].
    intros j Hj.
    destruct (decide (j `div` 8 = t)%nat) as [Hjt|]; [|done].
    specialize (Hin j Hj Hjt). lia.
Qed.

Lemma run_zeroing_spec (schedule : list nat) (mem : DeviceMemory) :
  Z.of_nat (length (args_buffer mem)) = group_count →
  Z.of_nat (length (output_buffer mem)) = group_count * M * N →
  (∀ t, t ∈ schedule → Z.of_nat t * 8 < 2 ^ 31) →
  ∃ mem',
    run_threads zeroing mem schedule = Some mem'
    ∧ length (args_buffer mem') = length (args_buffer mem)
    ∧ length (output_buffer mem') = length (output_buffer mem)
    ∧ (∀ i, args_buffer mem' !! i
            = if decide (i ∈ schedule ∧ Z.of_nat i < group_count) then
                group_args (Z.of_nat i) <$> prepad_M !! i
              else args_buffer mem !! i)
    ∧ (∀ j : nat, Z.of_nat j < group_count * M * N →
         output_buffer mem' !! j
         = if decide ((j `div` 8)%nat ∈ schedule) then
             if zero_row (Z.of_nat j) then Some 0
             else output_buffer mem !! j
           else output_buffer mem !! j).
Proof.
  revert mem. induction schedule as [|t rest IH]; intros mem Hargs Hout Hts.
  { exists mem. split; [done|]. split; [done|]. split; [done|]. split.
    - intros i. rewrite decide_False; [done|]. intros [[]%elem_of_nil _].
    - intros j _. rewrite decide_False; [done|]. apply not_elem_of_nil. }
  destruct (zeroing_thread_spec mem t Hargs Hout)
    as (mem1 & Hstep & Hla1 & Hlo1 & Hargs1 & Hout1).
  { apply Hts. apply list_elem_of_here. }
  destruct (IH mem1) as (mem' & Hrun & Hla & Hlo & Hargs' & Hout').
  { by rewrite Hla1. }
  { by rewrite Hlo1. }
  { intros t' Ht'. apply Hts. by apply list_elem_of_further. }
  exists mem'. unfold run_threads in *. cbn [for_loop].
  rewrite Hstep. cbn [mbind option_bind]. split; [exact Hrun|].
  split; [by rewrite Hla, Hla1|]. split; [by rewrite Hlo, Hlo1|]. split.
  - intros i. rewrite Hargs', Hargs1.
    destruct (decide (i ∈ rest ∧ Z.of_nat i < group_count)) as [[Hi Hlt]|Hno];
      destruct (decide (i = t ∧ Z.of_nat t < group_count)) as [[Heq Hlt']|Hno'];
      destruct (decide (i ∈ t :: rest ∧ Z.of_nat i < group_count))
        as [[Hc Hlt'']|Hnc];
      try subst i; try reflexivity; exfalso.
    + apply Hnc. split; [by apply list_elem_of_further|done].
    + apply Hnc. split; [by apply list_elem_of_further|done].
    + apply Hnc. split; [apply list_elem_of_here|done].
    + apply elem_of_cons in Hc as [->|Hc]; [by apply Hno'|by apply Hno].
  - intros j Hj. rewrite (Hout' j Hj), (Hout1 j Hj).
    destruct (decide ((j `div` 8)%nat ∈ rest)) as [Hi|Hno];
      destruct (decide (j `div` 8 = t)%nat) as [Heq|Hne];
      destruct (decide ((j `div` 8)%nat ∈ t :: rest)) as [Hc|Hnc];
      destruct (zero_row (Z.of_nat j)); try reflexivity; exfalso.
    all: try (apply Hnc; by apply list_elem_of_further).
    all: try (apply Hnc; rewrite Heq; apply list_elem_of_here).
    all: apply elem_of_cons in Hc as [Hc|Hc]; [by apply Hne|by apply Hno].
Qed.

Lemma zeroing_threads_cover :
  ∃ T : Z,
    zeroing_threads M N group_count = Some (seq 0 (Z.to_nat T))
    ∧ group_count ≤ T ∧ group_count * M * N ≤ 8 * T
    ∧ 8 * T < 2 ^ 31.
Proof.
  unfold zeroing_threads, zeroing_launch.
  rewrite (proj2 (Z.eqb_eq _ _) HN8). cbv zeta.
  pose proof HN8 as HN8'. rewrite Z.rem_mod_nonneg in HN8' by lia.
  pose proof (Z.div_mod N 8 ltac:(lia)) as HN'. rewrite HN8' in HN'.
  assert (0 < N `div` 8) as Hn by lia.
  assert ((group_count * M * N) `quot` 8 = group_count * M * (N `div` 8))
    as Hq.
  { rewrite Z.quot_div_nonneg by nia.
    symmetry. apply (Z.div_unique_exact); [lia|]. nia. }
  rewrite Hq.
  assert (group_count ≤ group_count * M * (N `div` 8)) as Hge.
  { assert (1 ≤ M * (N `div` 8)) by nia. rewrite <- Z.mul_assoc. nia. }
  rewrite Z.max_r by lia.
  set (block_factor := group_count * M * (N `div` 8)) in *.
  assert (8 * block_factor = group_count * M * N) as Hbf
    by (unfold block_factor; nia).
  rewrite (to_int_small block_factor) by lia.
  set (blockSize := Z.min 512 block_factor).
  assert (0 < blockSize ≤ 512) as Hbs by (unfold blockSize; lia).
  rewrite decide_False by lia. cbn [mbind option_bind fst snd].
  pose proof (ceil_div_covers block_factor blockSize ltac:(lia) ltac:(lia))
    as Hcover. cbv zeta in Hcover.
  unfold launch_threads. eexists. split; [reflexivity|]. lia.
Qed.

(** X5: the zeroing branch of [set_dynamic_kernel_args] launches enough
threads, and whatever order they run in, the kernel leaves in slot g the
argument record of group g, sets to zero every output element of a row
at or beyond [zero_start_index_M[g]], and leaves every element of an
earlier row as it was. This holds when there is a group, M and N are
positive, N is a multiple of 8 as the host checks, the output has fewer
than 2^30 elements and the start indices fit an [int]. *)
Theorem set_kernel_args_fixed_nk_kernel_zeroing_zeroes_padding_rows :
  ∃ threads,
    zeroing_threads M N group_count = Some threads
    ∧ ∀ (schedule : list nat) (mem : DeviceMemory),
        schedule ≡ₚ threads →
        Z.of_nat (length (args_buffer mem)) = group_count →
        Z.of_nat (length (output_buffer mem)) = group_count * M * N →
        ∃ mem',
          run_threads zeroing mem schedule = Some mem'
          ∧ (∀ (g : nat) (p : Z),
               prepad_M !! g = Some p →
               args_buffer mem' !! g = Some (group_args (Z.of_nat g) p))
          ∧ (∀ (g : nat) (p m n : Z),
               prepad_M !! g = Some p → 0 ≤ m < M → 0 ≤ n < N →
               let j := Z.to_nat (Z.of_nat g * M * N + m * N + n) in
               output_buffer mem' !! j
               = if decide (p ≤ m) then Some 0 else output_buffer mem !! j).
Proof.
  destruct zeroing_threads_cover as (T & Hthreads & HTG & HTout & HT31).
  eexists. split; [exact Hthreads|].
  intros schedule mem Hperm Hargs Hout.
  assert (∀ t : nat, t ∈ schedule ↔ Z.of_nat t < T) as Hsched.
  { intros t. rewrite Hperm, elem_of_seq. lia. }
  destruct (run_zeroing_spec schedule mem Hargs Hout)
    as (mem' & Hrun & _ & _ & Hargs' & Hout').
  { intros t Ht%Hsched. lia. }
  exists mem'. split; [exact Hrun|]. split.
  - intros g p Hp. rewrite Hargs'.
    pose proof (lookup_lt_Some _ _ _ Hp) as Hg.
    rewrite decide_True; [by rewrite Hp|].
    split; [apply Hsched; lia|lia].
  - intros g p m n Hp Hm Hn j.
    pose proof (lookup_lt_Some _ _ _ Hp) as Hg.
    destruct (row_major_div_mod (Z.of_nat g) m n M N ltac:(lia) Hm Hn)
      as [Hq Hr].
    assert (0 ≤ m * N + n < M * N) as Hrow by nia.
    assert (Z.of_nat j = Z.of_nat g * M * N + m * N + n) as Hj
      by (unfold j; nia).
    assert (Z.of_nat j < group_count * M * N) as Hjlt by nia.
    rewrite (Hout' j Hjlt).
    rewrite decide_True.
    2:{ apply Hsched.
        pose proof (Nat.div_mod_eq j 8).
        pose proof (Nat.mod_upper_bound j 8 ltac:(lia)). lia. }
    unfold in_zero_row. rewrite Hj, Hq, Hr, Nat2Z.id, Hp.
    destruct (Z.leb_spec p m); [by rewrite decide_True|by rewrite decide_False by lia].
Qed.
End zeroing.

Lemma set_kernel_args_fixed_nk_kernel_zeroing_zeroes_padding_rows_witness :
  let prepad_M := [1; 2] in
  let mem :=
    Fp8RowwiseGroupedDynamic.mkDeviceMemory
      (replicate 2 (Fp8RowwiseGrouped.mkKernelArguments 0 0 (0, 0) 0 0 0 0
                      0 0 (0, 0) 0))
      (replicate 32 7) in
  ∃ mem',
    Fp8RowwiseGroupedDynamic.run_threads
      (Fp8RowwiseGroupedDynamic.set_kernel_args_fixed_nk_kernel_zeroing
         1000 2000 3000 4000 5000 prepad_M 2 8 16 2)
      mem [1; 0; 3; 2]%nat = Some mem'
    ∧ Fp8RowwiseGroupedDynamic.output_buffer mem' !! 7%nat = Some 7
    ∧ Fp8RowwiseGroupedDynamic.output_buffer mem' !! 8%nat = Some 0
    ∧ Fp8RowwiseGroupedDynamic.output_buffer mem' !! 16%nat = Some 7.
Proof.
  intros prepad_M mem.
  destruct (set_kernel_args_fixed_nk_kernel_zeroing_zeroes_padding_rows
              1000 2000 3000 4000 5000 prepad_M 2 8 16 2)
    as (threads & Hthreads & Hrun); [lia|lia|lia|reflexivity|lia|reflexivity| |].
  { repeat constructor; lia. }
  vm_compute in Hthreads. injection Hthreads as <-.
  destruct (Hrun [1; 0; 3; 2]%nat mem) as (mem' & Hmem & _ & Hout);
    [solve_Permutation|reflexivity|reflexivity|].
  exists mem'. split; [exact Hmem|].
  split; [exact (Hout 0%nat 1 0 7 eq_refl ltac:(lia) ltac:(lia))|].
  split; [exact (Hout 0%nat 1 1 0 eq_refl ltac:(lia) ltac:(lia))|].
  exact (Hout 1%nat 2 0 0 eq_refl ltac:(lia) ltac:(lia)).
Defined.

Lemma set_kernel_args_fixed_nk_kernel_writes_group_records_witness :
  let prepad_M := [1; 2] in
  let mem :=
    Fp8RowwiseGroupedDynamic.mkDeviceMemory
      (replicate 2 (Fp8RowwiseGrouped.mkKernelArguments 0 0 (0, 0) 0 0 0 0
                      0 0 (0, 0) 0))
      (replicate 32 7) in
  ∃ args,
    Fp8RowwiseGroupedDynamic.run_threads
      (Fp8RowwiseGroupedDynamic.set_kernel_args_fixed_nk_kernel
         1000 2000 3000 4000 5000 prepad_M 2 8 16 2)
      mem [1; 0]%nat
    = Some (Fp8RowwiseGroupedDynamic.mkDeviceMemory args (replicate 32 7))
    ∧ args !! 1%nat
      = Some (Fp8RowwiseGrouped.mkKernelArguments 1032 2128 (3008, 4002)
                5016 2 8 16 16 16 (0, 0) 8).
Proof.
  intros prepad_M mem.
  destruct (set_kernel_args_fixed_nk_kernel_writes_group_records
              1000 2000 3000 4000 5000 prepad_M 2 8 16 2 eq_refl
              [1; 0]%nat mem)
    as (args & Hrun & _ & Hrec); [lia|solve_Permutation|reflexivity|].
  exists args. split; [exact Hrun|].
  exact (Hrec 1%nat 2 eq_refl).
Defined.

(** ** The argument set-up of the bf16 grouped GEMM *)

Lemma for_loop_app {S} (body : S → nat → option S) (s : S)
    (l1 l2 : list nat) :
  Device.for_loop body s (l1 ++ l2)
  = Device.for_loop body s l1 ≫= λ s', Device.for_loop body s' l2.
Proof.
  revert s. induction l1 as [|i l1 IH]; intros s; [done|].
  cbn [app Device.for_loop]. destruct (body s i) as [s'|]; [|done].
  cbn [mbind option_bind]. apply IH.
Qed.

Section set_static_kernel_args.
Import Device Bf16GroupedArgs.

Lemma output_offset_before_S (A B : list Matrix) (i : nat) (a b : Matrix) :
  A !! i = Some a → B !! i = Some b →
  output_offset_before A B (S i)
  = output_offset_before A B i + size_0 a * size_0 b.
Proof.
  intros Ha Hb. unfold output_offset_before.
  rewrite (take_S_r A i a Ha), (take_S_r B i b Hb).
  rewrite zip_with_app
    by (rewrite !length_take_le; [done|
        apply lookup_lt_Some in Hb; lia | apply lookup_lt_Some in Ha; lia]).
  rewrite foldr_app. cbn [zip_with foldr].
  generalize (zip_with (λ a0 b0, size_0 a0 * size_0 b0) (take i A) (take i B)).
  intros l. induction l as [|x l IH]; cbn [foldr]; lia.
Qed.

(** The vector the host path builds. *)
Lemma host_path_invariant (A B : list Matrix) (output : Z) (n : nat) :
  length B = length A → (n ≤ length A)%nat →
  ∃ ggemm_kargs,
    for_loop (λ (s : list KernelArguments * Z) i,
        let ggemm_kargs := s.1 in
        let output_offset := s.2 in
        a ← A !! i;
        b ← B !! i;
        let M := size_0 a in
        let K := size_1 a in
        let N := size_0 b in
        let group_args :=
          mkKernelArguments (data_ptr a) (data_ptr b)
            (output + output_offset) (to_int M) (to_int N)
            (to_int K) (to_int K) (to_int K) (to_int N) in
        Some (ggemm_kargs ++ [group_args], output_offset + M * N))
      ([], 0) (seq 0 n)
    = Some (ggemm_kargs, output_offset_before A B n)
    ∧ length ggemm_kargs = n
    ∧ ∀ i a b, (i < n)%nat → A !! i = Some a → B !! i = Some b →
        ggemm_kargs !! i
        = Some (static_group_args a b output (output_offset_before A B i)).
Proof.
  intros HB. induction n as [|n IH]; intros Hn.
  { exists []. split; [reflexivity|]. split; [reflexivity|]. intros; lia. }
  destruct IH as (v & Hrun & Hlen & Hlk); [lia|].
  destruct (lookup_lt_is_Some_2 A n ltac:(lia)) as [a Ha].
  destruct (lookup_lt_is_Some_2 B n ltac:(lia)) as [b Hb].
  exists (v ++ [static_group_args a b output (output_offset_before A B n)]).
  rewrite seq_S, for_loop_app, Hrun. cbn [mbind option_bind for_loop plus].
  rewrite Ha, Hb. cbn [mbind option_bind fst snd].
  rewrite (output_offset_before_S A B n a b Ha Hb).
  split; [reflexivity|]. split; [rewrite length_app; simpl; lia|].
  intros i a' b' Hi Ha' Hb'.
  destruct (decide (i = n)) as [->|Hne].
  - rewrite lookup_app_r by lia. rewrite Hlen, Nat.sub_diag.
    rewrite Ha in Ha'. rewrite Hb in Hb'.
    injection Ha' as <-. injection Hb' as <-. reflexivity.
  - rewrite lookup_app_l by lia. apply Hlk; [lia|done..].
Qed.

(** The argument array after the first [n] launches of the device
path. *)
Lemma device_path_invariant (kernel_args : list KernelArguments)
    (A B : list Matrix) (output : Z) (n : nat) :
  length B = length A → (n ≤ length A)%nat →
  (length A ≤ length kernel_args)%nat →
  ∃ final,
    for_loop (λ (s : list KernelArguments * Z) i,
        let kernel_args := s.1 in
        let output_offset := s.2 in
        a ← A !! i;
        b ← B !! i;
        let M := size_0 a in
        let K := size_1 a in
        let N := size_0 b in
        kernel_args' ← set_kernel_args_kernel kernel_args i
                          (data_ptr a) (data_ptr b)
                          (output + output_offset) M N K 0;
        Some (kernel_args', output_offset + M * N))
      (kernel_args, 0) (seq 0 n)
    = Some (final, output_offset_before A B n)
    ∧ length final = length kernel_args
    ∧ (∀ i a b, (i < n)%nat → A !! i = Some a → B !! i = Some b →
         final !! i
         = Some (static_group_args a b output (output_offset_before A B i)))
    ∧ ∀ i, (n ≤ i)%nat → final !! i = kernel_args !! i.
Proof.
  intros HB. induction n as [|n IH]; intros Hn Hroom.
  { exists kernel_args. split; [reflexivity|]. split; [reflexivity|].
    split; [intros; lia|done]. }
  destruct IH as (mem & Hrun & Hlen & Hlk & Hrest); [lia|done|].
  destruct (lookup_lt_is_Some_2 A n ltac:(lia)) as [a Ha].
  destruct (lookup_lt_is_Some_2 B n ltac:(lia)) as [b Hb].
  exists (<[n := static_group_args a b output (output_offset_before A B n)]>
            mem).
  rewrite seq_S, for_loop_app, Hrun. cbn [mbind option_bind for_loop plus].
  rewrite Ha, Hb. cbn [mbind option_bind fst snd].
  unfold set_kernel_args_kernel, store.
  rewrite decide_True by done. rewrite decide_True by lia.
  cbn [mbind option_bind]. rewrite Nat2Z.id.
  rewrite (output_offset_before_S A B n a b Ha Hb).
  split; [reflexivity|]. split; [by rewrite length_insert|]. split.
  - intros i a' b' Hi Ha' Hb'.
    destruct (decide (i = n)) as [->|Hne].
    + rewrite list_lookup_insert_eq by lia.
      rewrite Ha in Ha'. rewrite Hb in Hb'.
      injection Ha' as <-. injection Hb' as <-. reflexivity.
    + rewrite list_lookup_insert_ne by done. apply Hlk; [lia|done..].
  - intros i Hi. rewrite list_lookup_insert_ne by lia. apply Hrest. lia.
Qed.

(** X7: [set_static_kernel_args] fills the first [A.size()] slots of
the argument array with the records of the groups, in order; the output
pointer of a group is the output pointer plus the sum of M * N over the
groups before it, so the outputs are laid out back to back. The host
path (at least 16 groups on the default stream, one [hipMemcpy]) and the
device path (one launch per group) leave the same array, and the slots
beyond the groups keep their content. *)
Theorem set_static_kernel_args_paths_agree
    (kernel_args : list KernelArguments) (A B : list Matrix) (output : Z) :
  length B = length A → (length A ≤ length kernel_args)%nat →
  ∃ final,
    (∀ stream,
       set_static_kernel_args stream kernel_args A B output = Some final)
    ∧ length final = length kernel_args
    ∧ (∀ i a b, A !! i = Some a → B !! i = Some b →
         final !! i
         = Some (static_group_args a b output (output_offset_before A B i)))
    ∧ ∀ i, (length A ≤ i)%nat → final !! i = kernel_args !! i.
Proof.
  intros HB Hroom.
  destruct (host_path_invariant A B output (length A) HB ltac:(lia))
    as (v & Hhost & Hvlen & Hvlk).
  destruct (device_path_invariant kernel_args A B output (length A) HB
              ltac:(lia) Hroom) as (final & Hdev & Hflen & Hflk & Hfrest).
  exists final. split; [|split; [done|split; [|done]]].
  - intros stream. unfold set_static_kernel_args.
    cbv zeta. cbv zeta in Hhost, Hdev.
    destruct ((16 <=? Z.of_nat (length A)) && (stream =? 0)).
    + rewrite Hhost. cbn [mbind option_bind fst]. unfold hipMemcpy.
      rewrite decide_True by lia. f_equal.
      apply list_eq. intros i.
      destruct (decide (i < length A)%nat) as [Hi|Hi].
      * destruct (lookup_lt_is_Some_2 A i Hi) as [a Ha].
        destruct (lookup_lt_is_Some_2 B i ltac:(lia)) as [b Hb].
        rewrite lookup_app_l by (rewrite length_take; lia).
        rewrite lookup_take_lt by lia.
        rewrite (Hvlk i a b Hi Ha Hb). symmetry. by apply Hflk.
      * rewrite lookup_app_r by (rewrite length_take; lia).
        rewrite length_take, Nat.min_l by lia.
        rewrite lookup_drop, Hfrest by lia. f_equal. lia.
    + rewrite Hdev. reflexivity.
  - intros i a b Ha Hb. apply Hflk; [|done..].
    by apply lookup_lt_Some in Ha.
Qed.
End set_static_kernel_args.

Lemma set_static_kernel_args_paths_agree_witness :
  let A := (λ i, Bf16GroupedArgs.mkMatrix (100 * i) 2 4) <$> seqZ 0 16 in
  let B := (λ i, Bf16GroupedArgs.mkMatrix (1000 * i) 3 4) <$> seqZ 0 16 in
  let kernel_args :=
    replicate 17 (Bf16GroupedArgs.mkKernelArguments 0 0 0 0 0 0 0 0 0) in
  Bf16GroupedArgs.set_static_kernel_args 0 kernel_args A B 5000
  = Bf16GroupedArgs.set_static_kernel_args 7 kernel_args A B 5000
  ∧ (Bf16GroupedArgs.set_static_kernel_args 0 kernel_args A B 5000
     ≫= (.!! 2%nat))
    = Some (Bf16GroupedArgs.mkKernelArguments 200 2000 5012 2 3 4 4 4 3).
Proof.
  intros A B kernel_args.
  destruct (set_static_kernel_args_paths_agree kernel_args A B 5000)
    as (final & Hfinal & _ & Hrec & _); [reflexivity|vm_compute; lia|].
  rewrite !Hfinal. split; [reflexivity|].
  cbn [mbind option_bind].
  exact (Hrec 2%nat (Bf16GroupedArgs.mkMatrix 200 2 4)
           (Bf16GroupedArgs.mkMatrix 2000 3 4) eq_refl eq_refl).
Defined.

(** Threads that each store one record into the slot of their own
index leave, in any order, the records of the threads that ran. *)
Lemma for_loop_slot_writers {A} (kernel : list A → nat → option (list A))
    (writes : nat → Prop) `{!∀ i, Decision (writes i)}
    (record : nat → option A) (ok : nat → Prop) (n : nat)
    (schedule : list nat) (mem : list A) :
  (∀ mem t, ok t → length mem = n →
     ∃ mem', kernel mem t = Some mem' ∧ length mem' = n
             ∧ ∀ i, mem' !! i = if decide (i = t ∧ writes t) then record t
                                else mem !! i) →
  (∀ t, t ∈ schedule → ok t) → length mem = n →
  ∃ final,
    Device.for_loop kernel mem schedule = Some final
    ∧ length final = n
    ∧ ∀ i, final !! i = if decide (i ∈ schedule ∧ writes i) then record i
                        else mem !! i.
Proof.
  intros Hstep. revert mem.
  induction schedule as [|t rest IH]; intros mem Hok Hlen.
  { exists mem. split; [done|]. split; [done|].
    intros i. rewrite decide_False; [done|]. intros [[]%elem_of_nil _]. }
  destruct (Hstep mem t (Hok t (list_elem_of_here _ _)) Hlen)
    as (mem1 & Hrun1 & Hlen1 & Hlk1).
  destruct (IH mem1) as (final & Hrun & Hlenf & Hlk); [|done|].
  { intros t' Ht'. apply Hok. by apply list_elem_of_further. }
  exists final. cbn [Device.for_loop]. rewrite Hrun1.
  cbn [mbind option_bind]. split; [exact Hrun|]. split; [done|].
  intros i. rewrite Hlk, Hlk1.
  destruct (decide (i ∈ rest ∧ writes i)) as [[Hi Hw]|Hno];
    destruct (decide (i = t ∧ writes t)) as [[Heq Hw']|Hno'];
    destruct (decide (i ∈ t :: rest ∧ writes i)) as [[Hc Hw'']|Hnc];
    try subst i; try reflexivity; exfalso.
  - apply Hnc. split; [by apply list_elem_of_further|done].
  - apply Hnc. split; [by apply list_elem_of_further|done].
  - apply Hnc. split; [apply list_elem_of_here|done].
  - apply elem_of_cons in Hc as [->|Hc]; [by apply Hno'|by apply Hno].
Qed.

Section stacked_kernel_args.
Import Device Bf16GroupedArgs.
Variables A B output : Z.
Variable M_sizes : list Z.
Variables N K group_count : Z.
Hypothesis Hlen : Z.of_nat (length M_sizes) = group_count.

Local Notation "'m_sizes_kernel'" :=
  (set_kernel_args_m_sizes_kernel A B output M_sizes N K group_count).
Local Notation "'group_args'" :=
  (stacked_group_args A B output M_sizes N K).

(** The loop that sums the sizes of the earlier groups. *)
Lemma offset_M_loop (t : nat) :
  (t ≤ length M_sizes)%nat →
  for_loop (λ offset_M i, m ← M_sizes !! i; Some (offset_M + m)) 0 (seq 0 t)
  = Some (foldr Z.add 0 (take t M_sizes)).
Proof.
  induction t as [|t IH]; intros Ht; [done|].
  destruct (lookup_lt_is_Some_2 M_sizes t ltac:(lia)) as [m Hm].
  rewrite seq_S, for_loop_app, IH by lia.
  cbn [mbind option_bind for_loop plus]. rewrite Hm.
  cbn [mbind option_bind]. f_equal.
  rewrite (take_S_r M_sizes t m Hm), foldr_app. cbn [foldr].
  generalize (take t M_sizes). intros l.
  induction l as [|x l IHl]; cbn [foldr]; lia.
Qed.

Lemma m_sizes_thread_spec (mem : list KernelArguments) (t : nat) :
  Z.of_nat t < 2 ^ 31 → length mem = length M_sizes →
  ∃ mem',
    m_sizes_kernel mem t = Some mem'
    ∧ length mem' = length M_sizes
    ∧ ∀ i, mem' !! i
           = if decide (i = t ∧ Z.of_nat t < group_count) then
               group_args t <$> M_sizes !! t
             else mem !! i.
Proof.
  intros Ht Hmem. unfold set_kernel_args_m_sizes_kernel. cbv zeta.
  rewrite (to_int_small (Z.of_nat t)) by lia.
  destruct (Z.ltb_spec (Z.of_nat t) group_count) as [Hlt|Hge].
  - destruct (lookup_lt_is_Some_2 M_sizes t ltac:(lia)) as [m Hm].
    unfold load, store. rewrite decide_True by lia.
    rewrite !Nat2Z.id, Hm. cbn [mbind option_bind].
    rewrite offset_M_loop by lia. cbn [mbind option_bind].
    rewrite decide_True by lia.
    eexists. split; [reflexivity|]. split; [by rewrite length_insert|].
    intros i. destruct (decide (i = t ∧ _)) as [[-> _]|Hno].
    + rewrite list_lookup_insert_eq by lia. reflexivity.
    + rewrite list_lookup_insert_ne by (intros ->; apply Hno; done).
      reflexivity.
  - exists mem. split; [done|]. split; [done|].
    intros i. rewrite decide_False by lia. reflexivity.
Qed.

(** X8: the stacked set-up kernel, launched with one thread per group,
leaves in slot i the record of group i, whatever order the threads run
in, and a group of size zero gets its record as well. The rows of a
group start after the rows of the groups before it: the A and output
pointers of consecutive groups differ by M_i * K and M_i * N elements.
A block holds at most 1024 threads. *)
Theorem set_kernel_args_m_sizes_kernel_stacks_groups
    (schedule : list nat) (mem : list KernelArguments) :
  0 ≤ group_count ≤ 1024 →
  schedule ≡ₚ threads group_count →
  length mem = length M_sizes →
  ∃ final,
    for_loop m_sizes_kernel mem schedule = Some final
    ∧ length final = length M_sizes
    ∧ (∀ i m, M_sizes !! i = Some m →
         final !! i = Some (group_args i m)
         ∧ karg_M (group_args i m) = to_int m
         ∧ p_b_grid (group_args i m) = B + Z.of_nat i * N * K)
    ∧ ∀ i m m', M_sizes !! i = Some m → M_sizes !! S i = Some m' →
        p_a_grid (group_args (S i) m') = p_a_grid (group_args i m) + m * K
        ∧ p_e_grid (group_args (S i) m')
          = p_e_grid (group_args i m) + m * N.
Proof.
  intros HG Hperm Hmem.
  assert (∀ t : nat, t ∈ schedule ↔ Z.of_nat t < group_count) as Hsched.
  { intros t. rewrite Hperm. unfold threads, launch_threads.
    rewrite elem_of_seq. lia. }
  destruct (for_loop_slot_writers m_sizes_kernel
              (λ t, Z.of_nat t < group_count)
              (λ t, group_args t <$> M_sizes !! t)
              (λ t, Z.of_nat t < 2 ^ 31) (length M_sizes) schedule mem)
    as (final & Hrun & Hlenf & Hlk).
  { intros mem0 t Ht Hmem0. by apply m_sizes_thread_spec. }
  { intros t Ht%Hsched. lia. }
  { done. }
  exists final. split; [exact Hrun|]. split; [exact Hlenf|]. split.
  - intros i m Hm. split; [|done].
    pose proof (lookup_lt_Some _ _ _ Hm) as Hi.
    rewrite Hlk, decide_True; [by rewrite Hm|].
    split; [apply Hsched; lia|lia].
  - intros i m m' Hm Hm'. unfold stacked_group_args.
    cbn [p_a_grid p_e_grid].
    rewrite (take_S_r M_sizes i m Hm), foldr_app. cbn [foldr].
    assert (∀ l x, foldr Z.add (x + 0) l = foldr Z.add 0 l + x) as Hsum.
    { intros l x. induction l as [|y l IHl]; cbn [foldr]; lia. }
    rewrite Hsum. lia.
Qed.
End stacked_kernel_args.

Lemma set_kernel_args_m_sizes_kernel_stacks_groups_witness :
  let kernel_args :=
    replicate 3 (Bf16GroupedArgs.mkKernelArguments 0 0 0 0 0 0 0 0 0) in
  ∃ final,
    Device.for_loop
      (Bf16GroupedArgs.set_kernel_args_m_sizes_kernel 1000 2000 3000
         [5; 0; 3] 512 1024 3)
      kernel_args [2; 0; 1]%nat = Some final
    ∧ final !! 1%nat
      = Some (Bf16GroupedArgs.mkKernelArguments 6120 526288 5560 0 512
                1024 1024 1024 512).
Proof.
  intros kernel_args.
  destruct (set_kernel_args_m_sizes_kernel_stacks_groups 1000 2000 3000
              [5; 0; 3] 512 1024 3 eq_refl [2; 0; 1]%nat kernel_args)
    as (final & Hrun & _ & Hrec & _);
    [lia|vm_compute; solve_Permutation|reflexivity|].
  exists final. split; [exact Hrun|].
  exact (proj1 (Hrec 1%nat 0 eq_refl)).
Defined.

(** ** [nextPow2] of the bf16 grouped heuristic *)

(** X9: [nextPow2] returns 1 for every [num] up to 1. For a larger
[num] (with a nonzero low word of [num - 1], where [__builtin_clz] is
defined) the count by which it shifts the [int] constant 1 is
[64 - clz], between 33 and 64: never a count below 32, for which the
shift of a 32-bit [int] is defined. *)
Theorem nextPow2_shift_count (num : Z) :
  (num ≤ 1 → Bf16GroupedArgs.nextPow2 num = Some 1)
  ∧ (1 < num → Bf16GroupedArgs.to_unsigned (num - 1) ≠ 0 →
     ∃ shift,
       Bf16GroupedArgs.nextPow2_shift num = Some shift
       ∧ 33 ≤ shift ≤ 64
       ∧ Bf16GroupedArgs.int_shl 1 shift = None
       ∧ Bf16GroupedArgs.nextPow2 num = None).
Proof.
  unfold Bf16GroupedArgs.nextPow2, Bf16GroupedArgs.nextPow2_shift,
    Bf16GroupedArgs.builtin_clz, Bf16GroupedArgs.int_shl,
    Bf16GroupedArgs.CHAR_BIT, Bf16GroupedArgs.sizeof_num.
  split.
  - intros Hle. by rewrite (proj2 (Z.leb_le _ _) Hle).
  - intros Hgt Hnz. rewrite (proj2 (Z.leb_gt _ _) Hgt).
    rewrite decide_False by done. cbn [mbind option_bind].
    set (x := Bf16GroupedArgs.to_unsigned (num - 1)) in *.
    assert (0 < x < 2 ^ 32) as Hx.
    { pose proof (Z.mod_pos_bound (num - 1) (2 ^ 32) ltac:(lia)) as Hb.
      unfold x, Bf16GroupedArgs.to_unsigned in *. lia. }
    assert (0 ≤ Z.log2 x < 32) as Hlog.
    { split; [apply Z.log2_nonneg|]. apply Z.log2_lt_pow2; lia. }
    eexists. split; [reflexivity|]. split; [lia|].
    rewrite decide_False by lia. done.
Qed.

(** ** The fallback kernel of the rowwise heuristic *)

(** X10: whatever N and K are, the instance that the fallback kernel
[fp8fp8bf16_rowwise_64x16x16x256_..._intrawave_v1] calls has two equal
trailing vector widths, 16, 8, 2 or 1, that divide K, and the first
entry of its last sequence is 4 only when 4 divides N and 1 otherwise;
the tile sizes and the pipeline are the same on every branch. So the
kernel has an instance for every shape, also one the heuristic sends
to it because 8 does not divide N or 16 does not divide K. *)
Theorem fallback_kernel_widths_divide (N K : Z) :
  let i :=
    Fp8RowwiseKernels.fp8fp8bf16_rowwise_64x16x16x256_16x16_1x1_16x4x1_16x4x1_1x4x1x16_4x4x1_1x1_intrawave_v1
      N K in
  Fp8RowwiseKernels.width_0 i = Fp8RowwiseKernels.width_1 i
  ∧ Fp8RowwiseKernels.width_0 i ∈ [16; 8; 2; 1]
  ∧ K `rem` Fp8RowwiseKernels.width_0 i = 0
  ∧ (∃ w, Fp8RowwiseKernels.S_3 i = [w; w; 1] ∧ N `rem` w = 0
          ∧ (w = 4 ∨ w = 1))
  ∧ Fp8RowwiseKernels.tile i = [64; 16; 16; 256; 16; 16; 1; 1]
  ∧ Fp8RowwiseKernels.scheduler i = Fp8RowwiseKernels.Intrawave
  ∧ Fp8RowwiseKernels.version i = Fp8RowwiseKernels.v1.
Proof.
  cbv zeta.
  unfold Fp8RowwiseKernels.fp8fp8bf16_rowwise_64x16x16x256_16x16_1x1_16x4x1_16x4x1_1x4x1x16_4x4x1_1x1_intrawave_v1.
  assert (∀ x, x `rem` 256 = 0 → x `rem` 16 = 0) as H256.
  { intros x Hx. pose proof (Z.quot_rem' x 256) as Hq. rewrite Hx in Hq.
    apply Z.rem_divide; [lia|]. exists (16 * (x `quot` 256)). lia. }
  destruct (Z.eqb_spec (N `rem` 4) 0) as [HN|HN];
    destruct (Z.eqb_spec (K `rem` 256) 0) as [H1|H1];
    destruct (Z.eqb_spec (K `rem` 16) 0) as [H2|H2];
    destruct (Z.eqb_spec (K `rem` 8) 0) as [H3|H3];
    destruct (Z.eqb_spec (K `rem` 2) 0) as [H4|H4];
    cbn [andb Fp8RowwiseKernels.width_0 Fp8RowwiseKernels.width_1
         Fp8RowwiseKernels.S_3 Fp8RowwiseKernels.tile
         Fp8RowwiseKernels.scheduler Fp8RowwiseKernels.version].
  all: split; [reflexivity|].
  all: split; [set_solver|].
  all: split; [first [done | by apply H256 | apply Z.rem_1_r]|].
  all: split; [|done].
  all: eexists; split; [reflexivity|]; split;
    [first [done | apply Z.rem_1_r] | auto].
Qed.

(** ** Empty problems in the grouped entry points *)

Lemma launches_nothing_bind {A B} (m : Eff A) (k : A → Eff B)
    (P : B → Prop) :
  only_checks m → (∀ a, outcome m = Ok a → launches_nothing (k a) P) →
  launches_nothing (m ≫= k) P.
Proof.
  intros [Hlog HnF] Hk. destruct m as [l [a|msg|]]; simpl in *; subst.
  - destruct (Hk a eq_refl) as [Hl Hf].
    unfold launches_nothing, mbind, Eff_bind. simpl. by rewrite Hl.
  - done.
  - done.
Qed.

Lemma launches_nothing_mret {A} (a : A) (P : A → Prop) :
  P a → launches_nothing (mret a) P.
Proof. done. Qed.

Lemma launches_nothing_throw {A} (msg : string) (P : A → Prop) :
  launches_nothing (throw msg) P.
Proof. done. Qed.

Ltac only_checks_steps :=
  repeat first
    [ apply only_checks_TORCH_CHECK
    | apply only_checks_size
    | apply only_checks_mret
    | apply only_checks_throw
    | apply only_checks_fmap
    | apply only_checks_TORCH_CHECK_
    | apply only_checks_and_then; [|intros _]
    | apply only_checks_bind; [|intros ? _] ].

Section grouped_empty.
Import Fp8RowwiseGrouped.
Variable arch : GPUArch.
Variable rowwise_grouped_heuristic_dispatch : Z → Z → Z → Z → string.
Variable get_kernel_via_heuristic : Z → Z → Z → string.
Variable FBGEMM_AUTOTUNE_ENABLE : bool.
Variable latency : string → Z.
Variable get_fp8_rowwise_grouped_kernels : list string.

Lemma only_checks_shapes (XQ WQ x_scale w_scale : Tensor)
    (offsets : option Tensor) (out : Tensor) :
  only_checks (shapes_2D3D XQ WQ x_scale w_scale offsets out)
  ∧ only_checks (shapes_3D2D XQ WQ x_scale w_scale offsets out)
  ∧ only_checks (shapes_3D3D XQ WQ x_scale w_scale offsets out)
  ∧ only_checks (shapes_2D2D XQ WQ x_scale w_scale offsets out).
Proof.
  unfold shapes_2D3D, shapes_3D2D, shapes_3D3D, shapes_2D2D, size_is.
  destruct offsets; repeat split; only_checks_steps.
Qed.

Lemma f8f8bf16_rowwise_grouped_mm_empty (cache : gmap string string)
    (XQ WQ x_scale w_scale : Tensor) (offsets : option Tensor)
    (out : Tensor) :
  numel out = 0 →
  launches_nothing
    (f8f8bf16_rowwise_grouped_mm arch get_kernel_via_heuristic
       FBGEMM_AUTOTUNE_ENABLE latency get_fp8_rowwise_grouped_kernels
       cache XQ WQ x_scale w_scale offsets out)
    (λ r, r = (out, cache)).
Proof.
  intros Hempty. unfold f8f8bf16_rowwise_grouped_mm.
  destruct (only_checks_shapes XQ WQ x_scale w_scale offsets out)
    as (H1 & H2 & H3 & H4).
  apply launches_nothing_bind;
    [apply only_checks_validate_inputs_common|intros _ _].
  apply launches_nothing_bind.
  { repeat case_match; only_checks_steps; done. }
  intros [[[[G M] N] K] inputType] _.
  rewrite Hempty. by apply launches_nothing_mret.
Qed.

Lemma f8f8bf16_rowwise_grouped_stacked_empty
    (XQ WQ x_scale w_scale M_sizes : Tensor) (G : Z) :
  sizes M_sizes !! 0%nat = Some G → G ≠ 0 →
  sizes XQ !! 0%nat = Some 0 →
  launches_nothing
    (f8f8bf16_rowwise_grouped_stacked arch
       rowwise_grouped_heuristic_dispatch XQ WQ x_scale w_scale M_sizes)
    (λ Y, ∃ N, sizes WQ !! 1%nat = Some N
               ∧ Y = empty [0; N] XQ kBFloat16).
Proof.
  intros HG HG0 HM. unfold f8f8bf16_rowwise_grouped_stacked.
  rewrite (size_lookup M_sizes 0 G ltac:(lia) HG), mret_bind.
  rewrite (size_lookup XQ 0 0 ltac:(lia) HM), mret_bind.
  apply launches_nothing_bind; [apply only_checks_size|].
  intros N HN%(size_Ok WQ 1 N 1); [|done].
  apply launches_nothing_bind; [apply only_checks_size|]. intros K _.
  apply launches_nothing_bind;
    [apply only_checks_validate_inputs_common|intros _ _].
  apply launches_nothing_bind.
  { unfold size_is. only_checks_steps. by apply only_checks_cdiv. }
  intros _ _.
  apply launches_nothing_bind; [apply only_checks_TORCH_CHECK|intros _ _].
  apply launches_nothing_bind; [apply only_checks_TORCH_CHECK|intros _ _].
  apply launches_nothing_bind.
  { unfold size_ge. only_checks_steps. }
  intros _ _. cbv zeta. rewrite Z.eqb_refl.
  apply launches_nothing_mret. by exists N.
Qed.

Lemma f8f8bf16_rowwise_grouped_dynamic_empty
    (XQ WQ x_scale w_scale zero_start_index_M : Tensor)
    (zeroing_output_tensor : bool) (G : Z) :
  sizes XQ !! 0%nat = Some G → G ≠ 0 →
  sizes XQ !! 1%nat = Some 0 →
  launches_nothing
    (f8f8bf16_rowwise_grouped_dynamic arch
       rowwise_grouped_heuristic_dispatch XQ WQ x_scale w_scale
       zero_start_index_M zeroing_output_tensor)
    (λ Y, ∃ N, sizes WQ !! 1%nat = Some N
               ∧ Y = empty [G; 0; N] XQ kBFloat16).
Proof.
  intros HG HG0 HM. unfold f8f8bf16_rowwise_grouped_dynamic.
  rewrite (size_lookup XQ 0 G ltac:(lia) HG), mret_bind.
  rewrite (size_lookup XQ 1 0 ltac:(lia) HM), mret_bind.
  apply launches_nothing_bind; [apply only_checks_size|].
  intros N HN%(size_Ok WQ 1 N 1); [|done].
  apply launches_nothing_bind; [apply only_checks_size|]. intros K _.
  apply launches_nothing_bind.
  { unfold size_is. only_checks_steps; by apply only_checks_cdiv. }
  intros _ _.
  apply launches_nothing_bind;
    [apply only_checks_validate_inputs_common|intros _ _].
  apply launches_nothing_bind; [apply only_checks_TORCH_CHECK|intros _ _].
  apply launches_nothing_bind; [apply only_checks_TORCH_CHECK|intros _ _].
  apply launches_nothing_bind.
  { unfold size_ge. only_checks_steps. }
  intros _ _. cbv zeta.
  replace (numel (empty [G; 0; N] XQ kBFloat16) =? 0) with true
    by (unfold numel; cbn [sizes empty foldr]; symmetry; apply Z.eqb_eq; lia).
  apply launches_nothing_mret. by exists N.
Qed.
End grouped_empty.

Lemma bf16bf16bf16_grouped_stacked_empty
    (grouped_heuristic_dispatch : Z → Z → Z → Z → string)
    (X W M_sizes : Tensor) :
  sizes X !! 0%nat = Some 0 →
  launches_nothing
    (Bf16Grouped.bf16bf16bf16_grouped_stacked grouped_heuristic_dispatch
       X W M_sizes)
    (λ Y, ∃ N, sizes W !! 1%nat = Some N ∧ Y = empty [0; N] X kBFloat16).
Proof.
  intros HM. unfold Bf16Grouped.bf16bf16bf16_grouped_stacked.
  apply launches_nothing_bind; [apply only_checks_size|]. intros G _.
  rewrite (size_lookup X 0 0 ltac:(lia) HM), mret_bind.
  apply launches_nothing_bind; [apply only_checks_size|].
  intros N HN%(size_Ok W 1 N 1); [|done].
  apply launches_nothing_bind; [apply only_checks_size|]. intros K _.
  apply launches_nothing_bind; [only_checks_steps|intros _ _].
  do 6 (apply launches_nothing_bind;
        [apply only_checks_TORCH_CHECK|intros _ _]).
  apply launches_nothing_bind; [only_checks_steps|intros _ _].
  do 2 (apply launches_nothing_bind;
        [apply only_checks_TORCH_CHECK|intros _ _]).
  cbv zeta. rewrite Z.eqb_refl.
  apply launches_nothing_mret. by exists N.
Qed.

(** X11: a grouped call on an empty problem launches nothing. When
[out] has no element, [f8f8bf16_rowwise_grouped_mm] selects and
launches no kernel and, unless a check throws, returns [out] itself and
leaves the tuning cache as it was. When the stacked input has no row,
[f8f8bf16_rowwise_grouped_stacked] and [bf16bf16bf16_grouped_stacked]
return, unless a check throws, the empty [0 x N] output they allocated;
so does [f8f8bf16_rowwise_grouped_dynamic] with its [G x 0 x N] output
when M is zero. None of these calls faults when there is a group. *)
Theorem grouped_entry_points_empty_problem
    (arch : Fp8RowwiseGrouped.GPUArch)
    (heuristic_dispatch : Z → Z → Z → Z → string)
    (get_kernel_via_heuristic : Z → Z → Z → string)
    (FBGEMM_AUTOTUNE_ENABLE : bool) (latency : string → Z)
    (kernels : list string) :
  (∀ cache XQ WQ x_scale w_scale offsets out,
     numel out = 0 →
     launches_nothing
       (Fp8RowwiseGrouped.f8f8bf16_rowwise_grouped_mm arch
          get_kernel_via_heuristic FBGEMM_AUTOTUNE_ENABLE latency kernels
          cache XQ WQ x_scale w_scale offsets out)
       (λ r, r = (out, cache)))
  ∧ (∀ XQ WQ x_scale w_scale M_sizes G,
       sizes M_sizes !! 0%nat = Some G → G ≠ 0 →
       sizes XQ !! 0%nat = Some 0 →
       launches_nothing
         (Fp8RowwiseGrouped.f8f8bf16_rowwise_grouped_stacked arch
            heuristic_dispatch XQ WQ x_scale w_scale M_sizes)
         (λ Y, ∃ N, sizes WQ !! 1%nat = Some N
                    ∧ Y = empty [0; N] XQ kBFloat16))
  ∧ (∀ XQ WQ x_scale w_scale zero_start_index_M zeroing_output_tensor G,
       sizes XQ !! 0%nat = Some G → G ≠ 0 →
       sizes XQ !! 1%nat = Some 0 →
       launches_nothing
         (Fp8RowwiseGrouped.f8f8bf16_rowwise_grouped_dynamic arch
            heuristic_dispatch XQ WQ x_scale w_scale zero_start_index_M
            zeroing_output_tensor)
         (λ Y, ∃ N, sizes WQ !! 1%nat = Some N
                    ∧ Y = empty [G; 0; N] XQ kBFloat16))
  ∧ (∀ X W M_sizes,
       sizes X !! 0%nat = Some 0 →
       launches_nothing
         (Bf16Grouped.bf16bf16bf16_grouped_stacked heuristic_dispatch
            X W M_sizes)
         (λ Y, ∃ N, sizes W !! 1%nat = Some N
                    ∧ Y = empty [0; N] X kBFloat16)).
Proof.
  split; [|split; [|split]].
  - intros. by apply f8f8bf16_rowwise_grouped_mm_empty.
  - intros. by eapply f8f8bf16_rowwise_grouped_stacked_empty.
  - intros. by eapply f8f8bf16_rowwise_grouped_dynamic_empty.
  - intros. by apply bf16bf16bf16_grouped_stacked_empty.
Qed.

Lemma grouped_entry_points_empty_problem_witness :
  let XQ := mkTensor kFloat8_e4m3fnuz true true 0 [0; 1024] Data in
  let WQ := mkTensor kFloat8_e4m3fnuz true true 0 [3; 512; 1024] Data in
  let x_scale := mkTensor kFloat true true 0 [0] Data in
  let w_scale := mkTensor kFloat true true 0 [3; 512] Data in
  let M_sizes := mkTensor kLong true true 0 [3] Data in
  let call :=
    Fp8RowwiseGrouped.f8f8bf16_rowwise_grouped_stacked
      Fp8RowwiseGrouped.gfx942 (λ _ _ _ _, "selected")
      XQ WQ x_scale w_scale M_sizes in
  launches_nothing call
    (λ Y, ∃ N, sizes WQ !! 1%nat = Some N ∧ Y = empty [0; N] XQ kBFloat16)
  ∧ outcome call = Ok (empty [0; 512] XQ kBFloat16).
Proof.
  intros XQ WQ x_scale w_scale M_sizes call. split.
  - apply (proj1 (proj2 (grouped_entry_points_empty_problem
             Fp8RowwiseGrouped.gfx942 (λ _ _ _ _, "selected")
             (λ _ _ _, "selected") false (λ _, 0) [])) XQ WQ x_scale
             w_scale M_sizes 3); [reflexivity|lia|reflexivity].
  - vm_compute. reflexivity.
Defined.

(** ** Grouped calls without a group *)

Section grouped_zero_groups.
Import Fp8RowwiseGrouped.
Variable arch : GPUArch.
Variable rowwise_grouped_heuristic_dispatch : Z → Z → Z → Z → string.
Variable get_kernel_via_heuristic : Z → Z → Z → string.
Variable FBGEMM_AUTOTUNE_ENABLE : bool.
Variable latency : string → Z.
Variable get_fp8_rowwise_grouped_kernels : list string.

Lemma f8f8bf16_rowwise_grouped_dynamic_zero_groups
    (XQ WQ x_scale w_scale zero_start_index_M : Tensor)
    (zeroing_output_tensor : bool) (M N K : Z) :
  sizes XQ !! 0%nat = Some 0 → sizes XQ !! 1%nat = Some M →
  sizes WQ !! 0%nat = Some 0 → sizes WQ !! 1%nat = Some N →
  sizes WQ !! 2%nat = Some K →
  f8f8bf16_rowwise_grouped_dynamic arch rowwise_grouped_heuristic_dispatch
    XQ WQ x_scale w_scale zero_start_index_M zeroing_output_tensor
  = mkEff [] Fault.
Proof.
  intros HG HM HWG HN HK.
  unfold f8f8bf16_rowwise_grouped_dynamic, size_is.
  rewrite (size_lookup XQ 0 0 ltac:(lia) HG), mret_bind.
  rewrite (size_lookup XQ 1 M ltac:(lia) HM), mret_bind.
  rewrite (size_lookup WQ 1 N ltac:(lia) HN), mret_bind.
  rewrite (size_lookup WQ 2 K ltac:(lia) HK), mret_bind.
  rewrite (size_lookup WQ 0 0 ltac:(lia) HWG).
  reflexivity.
Qed.

Lemma f8f8bf16_rowwise_grouped_stacked_zero_groups
    (XQ WQ x_scale w_scale M_sizes : Tensor) (total_M N K : Z) :
  validate_inputs_common arch XQ WQ x_scale w_scale = mret tt →
  sizes M_sizes !! 0%nat = Some 0 →
  sizes XQ !! 0%nat = Some total_M → sizes XQ !! 1%nat = Some K →
  sizes WQ !! 0%nat = Some 0 → sizes WQ !! 1%nat = Some N →
  numel x_scale = total_M →
  f8f8bf16_rowwise_grouped_stacked arch rowwise_grouped_heuristic_dispatch
    XQ WQ x_scale w_scale M_sizes
  = mkEff [] Fault.
Proof.
  intros Hvalid HG HM HK HWG HN Hx.
  unfold f8f8bf16_rowwise_grouped_stacked, size_is.
  rewrite (size_lookup M_sizes 0 0 ltac:(lia) HG), mret_bind.
  rewrite (size_lookup XQ 0 total_M ltac:(lia) HM), mret_bind.
  rewrite (size_lookup WQ 1 N ltac:(lia) HN), mret_bind.
  rewrite (size_lookup XQ 1 K ltac:(lia) HK), mret_bind.
  rewrite Hvalid, mret_bind.
  rewrite (size_lookup WQ 0 0 ltac:(lia) HWG).
  rewrite Hx, Z.eqb_refl.
  reflexivity.
Qed.

Lemma f8f8bf16_rowwise_grouped_mm_zero_groups (cache : gmap string string)
    (XQ WQ x_scale w_scale offs out : Tensor) (M N K : Z) :
  validate_inputs_common arch XQ WQ x_scale w_scale = mret tt →
  dtype offs = kInt → sizes offs = [0] →
  sizes XQ = [M; K] → sizes WQ = [0; N; K] →
  sizes x_scale = [M] → sizes w_scale = [0; N] → sizes out = [M; N] →
  M ≠ 0 → N ≠ 0 →
  f8f8bf16_rowwise_grouped_mm arch get_kernel_via_heuristic
    FBGEMM_AUTOTUNE_ENABLE latency get_fp8_rowwise_grouped_kernels
    cache XQ WQ x_scale w_scale (Some offs) out
  = mkEff [Launch "set_kernel_args"] Fault.
Proof.
  intros Hvalid Hty Hoffs HXQ HWQ Hxs Hws Hout HM HN.
  unfold f8f8bf16_rowwise_grouped_mm.
  rewrite Hvalid, mret_bind.
  unfold dim at 1 2. rewrite HXQ, HWQ. cbn [length Z.of_nat].
  change ((Z.of_nat 2 =? 2) && (Z.of_nat 3 =? 3)) with true. cbv iota.
  unfold shapes_2D3D, size_is.
  rewrite Hty, bool_decide_eq_true_2 by done. rewrite TORCH_CHECK_true.
  rewrite (size_lookup offs 0 0) by (rewrite ?Hoffs; done || lia).
  rewrite mret_bind.
  rewrite (size_lookup XQ 0 M) by (rewrite ?HXQ; done || lia).
  rewrite mret_bind.
  rewrite (size_lookup WQ 1 N) by (rewrite ?HWQ; done || lia).
  rewrite mret_bind.
  rewrite (size_lookup WQ 2 K) by (rewrite ?HWQ; done || lia).
  rewrite mret_bind.
  rewrite (size_lookup XQ 1 K) by (rewrite ?HXQ; done || lia).
  rewrite (size_lookup WQ 0 0) by (rewrite ?HWQ; done || lia).
  rewrite (size_lookup x_scale 0 M) by (rewrite ?Hxs; done || lia).
  rewrite (size_lookup w_scale 0 0) by (rewrite ?Hws; done || lia).
  rewrite (size_lookup w_scale 1 N) by (rewrite ?Hws; done || lia).
  rewrite (size_lookup out 0 M) by (rewrite ?Hout; done || lia).
  rewrite (size_lookup out 1 N) by (rewrite ?Hout; done || lia).
  unfold dim, numel. rewrite Hout. cbn [length Z.of_nat foldr].
  unfold fmap, Eff_fmap, and_then, TORCH_CHECK_.
  repeat first
    [ rewrite Z.eqb_refl
    | rewrite mret_bind
    | rewrite TORCH_CHECK_true
    | progress change (Z.of_nat 2 =? 2) with true
    | progress cbn [andb]
    | progress cbv iota beta ].
  replace (M * (N * 1) =? 0) with false by (symmetry; apply Z.eqb_neq; nia).
  reflexivity.
Qed.

(** X12: the grouped FP8 entry points divide by the group count. With
no group (a leading size of zero where the count is read, and weights
with a leading size of zero) the call performs an integer division by
zero: [f8f8bf16_rowwise_grouped_dynamic] in its first check, before
any validation; [f8f8bf16_rowwise_grouped_stacked] in its group check,
when the inputs are otherwise valid and [x_scale] has one entry per
row, also for an empty input; [f8f8bf16_rowwise_grouped_mm] on 2D-3D
inputs with a non-empty [out], after it has launched
[set_kernel_args]. *)
Theorem grouped_entry_points_divide_by_group_count :
  (∀ XQ WQ x_scale w_scale zero_start_index_M zeroing_output_tensor M N K,
     sizes XQ !! 0%nat = Some 0 → sizes XQ !! 1%nat = Some M →
     sizes WQ !! 0%nat = Some 0 → sizes WQ !! 1%nat = Some N →
     sizes WQ !! 2%nat = Some K →
     f8f8bf16_rowwise_grouped_dynamic arch
       rowwise_grouped_heuristic_dispatch XQ WQ x_scale w_scale
       zero_start_index_M zeroing_output_tensor
     = mkEff [] Fault)
  ∧ (∀ XQ WQ x_scale w_scale M_sizes total_M N K,
       validate_inputs_common arch XQ WQ x_scale w_scale = mret tt →
       sizes M_sizes !! 0%nat = Some 0 →
       sizes XQ !! 0%nat = Some total_M → sizes XQ !! 1%nat = Some K →
       sizes WQ !! 0%nat = Some 0 → sizes WQ !! 1%nat = Some N →
       numel x_scale = total_M →
       f8f8bf16_rowwise_grouped_stacked arch
         rowwise_grouped_heuristic_dispatch XQ WQ x_scale w_scale M_sizes
       = mkEff [] Fault)
  ∧ (∀ cache XQ WQ x_scale w_scale offs out M N K,
       validate_inputs_common arch XQ WQ x_scale w_scale = mret tt →
       dtype offs = kInt → sizes offs = [0] →
       sizes XQ = [M; K] → sizes WQ = [0; N; K] →
       sizes x_scale = [M] → sizes w_scale = [0; N] →
       sizes out = [M; N] → M ≠ 0 → N ≠ 0 →
       f8f8bf16_rowwise_grouped_mm arch get_kernel_via_heuristic
         FBGEMM_AUTOTUNE_ENABLE latency get_fp8_rowwise_grouped_kernels
         cache XQ WQ x_scale w_scale (Some offs) out
       = mkEff [Launch "set_kernel_args"] Fault).
Proof.
  split; [|split].
  - intros. by eapply f8f8bf16_rowwise_grouped_dynamic_zero_groups.
  - intros. by eapply f8f8bf16_rowwise_grouped_stacked_zero_groups.
  - intros. by eapply f8f8bf16_rowwise_grouped_mm_zero_groups.
Qed.
End grouped_zero_groups.

Lemma grouped_entry_points_divide_by_group_count_witness :
  let XQ := mkTensor kFloat8_e4m3fnuz true true 0 [0; 1024] Data in
  let WQ := mkTensor kFloat8_e4m3fnuz true true 0 [0; 512; 1024] Data in
  let x_scale := mkTensor kFloat true true 0 [0] Data in
  let w_scale := mkTensor kFloat true true 0 [0; 512] Data in
  let M_sizes := mkTensor kLong true true 0 [0] Data in
  Fp8RowwiseGrouped.f8f8bf16_rowwise_grouped_stacked
    Fp8RowwiseGrouped.gfx942 (λ _ _ _ _, "selected")
    XQ WQ x_scale w_scale M_sizes
  = mkEff [] Fault.
Proof.
  intros XQ WQ x_scale w_scale M_sizes.
  apply (proj1 (proj2 (grouped_entry_points_divide_by_group_count
           Fp8RowwiseGrouped.gfx942 (λ _ _ _ _, "selected")
           (λ _ _ _, "selected") false (λ _, 0) []))
           XQ WQ x_scale w_scale M_sizes 0 512 1024); reflexivity.
Defined.

(** ** Shapes with a family table *)

Lemma find_None {A} (f : A → bool) (l : list A) :
  (∀ x, x ∈ l → f x = false) → List.find f l = None.
Proof.
  induction l as [|x l IH]; intros Hall; [done|]. simpl.
  rewrite (Hall x (list_elem_of_here _ _)). apply IH.
  intros y Hy. apply Hall. by apply list_elem_of_further.
Qed.

(** No key of the exact table has the (N, K) of a family table. *)
Lemma rowwise_lookup_dispatch_family_free :
  forallb (λ e : Z * Z * Z * string,
             negb (bool_decide ((e.1.1.2, e.1.2)
                                ∈ (fst <$> Fp8Rowwise.NK_lookup_table))))
    Fp8Rowwise.rowwise_lookup_dispatch = true.
Proof. vm_compute. reflexivity. Qed.

(** The family table is found under its own key. *)
Lemma NK_lookup_table_find :
  forallb (λ t : Z * Z * Fp8Rowwise.NKLookupTableType,
             bool_decide
               (Std.umap_find (Fp8Rowwise.IntTupleHash2 Std.hash)
                  Std.tuple2_eq Fp8Rowwise.NK_lookup_table t.1 = Some t))
    Fp8Rowwise.NK_lookup_table = true.
Proof. vm_compute. reflexivity. Qed.

Lemma rowwise_dispatch_family (nk : Z * Z)
    (table : Fp8Rowwise.NKLookupTableType) (M : Z) :
  (nk, table) ∈ Fp8Rowwise.NK_lookup_table →
  Fp8Rowwise.rowwise_dispatch M nk.1 nk.2
  = Fp8Rowwise.rowwise_nk_lookup M table.
Proof.
  intros Hin. destruct nk as [N K]. cbn [fst snd].
  unfold Fp8Rowwise.rowwise_dispatch, Fp8Rowwise.rowwise_dispatch_with.
  assert (Std.umap_find (Fp8Rowwise.IntTupleHash3 Std.hash) Std.tuple3_eq
            Fp8Rowwise.rowwise_lookup_dispatch (Fp8Rowwise.padded_m M, N, K)
          = None) as ->.
  { unfold Std.umap_find. apply find_None. intros e He.
    pose proof (forallb_elem_of _ _ rowwise_lookup_dispatch_family_free e He)
      as Hfree. cbv beta in Hfree.
    apply negb_true_iff, bool_decide_eq_false in Hfree.
    apply andb_false_iff. right.
    destruct (Std.tuple3_eq e.1 (Fp8Rowwise.padded_m M, N, K)) eqn:Heq;
      [|done].
    apply tuple3_eq_spec in Heq. exfalso. apply Hfree.
    destruct e as [[[m n] k] kernel]. cbn [fst snd] in *.
    injection Heq as _ -> ->.
    apply list_elem_of_fmap. exists ((N, K), table). done. }
  pose proof (forallb_elem_of _ _ NK_lookup_table_find _ Hin) as Hfind.
  cbv beta in Hfind. apply bool_decide_eq_true in Hfind.
  cbn [fst] in Hfind. rewrite Hfind. reflexivity.
Qed.

(** X13: no key of the exact table carries the (N, K) of a family
table. So for each of the nine (N, K) pairs that have a family table and
for every M, [rowwise_dispatch] is decided by the family table alone:
it returns the kernel of the smallest key of the table that is at least
M, and the kernel of the largest key when M exceeds them all; the
heuristic is never consulted for these shapes. *)
Theorem rowwise_dispatch_family_shapes (nk : Z * Z)
    (table : Fp8Rowwise.NKLookupTableType) (M : Z) :
  (nk, table) ∈ Fp8Rowwise.NK_lookup_table →
  Fp8Rowwise.rowwise_dispatch M nk.1 nk.2
  = Fp8Rowwise.rowwise_nk_lookup M table
  ∧ (∀ heuristic_dispatch,
       Fp8Rowwise.rowwise_dispatch_with Fp8Rowwise.rowwise_lookup_dispatch
         Fp8Rowwise.NK_lookup_table heuristic_dispatch M nk.1 nk.2
       = Fp8Rowwise.rowwise_dispatch M nk.1 nk.2)
  ∧ ∃ e, e ∈ table
         ∧ Fp8Rowwise.rowwise_dispatch M nk.1 nk.2 = Some e.2
         ∧ lower_bound_or_largest M table e.1.
Proof.
  intros Hin. pose proof (rowwise_dispatch_family nk table M Hin) as Hd.
  split; [exact Hd|]. split.
  - intros heuristic_dispatch.
    unfold Fp8Rowwise.rowwise_dispatch, Fp8Rowwise.rowwise_dispatch_with.
    destruct (Std.umap_find _ _ Fp8Rowwise.rowwise_lookup_dispatch _);
      [reflexivity|].
    pose proof (forallb_elem_of _ _ NK_lookup_table_find _ Hin) as Hfind.
    cbv beta in Hfind. apply bool_decide_eq_true in Hfind.
    destruct nk as [N K]. cbn [fst snd] in *. rewrite Hfind. reflexivity.
  - destruct (NK_lookup_table_well_formed nk table Hin) as [Hord Hne].
    destruct (selected_entry_spec M table Hord Hne) as (e & Hsel & Hmem & Hlb).
    exists e. split; [exact Hmem|]. split; [|exact Hlb].
    rewrite Hd, rowwise_nk_lookup_selected, Hsel. reflexivity.
Qed.

Lemma rowwise_dispatch_family_shapes_witness :
  Fp8Rowwise.rowwise_dispatch 100000 7168 8192
  = Fp8Rowwise.rowwise_nk_lookup 100000
      Fp8Rowwise.N_7168_K_8192_dispatch_table.
Proof.
  refine (proj1 (rowwise_dispatch_family_shapes (7168, 8192)
                   Fp8Rowwise.N_7168_K_8192_dispatch_table 100000 _)).
  rewrite NK_lookup_table_entries. apply list_elem_of_here.
Defined.

(** ** The row ranges of the groups of a ragged problem *)

Lemma sum_take_le (l : list Z) (a b : nat) :
  Forall (λ s, 0 ≤ s) l → (a ≤ b)%nat →
  foldr Z.add 0 (take a l) ≤ foldr Z.add 0 (take b l).
Proof.
  intros Hall. revert a b.
  induction Hall as [|x l Hx Hall IH]; intros a b Hab.
  { by rewrite !take_nil. }
  destruct a as [|a], b as [|b]; cbn [take foldr]; try lia.
  - assert (0 ≤ foldr Z.add 0 (take b l)); [|lia].
    clear -Hall. revert b. induction Hall as [|y l Hy Hall IH]; intros b.
    + by rewrite take_nil.
    + destruct b as [|b]; cbn [take foldr]; [lia|].
      specialize (IH b). lia.
  - specialize (IH a b ltac:(lia)). lia.
Qed.

Lemma sum_take_S (l : list Z) (i : nat) (x : Z) :
  l !! i = Some x →
  foldr Z.add 0 (take (S i) l) = foldr Z.add 0 (take i l) + x.
Proof.
  intros Hx. rewrite (take_S_r l i x Hx), foldr_app. cbn [foldr].
  generalize (take i l). intros l'.
  induction l' as [|y l' IH]; cbn [foldr]; lia.
Qed.

Section set_kernel_args_rows.
Import Fp8RowwiseGrouped.
Variables M_sizes offsets : option (list Z).
Variables M N K group_count : Z.
Variable input_type : option GroupedGemmInputType.

Local Notation "'resolve'" :=
  (resolve_group M_sizes offsets M N K input_type).
Local Notation "'well_formed'" :=
  (descriptor_well_formed M_sizes offsets M N K group_count input_type).

(** X14: in the two layouts with ragged M (an [M_sizes] descriptor, or
[offsets] with 2D-3D inputs) the groups that [set_kernel_args] gives
offsets occupy disjoint row ranges in increasing order: the first row of
a later group is at or after the last row of an earlier one. The offsets
of a group into [XQ] and into the output are its first row times K and
times N, and its weights are the whole matrices before it. *)
Theorem set_kernel_args_row_ranges_disjoint
    (i j : nat) (gi gj : Group) (oi oj : Offsets) :
  well_formed →
  is_Some M_sizes ∨ input_type = Some _2D3D →
  (i < j)%nat →
  resolve i = Some gi → resolve j = Some gj →
  offs gi = Some oi → offs gj = Some oj →
  0 ≤ x_scale_offset oi ∧ 0 ≤ M_group gi
  ∧ x_scale_offset oi + M_group gi ≤ x_scale_offset oj
  ∧ XQ_offset oi + M_group gi * K ≤ XQ_offset oj
  ∧ output_offset oi + M_group gi * N ≤ output_offset oj
  ∧ XQ_offset oi = x_scale_offset oi * K
  ∧ output_offset oi = x_scale_offset oi * N
  ∧ WQ_offset oi = Z.of_nat i * N * K.
Proof.
  intros (HG & HM & HN & HK & Hdesc) Hmode Hij Hgi Hgj Hoi Hoj.
  unfold resolve_group in Hgi, Hgj.
  destruct M_sizes as [ms|], offsets as [os|]; try done.
  - destruct Hdesc as [Hlen Hall].
    destruct (ms !! i) as [mi|] eqn:Hmi; [|done].
    destruct (ms !! j) as [mj|] eqn:Hmj; [|done].
    cbn [mbind option_bind] in Hgi, Hgj.
    destruct (0 <? mi) eqn:Hposi; [|by injection Hgi as <-].
    destruct (0 <? mj) eqn:Hposj; [|by injection Hgj as <-].
    injection Hgi as <-. injection Hgj as <-.
    cbn [offs] in Hoi, Hoj. injection Hoi as <-. injection Hoj as <-.
    cbn [x_scale_offset XQ_offset output_offset WQ_offset M_group].
    apply Z.ltb_lt in Hposi.
    pose proof (sum_take_le ms 0 i Hall ltac:(lia)) as H0.
    rewrite take_0 in H0. cbn [foldr] in H0.
    pose proof (sum_take_le ms (S i) j Hall ltac:(lia)) as Hle.
    rewrite (sum_take_S ms i mi Hmi) in Hle.
    repeat split; try done; try lia; nia.
  - destruct Hdesc as (Hlen & _ & Hsorted).
    destruct Hmode as [[? Hnone]|Hty]; [discriminate Hnone|].
    rewrite Hty in Hgi, Hgj. cbn [mbind option_bind] in Hgi, Hgj.
    rewrite !previous_offset_lookup in Hgi, Hgj.
    destruct ((0 :: os) !! i) as [pi|] eqn:Hpi; [|done].
    destruct (os !! i) as [ci|] eqn:Hci; [|done].
    destruct ((0 :: os) !! j) as [pj|] eqn:Hpj; [|done].
    destruct (os !! j) as [cj|] eqn:Hcj; [|done].
    cbn [mbind option_bind] in Hgi, Hgj.
    injection Hgi as <-. injection Hgj as <-.
    cbn [offs] in Hoi, Hoj. injection Hoi as <-. injection Hoj as <-.
    cbn [x_scale_offset XQ_offset output_offset WQ_offset M_group].
    assert (0 ≤ pi).
    { destruct i as [|i]; [injection Hpi as <-; lia|].
      eapply (StronglySorted_lookup_le (0 :: os) 0 (S i)); [done|lia|done..]. }
    assert (pi ≤ ci).
    { eapply (StronglySorted_lookup_le (0 :: os) i (S i)); [done|lia|done..]. }
    assert (ci ≤ pj).
    { destruct (decide (S i = j)) as [<-|Hne].
      - assert ((0 :: os) !! S i = os !! i) as Heq by reflexivity.
        rewrite Heq, Hci in Hpj. injection Hpj as <-. lia.
      - eapply (StronglySorted_lookup_le (0 :: os) (S i) j);
          [done|lia|done..]. }
    repeat split; try done; try lia; nia.
Qed.
End set_kernel_args_rows.

Lemma set_kernel_args_row_ranges_disjoint_witness :
  let resolve :=
    Fp8RowwiseGrouped.resolve_group (Some [0; 5; 0; 3]) None 0 512 1024
      None in
  ∃ gi gj oi oj,
    resolve 1%nat = Some gi ∧ resolve 3%nat = Some gj
    ∧ Fp8RowwiseGrouped.offs gi = Some oi
    ∧ Fp8RowwiseGrouped.offs gj = Some oj
    ∧ Fp8RowwiseGrouped.x_scale_offset oi + Fp8RowwiseGrouped.M_group gi
      ≤ Fp8RowwiseGrouped.x_scale_offset oj.
Proof.
  intros resolve.
  eexists _, _, _, _.
  split; [reflexivity|]. split; [reflexivity|].
  split; [reflexivity|]. split; [reflexivity|].
  refine (proj1 (proj2 (proj2
    (set_kernel_args_row_ranges_disjoint (Some [0; 5; 0; 3]) None 0 512 1024
       4 None 1 3 _ _ _ _ _ _ _ _ _ _ _)))).
  - repeat split; try lia. repeat constructor; lia.
  - left. by eexists.
  - lia.
  - reflexivity.
  - reflexivity.
  - reflexivity.
  - reflexivity.
Defined.

(** ** The key of the tuning cache *)

(** X15: the shape key of the tuning cache separates shapes: two
triples of dimensions have the same key exactly when they are the same
triple, negative dimensions included. So the kernels of shapes that
round to different powers of two are kept under different keys. *)
Theorem shape_key_injective (M N K M' N' K' : Z) :
  Fp8RowwiseGrouped.shape_key M N K = Fp8RowwiseGrouped.shape_key M' N' K'
  ↔ M = M' ∧ N = N' ∧ K = K'.
Proof.
  split; [|by intros (-> & -> & ->)].
  unfold Fp8RowwiseGrouped.shape_key. intros Heq.
  apply separator_splits_once in Heq as [HM Heq];
    [|apply to_string_separator_free..].
  apply separator_splits_once in Heq as [HN HK];
    [|apply to_string_separator_free..].
  unfold Fp8RowwiseGrouped.to_string in *.
  by apply (inj pretty) in HM, HN, HK.
Qed.

(** ** The list entry point on valid groups *)

Lemma bind_Ok {A B} (l : list Event) (a : A) (k : A → Eff B) :
  (mkEff l (Ok a) ≫= k) = mkEff (l ++ log (k a)) (outcome (k a)).
Proof. reflexivity. Qed.

Lemma for_each_mret {A} (body : A → Eff unit) (xs : list A) :
  (∀ x, x ∈ xs → body x = mret tt) → for_each body xs = mret tt.
Proof.
  induction xs as [|x xs IH]; intros Hall; [done|]. cbn [for_each].
  rewrite (Hall x (list_elem_of_here _ _)), mret_bind. apply IH.
  intros y Hy. apply Hall. by apply list_elem_of_further.
Qed.

Lemma for_each_emit {A} (body : A → Eff unit) (ev : Event) (xs : list A) :
  (∀ x, x ∈ xs → body x = emit ev) →
  for_each body xs = mkEff (replicate (length xs) ev) (Ok tt).
Proof.
  induction xs as [|x xs IH]; intros Hall; [done|]. cbn [for_each].
  rewrite (Hall x (list_elem_of_here _ _)), IH.
  - reflexivity.
  - intros y Hy. apply Hall. by apply list_elem_of_further.
Qed.

Lemma mapM_mret {A B} (f : A → Eff B) (g : A → B) (xs : list A) :
  (∀ x, x ∈ xs → f x = mret (g x)) → mapM f xs = mret (g <$> xs).
Proof.
  induction xs as [|x xs IH]; intros Hall; [done|]. cbn [mapM].
  rewrite (Hall x (list_elem_of_here _ _)), mret_bind, IH.
  - reflexivity.
  - intros y Hy. apply Hall. by apply list_elem_of_further.
Qed.

Lemma first_size_lookup (t : Tensor) :
  length (sizes t) = 2%nat → size t 0 = mret (first_size t).
Proof.
  intros Hlen. unfold first_size.
  destruct (lookup_lt_is_Some_2 (sizes t) 0 ltac:(lia)) as [s Hs].
  rewrite Hs. by apply size_lookup.
Qed.

Lemma second_size_lookup (t : Tensor) :
  length (sizes t) = 2%nat → size t 1 = mret (second_size t).
Proof.
  intros Hlen. unfold second_size.
  destruct (lookup_lt_is_Some_2 (sizes t) 1 ltac:(lia)) as [s Hs].
  rewrite Hs. by apply size_lookup.
Qed.
Section grouped_list.
Import Fp8RowwiseGrouped.
Variable arch : GPUArch.
Variable rowwise_grouped_heuristic_dispatch : Z → Z → Z → Z → string.

Lemma zip_fmap_self {A B} (h : A → B) (l : list A) :
  zip (h <$> l) l = (λ x, (h x, x)) <$> l.
Proof. induction l as [|x l IH]; [done|]. cbn. by rewrite IH. Qed.

(** X16: on lists that pass its checks, [f8f8bf16_rowwise_grouped]
launches [set_kernel_args_kernel] once per group, selects one kernel
for the shape made of the group count, the sum of the M of the groups,
the largest N and the largest K, launches it, and returns one bfloat16
tensor of shape [M_i x N_i] per group, written by that kernel, on the
device of the first activation. It does so for groups without rows as
well: the entry point has no early exit for an empty output. *)
Theorem f8f8bf16_rowwise_grouped_launches
    (XQ WQ x_scale w_scale : list Tensor) (float8_dtype : ScalarType)
    (name : string) (XQ_0 : Tensor) :
  get_float8_e4m3_dtype arch = mret (float8_dtype, name) →
  grouped_lists_valid float8_dtype XQ WQ x_scale w_scale →
  head XQ = Some XQ_0 →
  let shapes :=
    (λ xw : Tensor * Tensor, (first_size xw.1, first_size xw.2))
      <$> zip XQ WQ in
  let group_count := to_int (Z.of_nat (length XQ)) in
  let total_M := foldr Z.add 0 (fst <$> shapes) in
  let MaxN := foldl Z.max 0 (first_size <$> WQ) in
  let MaxK := foldl Z.max 0 (second_size <$> XQ) in
  let kernel :=
    rowwise_grouped_heuristic_dispatch group_count total_M MaxN MaxK in
  f8f8bf16_rowwise_grouped arch rowwise_grouped_heuristic_dispatch
    XQ WQ x_scale w_scale
  = mkEff
      (replicate (length XQ) (Launch "set_kernel_args_kernel")
       ++ [Select "rowwise_grouped_heuristic_dispatch"
             [group_count; total_M; MaxN; MaxK];
           Launch kernel])
      (Ok (AsList
             ((λ mn : Z * Z,
                 mkTensor kBFloat16 (is_cuda XQ_0) true (device XQ_0)
                   [mn.1; mn.2] (Output kernel))
                <$> shapes))).
Proof.
  intros Hdtype (Hne & HlW & Hlx & Hlw & HXQ & HWQ & Hxs & Hws) Hhead.
  intros shapes group_count total_M MaxN MaxK kernel.
  rewrite Forall_forall in HXQ, HWQ, Hxs, Hws.
  unfold f8f8bf16_rowwise_grouped, _f8f8bf16_rowwise_grouped.
  rewrite Hdtype, mret_bind. cbn [fst snd].
  rewrite !bool_decide_eq_true_2 by done. cbn [andb].
  rewrite TORCH_CHECK_true.
  rewrite (for_each_mret _ XQ), mret_bind.
  2:{ intros x (Hc & Hg & Hd & Ht)%HXQ.
      rewrite Hc, Hg. cbn [andb]. rewrite TORCH_CHECK_true.
      unfold dim. rewrite Hd. cbn [Z.of_nat Z.eqb Pos.eqb Pos.of_succ_nat Pos.succ].
      rewrite TORCH_CHECK_true.
      rewrite bool_decide_eq_true_2 by done. done. }
  rewrite (for_each_mret _ WQ), mret_bind.
  2:{ intros w (Hc & Hg & Hd & Ht & Hn & Hk)%HWQ.
      rewrite Hc, Hg. cbn [andb]. rewrite TORCH_CHECK_true.
      unfold dim. rewrite Hd. cbn [Z.of_nat Z.eqb Pos.eqb Pos.of_succ_nat Pos.succ].
      rewrite TORCH_CHECK_true.
      rewrite bool_decide_eq_true_2 by done. rewrite TORCH_CHECK_true.
      unfold TORCH_CHECK_, and_then, size_ge, fmap, Eff_fmap.
      rewrite (first_size_lookup w Hd), (second_size_lookup w Hd).
      rewrite !mret_bind.
      rewrite (proj2 (Z.leb_le _ _) Hn), !mret_bind.
      rewrite (proj2 (Z.leb_le _ _) Hk). done. }
  rewrite (for_each_mret _ x_scale), mret_bind.
  2:{ intros s Hs%Hxs. rewrite bool_decide_eq_true_2 by done. done. }
  rewrite (for_each_mret _ w_scale), mret_bind.
  2:{ intros s Hs%Hws. rewrite bool_decide_eq_true_2 by done. done. }
  rewrite (mapM_mret _
             (λ xw : Tensor * Tensor, (first_size xw.1, first_size xw.2))).
  2:{ intros [x w] Hxw. cbn [fst snd].
      pose proof (elem_of_zip_l _ _ _ _ Hxw) as (_ & _ & Hdx & _)%HXQ.
      pose proof (elem_of_zip_r _ _ _ _ Hxw) as (_ & _ & Hdw & _)%HWQ.
      rewrite (first_size_lookup x Hdx), mret_bind.
      rewrite (first_size_lookup w Hdw), mret_bind. done. }
  rewrite mret_bind. fold shapes. cbv zeta. fold total_M.
  destruct XQ as [|X0 XQ']; [done|].
  destruct WQ as [|W0 WQ']; [done|].
  cbn [head] in Hhead. injection Hhead as ->.
  unfold set_static_kernel_args.
  rewrite (for_each_emit _ (Launch "set_kernel_args_kernel")).
  2:{ intros [x w] Hxw. cbn [fst snd].
      pose proof (elem_of_zip_l _ _ _ _ Hxw) as (_ & _ & Hdx & _)%HXQ.
      pose proof (elem_of_zip_r _ _ _ _ Hxw) as (_ & _ & Hdw & _)%HWQ.
      rewrite (first_size_lookup x Hdx), mret_bind.
      rewrite (second_size_lookup x Hdx), mret_bind.
      rewrite (first_size_lookup w Hdw), mret_bind. done. }
  rewrite bind_Ok.
  rewrite (mapM_mret _ first_size (W0 :: WQ')).
  2:{ intros w (_ & _ & Hdw & _)%HWQ. by apply first_size_lookup. }
  rewrite mret_bind.
  rewrite (mapM_mret _ second_size (XQ_0 :: XQ')).
  2:{ intros x (_ & _ & Hdx & _)%HXQ. by apply second_size_lookup. }
  rewrite mret_bind. fold MaxN MaxK. fold group_count. fold kernel.
  set (Y := empty _ XQ_0 kBFloat16).
  set (g_out := mkTensor (dtype Y) (is_cuda Y) (is_contiguous Y) (device Y)
                  (sizes Y) (Output kernel)).
  assert (mapM (λ gs : Tensor * (Z * Z), view gs.1 [gs.2.1; gs.2.2])
            (zip (split g_out ((λ mn : Z * Z, mn.1 * mn.2) <$> shapes))
               shapes)
          = mret ((λ mn : Z * Z,
                     mkTensor kBFloat16 (is_cuda XQ_0) true (device XQ_0)
                       [mn.1; mn.2] (Output kernel)) <$> shapes)) as Hviews.
  { unfold split. rewrite <- list_fmap_compose, zip_fmap_self.
    rewrite (mapM_mret _
               (λ p : Tensor * (Z * Z),
                  mkTensor kBFloat16 (is_cuda XQ_0) true (device XQ_0)
                    [p.2.1; p.2.2] (Output kernel))).
    - by rewrite <- list_fmap_compose.
    - intros [t [m n]] Hin.
      apply list_elem_of_fmap in Hin as ([m' n'] & Heq & _).
      injection Heq as -> -> ->. cbn [fst snd compose].
      unfold view, numel. cbn [sizes foldr fst snd].
      replace (m' * n' * 1 =? m' * (n' * 1)) with true
        by (symmetry; apply Z.eqb_eq; lia).
      rewrite TORCH_CHECK_true. reflexivity. }
  change (run_kernel kernel Y) with (mkEff [Launch kernel] (Ok g_out)).
  change (emit (Select "rowwise_grouped_heuristic_dispatch"
                  [group_count; total_M; MaxN; MaxK]))
    with (mkEff [Select "rowwise_grouped_heuristic_dispatch"
                   [group_count; total_M; MaxN; MaxK]] (Ok tt)).
  rewrite !bind_Ok, Hviews.
  rewrite length_zip_with, <- HlW, Nat.min_id.
  reflexivity.
Qed.
End grouped_list.

Lemma f8f8bf16_rowwise_grouped_launches_witness :
  let XQ := [mkTensor kFloat8_e4m3fnuz true true 0 [0; 1024] Data;
             mkTensor kFloat8_e4m3fnuz true true 0 [0; 2048] Data] in
  let WQ := [mkTensor kFloat8_e4m3fnuz true true 0 [512; 1024] Data;
             mkTensor kFloat8_e4m3fnuz true true 0 [768; 2048] Data] in
  let x_scale := [mkTensor kFloat true true 0 [0] Data;
                  mkTensor kFloat true true 0 [0] Data] in
  let w_scale := [mkTensor kFloat true true 0 [512] Data;
                  mkTensor kFloat true true 0 [768] Data] in
  Fp8RowwiseGrouped.f8f8bf16_rowwise_grouped Fp8RowwiseGrouped.gfx942
    (λ _ _ _ _, "selected") XQ WQ x_scale w_scale
  = mkEff [Launch "set_kernel_args_kernel"; Launch "set_kernel_args_kernel";
           Select "rowwise_grouped_heuristic_dispatch" [2; 0; 768; 2048];
           Launch "selected"]
      (Ok (Fp8RowwiseGrouped.AsList
             [mkTensor kBFloat16 true true 0 [0; 512] (Output "selected");
              mkTensor kBFloat16 true true 0 [0; 768] (Output "selected")])).
Proof.
  intros XQ WQ x_scale w_scale.
  apply (f8f8bf16_rowwise_grouped_launches Fp8RowwiseGrouped.gfx942
           (λ _ _ _ _, "selected") XQ WQ x_scale w_scale kFloat8_e4m3fnuz
           "float8_e4m3fnuz"
           (mkTensor kFloat8_e4m3fnuz true true 0 [0; 1024] Data)).
  - reflexivity.
  - split; [done|]. do 3 (split; [reflexivity|]).
    repeat split; repeat constructor; vm_compute; congruence.
  - reflexivity.
Defined.

(** ** The bf16 list entry point *)

Lemma fmap_mret {A B} (f : A → B) (a : A) :
  (f <$> (mret a : Eff A)) = mret (f a).
Proof. reflexivity. Qed.

(** [nextPow2] is defined up to 1 and nowhere else: above 1 the
count of its shift is undefined or too large. *)
Lemma nextPow2_defined (num : Z) :
  Bf16GroupedArgs.nextPow2 num = if num <=? 1 then Some 1 else None.
Proof.
  unfold Bf16GroupedArgs.nextPow2, Bf16GroupedArgs.nextPow2_shift,
    Bf16GroupedArgs.builtin_clz, Bf16GroupedArgs.int_shl,
    Bf16GroupedArgs.CHAR_BIT, Bf16GroupedArgs.sizeof_num.
  destruct (num <=? 1); [reflexivity|].
  set (x := Bf16GroupedArgs.to_unsigned (num - 1)).
  destruct (decide (x = 0)) as [Hz|Hnz]; [reflexivity|].
  cbn [mbind option_bind].
  assert (0 < x < 2 ^ 32) as Hx.
  { pose proof (Z.mod_pos_bound (num - 1) (2 ^ 32) ltac:(lia)) as Hb.
    unfold x, Bf16GroupedArgs.to_unsigned in *. lia. }
  assert (0 ≤ Z.log2 x) by apply Z.log2_nonneg.
  rewrite decide_False by lia. reflexivity.
Qed.

(** The initializer list of the table has no key twice, so the table
holds its entries as they are written. *)
Lemma bf16_grouped_lookup_dispatch_entries :
  Bf16GroupedList.bf16_grouped_lookup_dispatch
  = Bf16GroupedList.bf16_grouped_lookup_dispatch_init.
Proof. vm_compute. reflexivity. Qed.

Lemma bf16_grouped_lookup_dispatch_keys :
  NoDup (fst <$> Bf16GroupedList.bf16_grouped_lookup_dispatch).
Proof. apply (bool_decide_unpack _). vm_compute. exact I. Qed.

(** The selector of the bf16 grouped GEMM: up to one row it pads M to
the group count, at least 1 and at most 8192, and takes the entry of
the table, or the default kernel when the table has none. *)
Lemma grouped_heuristic_dispatch_spec (G total_M N K : Z) :
  let key := (G, Z.min 8192 (Z.max 1 G), N, K) in
  (1 < total_M →
   Bf16GroupedList.grouped_heuristic_dispatch G total_M N K = None)
  ∧ (total_M ≤ 1 →
     ∃ kernel,
       Bf16GroupedList.grouped_heuristic_dispatch G total_M N K = Some kernel
       ∧ (∀ k, (key, k) ∈ Bf16GroupedList.bf16_grouped_lookup_dispatch →
               kernel = k)
       ∧ ((∀ k, (key, k) ∉ Bf16GroupedList.bf16_grouped_lookup_dispatch) →
          kernel
          = "bf16_grouped_256x128x128x64_32x32_2x2_8x32x1_8x32x1_1x32x1x8_8x8x1_1x1_interwave_v1")).
Proof.
  intros key. unfold Bf16GroupedList.grouped_heuristic_dispatch.
  rewrite nextPow2_defined. split.
  - intros Hgt. by rewrite (proj2 (Z.leb_gt _ _) Hgt).
  - intros Hle. rewrite (proj2 (Z.leb_le _ _) Hle).
    cbn [mbind option_bind]. cbv zeta.
    assert ((if (if 1 <? G then G else 1) >? 8192 then 8192
             else if 1 <? G then G else 1)
            = Z.min 8192 (Z.max 1 G)) as ->.
    { destruct (Z.ltb_spec 1 G);
        [destruct (Z.gtb_spec G 8192)|destruct (Z.gtb_spec 1 8192)]; lia. }
    fold key.
    pose proof (umap_find_unique (Bf16Grouped.IntTupleHash4 Std.hash)
                  Std.tuple4_eq Bf16GroupedList.bf16_grouped_lookup_dispatch
                  key (λ k', tuple4_eq_spec k' _)
                  bf16_grouped_lookup_dispatch_keys) as Hfind.
    destruct (Std.umap_find (Bf16Grouped.IntTupleHash4 Std.hash)
                Std.tuple4_eq Bf16GroupedList.bf16_grouped_lookup_dispatch
                key) as [[key' k0]|].
    + cbn [fst snd] in *. destruct Hfind as (-> & Hin & Huniq).
      exists k0. split; [reflexivity|]. split.
      * intros k Hk. symmetry. by apply Huniq.
      * intros Hno. exfalso. by apply (Hno k0).
    + eexists. split; [reflexivity|]. split; [|done].
      intros k Hk. exfalso. by apply (Hfind k).
Qed.

Section bf16_grouped_list.
Import Fp8RowwiseGrouped Bf16GroupedList.
Variable stream : Z.

(** The call on valid lists, with the selector left as it is. *)
Lemma bf16bf16bf16_grouped_run (A B : list Tensor) (A_0 : Tensor) :
  bf16_lists_valid A B →
  head A = Some A_0 →
  let shapes :=
    (λ ab : Tensor * Tensor, (first_size ab.1, first_size ab.2))
      <$> zip A B in
  let total_output_size :=
    foldr Z.add 0 ((λ mn : Z * Z, mn.1 * mn.2) <$> shapes) in
  let group_count := to_int (Z.of_nat (length A)) in
  let MaxM := foldl Z.max 0 (first_size <$> A) in
  let MaxN := foldl Z.max 0 (first_size <$> B) in
  let MaxK := foldl Z.max 0 (second_size <$> A) in
  let setup :=
    if (16 <=? Z.of_nat (length A)) && (stream =? 0) then []
    else replicate (length A) (Launch "set_kernel_args_kernel") in
  let select :=
    Select "grouped_heuristic_dispatch" [group_count; MaxM; MaxN; MaxK] in
  let outputs (fill : Fill) :=
    AsList ((λ mn : Z * Z,
               mkTensor kBFloat16 (is_cuda A_0) true (device A_0)
                 [mn.1; mn.2] fill) <$> shapes) in
  bf16bf16bf16_grouped stream A B
  = if 0 <? total_output_size then
      match grouped_heuristic_dispatch group_count MaxM MaxN MaxK with
      | Some kernel =>
          mkEff (setup ++ [select; Launch kernel])
            (Ok (outputs (Output kernel)))
      | None => mkEff (setup ++ [select]) Fault
      end
    else mkEff [] (Ok (outputs Uninit)).
Proof.
  intros (Hne & Hlen & HA & HB) Hhead.
  intros shapes total_output_size group_count MaxM MaxN MaxK setup select
    outputs.
  rewrite Forall_forall in HA, HB.
  assert (∀ t, t ∈ A ∨ t ∈ B →
            (TORCH_CHECK (is_cuda t && is_contiguous t) "" ;;
             TORCH_CHECK (dim t =? 2) "Inputs must be 2D." ;;
             TORCH_CHECK (bool_decide (dtype t = kBFloat16))
               "Inputs must be type bfloat16.")
            = mret tt) as Hcheck.
  { intros t [(Hc & Hg & Hd & Ht)%HA|(Hc & Hg & Hd & Ht)%HB].
    all: rewrite Hc, Hg; cbn [andb]; rewrite TORCH_CHECK_true.
    all: unfold dim; rewrite Hd;
      cbn [Z.of_nat Z.eqb Pos.eqb Pos.of_succ_nat Pos.succ];
      rewrite TORCH_CHECK_true.
    all: rewrite bool_decide_eq_true_2 by done; done. }
  unfold bf16bf16bf16_grouped, _bf16bf16bf16_grouped.
  rewrite bool_decide_eq_true_2 by done. rewrite TORCH_CHECK_true.
  cbv zeta.
  rewrite (for_each_mret _ A), mret_bind by (intros; apply Hcheck; auto).
  rewrite (for_each_mret _ B), mret_bind by (intros; apply Hcheck; auto).
  rewrite (mapM_mret _
             (λ ab : Tensor * Tensor, (first_size ab.1, first_size ab.2))).
  2:{ intros [a b] Hab. cbn [fst snd].
      pose proof (elem_of_zip_l _ _ _ _ Hab) as (_ & _ & Hda & _)%HA.
      pose proof (elem_of_zip_r _ _ _ _ Hab) as (_ & _ & Hdb & _)%HB.
      rewrite (first_size_lookup a Hda), mret_bind.
      rewrite (first_size_lookup b Hdb), mret_bind. done. }
  rewrite mret_bind. fold shapes. fold total_output_size.
  destruct A as [|A0 A']; [done|].
  destruct B as [|B0 B']; [done|].
  cbn [head] in Hhead. injection Hhead as ->.
  unfold numel. cbn [sizes empty foldr]. rewrite Z.mul_1_r.
  assert (∀ (fill : Fill),
            mapM (λ gs : Tensor * (Z * Z), view gs.1 [gs.2.1; gs.2.2])
              (zip (split (mkTensor kBFloat16 (is_cuda A_0) true
                             (device A_0) [total_output_size] fill)
                      ((λ mn : Z * Z, mn.1 * mn.2) <$> shapes))
                 shapes)
            = mret ((λ mn : Z * Z,
                       mkTensor kBFloat16 (is_cuda A_0) true (device A_0)
                         [mn.1; mn.2] fill) <$> shapes)) as Hviews.
  { intros fill. unfold split. rewrite <- list_fmap_compose, zip_fmap_self.
    rewrite (mapM_mret _
               (λ p : Tensor * (Z * Z),
                  mkTensor kBFloat16 (is_cuda A_0) true (device A_0)
                    [p.2.1; p.2.2] fill)).
    - by rewrite <- list_fmap_compose.
    - intros [t [m n]] Hin.
      apply list_elem_of_fmap in Hin as ([m' n'] & Heq & _).
      injection Heq as -> -> ->. cbn [fst snd compose].
      unfold view, numel. cbn [sizes foldr fst snd].
      replace (m' * n' * 1 =? m' * (n' * 1)) with true
        by (symmetry; apply Z.eqb_eq; lia).
      rewrite TORCH_CHECK_true. reflexivity. }
  destruct (0 <? total_output_size).
  - assert (set_static_kernel_args stream (A_0 :: A') (B0 :: B')
            = mkEff setup (Ok tt)) as ->.
    { unfold set_static_kernel_args, setup. cbv zeta.
      destruct ((16 <=? _) && (stream =? 0)).
      - apply for_each_mret. intros [a b] Hab. cbn [fst snd].
        pose proof (elem_of_zip_l _ _ _ _ Hab) as (_ & _ & Hda & _)%HA.
        pose proof (elem_of_zip_r _ _ _ _ Hab) as (_ & _ & Hdb & _)%HB.
        rewrite (first_size_lookup a Hda), mret_bind.
        rewrite (second_size_lookup a Hda), mret_bind.
        rewrite (first_size_lookup b Hdb), mret_bind. done.
      - rewrite (for_each_emit _ (Launch "set_kernel_args_kernel")).
        + by rewrite length_zip_with, <- Hlen, Nat.min_id.
        + intros [a b] Hab. cbn [fst snd].
          pose proof (elem_of_zip_l _ _ _ _ Hab) as (_ & _ & Hda & _)%HA.
          pose proof (elem_of_zip_r _ _ _ _ Hab) as (_ & _ & Hdb & _)%HB.
          rewrite (first_size_lookup a Hda), mret_bind.
          rewrite (second_size_lookup a Hda), mret_bind.
          rewrite (first_size_lookup b Hdb), mret_bind. done. }
    rewrite (mapM_mret (λ a : Tensor, size a 0) first_size (A_0 :: A'))
      by (intros a (_ & _ & Hda & _)%HA; by apply first_size_lookup).
    rewrite (mapM_mret (λ b : Tensor, size b 0) first_size (B0 :: B'))
      by (intros b (_ & _ & Hdb & _)%HB; by apply first_size_lookup).
    rewrite (mapM_mret (λ a : Tensor, size a 1) second_size (A_0 :: A'))
      by (intros a (_ & _ & Hda & _)%HA; by apply second_size_lookup).
    rewrite !mret_bind. fold MaxM MaxN MaxK group_count select.
    destruct (grouped_heuristic_dispatch group_count MaxM MaxN MaxK)
      as [kernel|].
    + unfold run_kernel, emit. rewrite !bind_Ok. cbn [log outcome app].
      cbn [mret Eff_ret log outcome dtype is_cuda is_contiguous device sizes
           empty].
      rewrite bind_Ok, Hviews, fmap_mret.
      cbn [mret Eff_ret log outcome]. by rewrite app_nil_r.
    + reflexivity.
  - rewrite mret_bind. unfold empty. rewrite Hviews. reflexivity.
Qed.

End bf16_grouped_list.


Lemma nextPow2_shift_count_witness :
  Bf16GroupedArgs.nextPow2_shift 2 = Some 33
  ∧ Bf16GroupedArgs.nextPow2 2 = None.
Proof.
  destruct (proj2 (nextPow2_shift_count 2)) as (shift & Hs & _ & _ & Hn);
    [lia|vm_compute; discriminate|].
  split; [reflexivity|exact Hn].
Defined.
